(** * Light painter: a shallow embedding of [Light_painter.ino]

    The sketch targets a 16 MHz AVR (Arduino UNO): [int] is 16 bits wide,
    [long] 32 bits, and [double] is the 32-bit IEEE format.  Integers are
    modelled as [Z] with the wrap-around of each C type written out. *)

From Stdlib Require Import ZArith Lia List Bool Ascii String.
From stdpp Require Import base gmap list strings.

Local Open Scope Z_scope.

(** ** Machine integers of the AVR target *)

Module Mach.

Definition wrap (bits x : Z) : Z := x mod 2 ^ bits.

Definition swrap (bits x : Z) : Z :=
  let m := x mod 2 ^ bits in
  if m <? 2 ^ (bits - 1) then m else m - 2 ^ bits.

Definition u8  : Z -> Z := wrap 8.    (* uint8_t  *)
Definition u16 : Z -> Z := wrap 16.   (* uint16_t, unsigned int, size_t *)
Definition u32 : Z -> Z := wrap 32.   (* uint32_t, unsigned long *)
Definition int : Z -> Z := swrap 16.  (* int *)

(** Arduino's [map(x, in_min, in_max, out_min, out_max)], on [long]. *)
Definition map (x in_min in_max out_min out_max : Z) : Z :=
  swrap 32 (Z.quot (swrap 32 ((x - in_min) * (out_max - out_min)))
                   (in_max - in_min) + out_min).

End Mach.

(** ** Configurable and fixed constants of the sketch *)

Definition N_LEDS      : Z := 144.
Definition CURRENT_MAX : Z := 3500.
Definition OVERHEAD    : Z := 150.
Definition NEO_RED   : nat := 0.
Definition NEO_GREEN : nat := 1.
Definition NEO_BLUE  : nat := 2.
Definition BMP_BLUE  : nat := 0.
Definition BMP_GREEN : nat := 1.
Definition BMP_RED   : nat := 2.

(** Length of the [fileIndex] array. *)
Definition FILE_INDEX_LEN : Z := 30.

(** ** Halting: [error()] prints two lines and hangs *)

Inductive fault : Type :=
  | CantOpenFile        (* "Failed :(" / "can't open file" *)
  | FormatNotRecognized (* ":( BMP format" / " not recognized." *)
  | CreateFileError     (* ":( error" / "creating file" *)
  | ReadError           (* ":( Read error" / "during raw conv." *)
  | WriteError          (* ":( Write error" / "during raw conv." *)
  | RawFileError        (* "raw file error" / "re-scan needed!" *)
  | CantOpenRaw         (* "Error :(" / "can't open raw file" *)
  | BufferOverrun.      (* a store past the end of [sdBuf]: undefined in C *)

(** ** EEPROM settings *)

Record settings : Type := MkSettings {
  SetBrightness : Z;
  Speed : Z;
  Delay : Z
}.

(** Power-on values of the three globals. *)
Definition default_settings : settings :=
  {| SetBrightness := 125; Speed := 125; Delay := 0 |}.

(** An erased EEPROM cell reads 0xFF. *)
Definition EEPROM_read (e : gmap Z Z) (a : Z) : Z := default 255 (e !! a).

(** [EEPROM.update]: write the byte only when it differs from the cell. *)
Definition EEPROM_update (a v : Z) (e : gmap Z Z) : gmap Z Z :=
  if EEPROM_read e a =? Mach.u8 v then e else <[a := Mach.u8 v]> e.

Definition saveConfig (s : settings) (e : gmap Z Z) : gmap Z Z :=
  EEPROM_update 3 (Delay s)
    (EEPROM_update 2 (Speed s)
      (EEPROM_update 1 (SetBrightness s)
        (EEPROM_update 0 66 e))).

Definition loadConfig (e : gmap Z Z) (s : settings) : settings :=
  if EEPROM_read e 0 =? 66
  then {| SetBrightness := EEPROM_read e 1;
          Speed := EEPROM_read e 2;
          Delay := EEPROM_read e 3 |}
  else s.

Definition saveBrightness (s : settings) (e : gmap Z Z) : gmap Z Z :=
  EEPROM_update 1 (SetBrightness s) (EEPROM_update 0 66 e).

Definition is_u8 (v : Z) : Prop := 0 <= v < 256.

Definition u8_settings (s : settings) : Prop :=
  is_u8 (SetBrightness s) /\ is_u8 (Speed s) /\ is_u8 (Delay s).

(** ** Directory scanning *)

(** One entry as [openNext] delivers it: the name [getName] returns, the
    two attribute tests and the position [dirIndex()] in the directory. *)
Record dirEntry : Type := MkEntry {
  name : string;
  isSubDir : bool;
  isHidden : bool;
  dirIndex : Z
}.

(** C's [strstr]: offset of the first occurrence, [None] for a null result. *)
Fixpoint strstr (hay needle : string) : option nat :=
  if String.prefix needle hay then Some 0%nat
  else match hay with
       | EmptyString => None
       | String _ rest => S <$> strstr rest needle
       end.

(** The test both scans apply to an entry. *)
Definition eligible (d : dirEntry) : bool :=
  negb (isSubDir d) && negb (isHidden d) && bool_decide (is_Some (strstr (name d) "bmp")).

(** The index globals.  [fileIndex] has [FILE_INDEX_LEN] cells; a store
    with a larger subscript lands in whatever follows the array, which is
    recorded in [spill] as (subscript, byte) in program order. *)
Record index_state : Type := MkIndex {
  fileIndex : list Z;
  nFrames : Z;
  spill : list (Z * Z)
}.

Definition index_init : index_state :=
  {| fileIndex := replicate (Z.to_nat FILE_INDEX_LEN) 0; nFrames := 0; spill := [] |}.

(** [fileIndex[i] = v] with [i], [v] of type [uint8_t]. *)
Definition store_fileIndex (i v : Z) (st : index_state) : index_state :=
  if i <? FILE_INDEX_LEN
  then {| fileIndex := <[Z.to_nat i := Mach.u8 v]> (fileIndex st);
          nFrames := nFrames st; spill := spill st |}
  else {| fileIndex := fileIndex st;
          nFrames := nFrames st; spill := spill st ++ [(i, Mach.u8 v)] |}.

Definition incr_nFrames (st : index_state) : index_state :=
  {| fileIndex := fileIndex st; nFrames := Mach.u8 (nFrames st + 1); spill := spill st |}.

Definition reset_nFrames (st : index_state) : index_state :=
  {| fileIndex := fileIndex st; nFrames := 0; spill := spill st |}.

(** [shortScan]: one pass over the directory, no conversion. *)
Fixpoint shortScan_loop (dir : list dirEntry) (st : index_state) : index_state :=
  match dir with
  | [] => st
  | d :: rest =>
      shortScan_loop rest
        (if eligible d
         then incr_nFrames (store_fileIndex (nFrames st) (dirIndex d) st)
         else st)
  end.

Definition shortScan (dir : list dirEntry) (st : index_state) : index_state :=
  shortScan_loop dir st.

(** [completeScan] without [CONSISTENT].  [convert d b] stands for the two
    calls [getFileName(infile, i, 0); bmpProcess(infile, outfile, &b);]
    made for entry [d]: [None] when the conversion ends in [error()],
    otherwise the value left in [b]. *)
Section CompleteScan.

Variable convert : dirEntry -> Z -> option Z.

Fixpoint completeScan_loop (dir : list dirEntry) (minBrightness : Z)
    (st : index_state) : option index_state :=
  match dir with
  | [] => Some st
  | d :: rest =>
      if eligible d
      then
        let st1 := store_fileIndex (nFrames st) (dirIndex d) st in
        match convert d minBrightness with
        | None => None
        | Some b =>
            completeScan_loop rest
              (if b <? minBrightness then b else minBrightness)
              (incr_nFrames st1)
        end
      else completeScan_loop rest minBrightness st
  end.

Definition completeScan (s : settings) (dir : list dirEntry)
    (st : index_state) : option index_state :=
  completeScan_loop dir (Mach.u8 (Mach.map (SetBrightness s) 0 255 1 255))
                    (reset_nFrames st).

End CompleteScan.

(** ** Speed check *)

Module Speed.

(** What [checkSpeed] learns about the raw file of one index entry. *)
Record rawFile : Type := MkRaw {
  contiguousRange : option (Z * Z);   (* first and last block, when contiguous *)
  fileSize : Z
}.

(** [benchmark]: a do-while over [n] block reads, keeping the largest
    elapsed time.  [latency blk] is the [micros()] difference measured
    around the read of block [blk].  The loop tests [--n], so [n = 0]
    runs 2^32 times. *)
Fixpoint benchmark_loop (latency : Z -> Z) (count : nat) (block maxTime : Z) : Z :=
  match count with
  | O => maxTime
  | S k =>
      let t := Mach.u32 (latency block) in
      benchmark_loop latency k (Mach.u32 (block + 1)) (if t >? maxTime then t else maxTime)
  end.

Definition benchmark (latency : Z -> Z) (block n : Z) : Z :=
  benchmark_loop latency (Z.to_nat (if n =? 0 then 2 ^ 32 else n)) block 0.

(** The lines-per-second figure derived from one worst-case read time. *)
Definition linesPerSec (worst : Z) : Z :=
  Mach.u16 (1000000 /
            Mach.u32 (Mach.u32 (Mach.u32 (worst * 21) / 20 + N_LEDS * 30) + OVERHEAD)).

Record speed_state : Type := MkSpeed {
  maxLPS : Z;
  firstBlock : Z;
  nBlocks : Z
}.

Inductive outcome (A : Type) : Type :=
  | Done (a : A)
  | Halt (f : fault).
Arguments Done {A} a.
Arguments Halt {A} f.

(** [checkSpeed]: [raw i] is the result of opening the raw file of entry
    [i] ([None] when it cannot be opened). *)
Fixpoint checkSpeed_loop (raw : Z -> option rawFile) (latency : Z -> Z)
    (count : nat) (i : Z) (st : speed_state) : outcome speed_state :=
  match count with
  | O => Done st
  | S k =>
      match raw i with
      | None => Halt CantOpenRaw
      | Some f =>
          match contiguousRange f with
          | None => Halt RawFileError
          | Some (first, _) =>
              let nb := Mach.u32 (fileSize f / 512) in
              let n := linesPerSec (benchmark latency first nb) in
              checkSpeed_loop raw latency k (i + 1)
                {| maxLPS := if n >? maxLPS st then n else maxLPS st;
                   firstBlock := first; nBlocks := nb |}
          end
      end
  end.

Definition checkSpeed (raw : Z -> option rawFile) (latency : Z -> Z)
    (frames : Z) (st : speed_state) : outcome speed_state :=
  checkSpeed_loop raw latency (Z.to_nat frames) 0 st.

(** The step [setup] and the brightness menu run:
    [checkSpeed(); if(maxLPS > 400) maxLPS = 400;] *)
Definition speedCheckStep (raw : Z -> option rawFile) (latency : Z -> Z)
    (frames : Z) (st : speed_state) : outcome speed_state :=
  match checkSpeed raw latency frames st with
  | Halt f => Halt f
  | Done st' =>
      Done (if maxLPS st' >? 400
            then {| maxLPS := 400; firstBlock := firstBlock st'; nBlocks := nBlocks st' |}
            else st')
  end.

(** The per-frame rates [checkSpeed] derives, in index order. *)
Definition frameRate (latency : Z -> Z) (f : rawFile) : Z :=
  match contiguousRange f with
  | Some (first, _) => linesPerSec (benchmark latency first (Mach.u32 (fileSize f / 512)))
  | None => 0
  end.

End Speed.

(** ** Binary floating point, as far as [bmpProcess] needs it

    [lineMax / CORRECTION_FACTOR] converts a [uint32_t] to [double],
    divides by the literal 1.4 and converts back.  Only finite positive
    values in the normal range occur; each operation rounds the exact
    result to [prec] significant bits, ties to even. *)

Module Flt.

(** The value [mant * 2 ^ expo]. *)
Record t : Type := mk { mant : Z; expo : Z }.

(** Significand width of avr-gcc's [double]. *)
Definition double_prec : Z := 24.

(** [num / den] rounded to the nearest integer, ties to even. *)
Definition rne (num den : Z) : Z :=
  let q := num / den in
  let r := num mod den in
  if 2 * r <? den then q
  else if 2 * r >? den then q + 1
  else if Z.even q then q else q + 1.

Definition pow2 (k : Z) : Z := 2 ^ Z.max 0 k.

(** The float nearest to the positive rational [num / den]. *)
Definition round (prec num den : Z) : t :=
  if num <=? 0 then mk 0 0
  else
    let e0 := Z.log2 num - Z.log2 den in
    let e := if num * pow2 (- e0) <? den * pow2 e0 then e0 - 1 else e0 in
    let s := e - (prec - 1) in
    mk (rne (num * pow2 (- s)) (den * pow2 s)) s.

Definition of_Z (prec x : Z) : t := round prec x 1.

Definition div (prec : Z) (a b : t) : t :=
  round prec (mant a * pow2 (expo a - expo b)) (mant b * pow2 (expo b - expo a)).

(** Conversion to an unsigned integer discards the fraction. *)
Definition to_Z (a : t) : Z :=
  if expo a >=? 0 then mant a * 2 ^ expo a else mant a / 2 ^ (- expo a).

End Flt.

(** [#define CORRECTION_FACTOR 1.4] *)
Definition CORRECTION_FACTOR (prec : Z) : Flt.t := Flt.round prec 14 10.

(** ** BMP to raw conversion *)

Module Bmp.

(** What the conversion does to the card, in program order. *)
Inductive event : Type :=
  | EvRemove (name : string)                 (* sd.remove(outName) *)
  | EvCreate (name : string) (size : Z)      (* outFile.createContiguous(.., size) *)
  | EvWrite (block : Z) (data : list Z).     (* sd.card()->writeBlock(block, sdBuf) *)

(** The card's answers: the first block of a contiguous file when it can
    be created, and whether a raw block write succeeds. *)
Record card : Type := MkCard {
  createContiguous : string -> Z -> option Z;
  writeBlock : Z -> bool
}.

(** The globals [bmpProcess] touches, and the card operations so far. *)
Record state : Type := MkState {
  sdBuf : list Z;
  firstBlock : Z;
  nBlocks : Z;
  trace : list event
}.

Inductive outcome (A : Type) : Type :=
  | Done (a : A) (st : state)
  | Halt (f : fault) (st : state).
Arguments Done {A} a st.
Arguments Halt {A} f st.

(** An open [SdFile]: its bytes and the read position. *)
Record SdFile : Type := MkFile {
  data : list Z;
  curPosition : Z
}.

Definition size (f : SdFile) : Z := Z.of_nat (length (data f)).

(** [seekSet] refuses a position past the end and leaves the file as it was. *)
Definition seekSet (pos : Z) (f : SdFile) : SdFile :=
  if pos >? size f then f else {| data := data f; curPosition := pos |}.

(** [read(buf, nbyte)]: at most the bytes left; the result is their number. *)
Definition read (nbyte : Z) (f : SdFile) : list Z * SdFile :=
  let left := size f - curPosition f in
  let n := if nbyte >=? left then left else nbyte in
  (take (Z.to_nat n) (drop (Z.to_nat (curPosition f)) (data f)),
   {| data := data f; curPosition := curPosition f + n |}).

(** Bytes stored at [buf + off]. *)
Definition blit (off : nat) (bytes buf : list Z) : list Z :=
  take off buf ++ bytes ++ drop (off + length bytes) buf.

(** The 16-bit and 32-bit loads from [&sdBuf[off]] on the little-endian
    AVR. *)
Definition load16 (buf : list Z) (off : nat) : Z :=
  buf !!! off + 256 * buf !!! S off.

Definition load32 (buf : list Z) (off : nat) : Z :=
  load16 buf off + 65536 * load16 buf (off + 2).

(** The header test of [bmpProcess], on the buffer after the 34-byte read. *)
Definition header_ok (buf : list Z) : bool :=
  (load16 buf 0 =? 19778 (* 0x4D42 *)) && (load16 buf 26 =? 1)
  && (load16 buf 28 =? 24) && (load32 buf 30 =? 0).

(** [if(b) (v * b16) >> 8 else v], stored in a [uint8_t]. *)
Definition scale (b v : Z) : Z :=
  if b =? 0 then v else Mach.u8 (Z.shiftr (Mach.u16 (v * b)) 8).

(** Crop or centre: first BMP column, byte offset of [ledStartPtr] in
    [sdBuf], number of columns, and whether [sdBuf] is cleared first. *)
Definition geometry (bmpWidth : Z) : Z * Z * Z * bool :=
  if bmpWidth >=? N_LEDS
  then (Mach.int (Z.quot (Mach.int (bmpWidth - N_LEDS)) 2), 0, N_LEDS, false)
  else (0, Mach.int (Z.quot (Mach.int (N_LEDS - bmpWidth)) 2 * 3), bmpWidth, true).

(** [lineMax = (lineMax * 20) / 255; lineMax = lineMax / CORRECTION_FACTOR;] *)
Definition estimatedCurrent (prec lineMax : Z) : Z :=
  let mA := Mach.u32 (lineMax * 20) / 255 in
  Mach.u32 (Flt.to_Z (Flt.div prec (Flt.of_Z prec mA) (CORRECTION_FACTOR prec))).

(** The value left in [*brightness]. *)
Definition suggestedBrightness (prec brightness lineMax : Z) : Z :=
  let est := estimatedCurrent prec lineMax in
  if est >? CURRENT_MAX
  then Mach.u8 (Mach.u32 (brightness * CURRENT_MAX) / est)
  else brightness.

Section Tables.

(** The tables of [gamma.h], read with [pgm_read_byte]. *)
Variable gamma : Z -> Z.
Variable bump : Z -> Z.
Variable dither : Z -> Z -> Z.

(** One colour byte: gamma, then the dither bump. *)
Definition correct (d raw : Z) : Z :=
  let corr := Mach.u8 (gamma raw) in
  if Mach.u8 (bump raw) >? d then Mach.u8 (corr + 1) else corr.

(** One pixel at [ledPtr]: scale and reorder into [pixel], then the
    three corrected bytes are stored back in place and summed. *)
Definition do_pixel (b d : Z) (ptr : nat) (buf : list Z) (sum : Z) : list Z * Z :=
  let pixel := <[NEO_RED := scale b (buf !!! (ptr + BMP_RED)%nat)]>
               (<[NEO_GREEN := scale b (buf !!! (ptr + BMP_GREEN)%nat)]>
                (<[NEO_BLUE := scale b (buf !!! (ptr + BMP_BLUE)%nat)]> [0; 0; 0])) in
  let c0 := correct d (pixel !!! 0%nat) in
  let c1 := correct d (pixel !!! 1%nat) in
  let c2 := correct d (pixel !!! 2%nat) in
  (<[(ptr + 2)%nat := c2]> (<[(ptr + 1)%nat := c1]> (<[ptr := c0]> buf)),
   Mach.u32 (Mach.u32 (Mach.u32 (sum + c0) + c1) + c2)).

(** [for(column=0; column<columns; column++)] *)
Fixpoint columns_loop (b row : Z) (count : nat) (column : Z) (ptr : nat)
    (buf : list Z) (sum : Z) : list Z * Z :=
  match count with
  | O => (buf, sum)
  | S k =>
      let d := Mach.u8 (dither (Z.land row 15) (Z.land column 15)) in
      let '(buf', sum') := do_pixel b d ptr buf sum in
      columns_loop b row k (column + 1) (ptr + 3)%nat buf' sum'
  end.

(** The per-image values the row loop works with. *)
Record job : Type := MkJob {
  outName : option string;
  b16 : Z;
  bmpImageoffset : Z;
  rowSize : Z;
  bmpHeight : Z;
  flip : bool;
  bmpStartCol : Z;
  ledStart : Z;
  columns : Z
}.

(** File position of the first byte loaded for [row]. *)
Definition rowPosition (j : job) (row : Z) : Z :=
  Mach.u32 (bmpImageoffset j + Mach.int (bmpStartCol j * 3)
            + rowSize j * (if flip j
                           then Mach.int (Mach.int (bmpHeight j - 1) - row)
                           else row)).

(** [for(row=0; row<bmpHeight; row++)], returning [lineMax]. *)
Fixpoint rows_loop (c : card) (j : job) (count : nat) (row : Z)
    (inFile : SdFile) (lineMax : Z) (st : state) : outcome Z :=
  match count with
  | O => Done lineMax st
  | S k =>
      let '(bytes, inFile') :=
        read (Mach.u16 (Mach.int (columns j * 3))) (seekSet (rowPosition j row) inFile) in
      if bool_decide (bytes = []) then Halt ReadError st
      else if (ledStart j <? 0) || (ledStart j + Z.of_nat (length bytes) >? 512)
      then Halt BufferOverrun st
      else
        let '(buf, sum) :=
          columns_loop (b16 j) row (Z.to_nat (columns j)) 0 (Z.to_nat (ledStart j))
            (blit (Z.to_nat (ledStart j)) bytes (sdBuf st)) 0 in
        let st1 := {| sdBuf := buf; firstBlock := firstBlock st;
                      nBlocks := nBlocks st; trace := trace st |} in
        let lineMax' := if sum >? lineMax then sum else lineMax in
        match outName j with
        | Some _ =>
            let blk := Mach.u32 (firstBlock st + row) in
            let st2 := {| sdBuf := buf; firstBlock := firstBlock st; nBlocks := nBlocks st;
                          trace := trace st ++ [EvWrite blk buf] |} in
            if writeBlock c blk
            then rows_loop c j k (row + 1) inFile' lineMax' st2
            else Halt WriteError st1
        | None => rows_loop c j k (row + 1) inFile' lineMax' st1
        end
  end.

(** [bmpProcess(inName, outName, brightness)].  [inFile] is the content
    of the file [inName] when it can be opened; the result is the value
    left in [*brightness]. *)
Definition bmpProcess (prec : Z) (c : card) (inFile : option (list Z))
    (outName : option string) (brightness : option Z) (st : state)
    : outcome (option Z) :=
  let b := match brightness with Some v => Mach.u8 (1 + v) | None => 0 end in
  if bool_decide (brightness = None /\ outName = None) then Done brightness st
  else
  match inFile with
  | None => Halt CantOpenFile st
  | Some bytes =>
      let '(hdr, f) := read 34 {| data := bytes; curPosition := 0 |} in
      let st0 := {| sdBuf := blit 0 hdr (sdBuf st); firstBlock := firstBlock st;
                    nBlocks := nBlocks st; trace := trace st |} in
      if negb (bool_decide (hdr = [])) && header_ok (sdBuf st0) then
        let bmpImageoffset := load32 (sdBuf st0) 10 in
        let bmpWidth := Mach.int (load32 (sdBuf st0) 18) in
        let bmpHeight := Mach.int (load32 (sdBuf st0) 22) in
        let created : outcome unit :=
          match outName with
          | None => Done tt st0
          | Some out =>
              let sz := Mach.u32 (512 * bmpHeight) in
              let tr := trace st0 ++ [EvRemove out; EvCreate out sz] in
              match createContiguous c out sz with
              | Some first =>
                  Done tt {| sdBuf := sdBuf st0; firstBlock := first;
                             nBlocks := Mach.u32 bmpHeight; trace := tr |}
              | None =>
                  Halt CreateFileError
                       {| sdBuf := sdBuf st0; firstBlock := firstBlock st0;
                          nBlocks := nBlocks st0; trace := tr |}
              end
          end in
        match created with
        | Halt e st1 => Halt e st1
        | Done _ st1 =>
            let rowSize := Mach.u32 (Z.land (Mach.int (Mach.int (bmpWidth * 3) + 3)) (-4)) in
            let flip := bmpHeight <? 0 in
            let bmpHeight := if flip then Mach.int (- bmpHeight) else bmpHeight in
            let '(bmpStartCol, ledStart, columns, clear) := geometry bmpWidth in
            let st2 := if clear
                       then {| sdBuf := blit 0 (replicate (Z.to_nat (N_LEDS * 3)) 0) (sdBuf st1);
                               firstBlock := firstBlock st1; nBlocks := nBlocks st1;
                               trace := trace st1 |}
                       else st1 in
            let j := {| outName := outName; b16 := b; bmpImageoffset := bmpImageoffset;
                        rowSize := rowSize; bmpHeight := bmpHeight; flip := flip;
                        bmpStartCol := bmpStartCol; ledStart := ledStart;
                        columns := columns |} in
            match rows_loop c j (Z.to_nat bmpHeight) 0 f 0 st2 with
            | Halt e st3 => Halt e st3
            | Done lineMax st3 =>
                Done (match brightness with
                      | Some v => Some (suggestedBrightness prec v lineMax)
                      | None => None
                      end) st3
            end
        end
      else Halt FormatNotRecognized st0
  end.

End Tables.

End Bmp.

(** ** Inputs and reference functions used in the statements *)

(** A directory of [n] eligible files at positions 0, 1, ... *)
Definition bmp_dir (n : nat) : list dirEntry :=
  List.map (fun i => MkEntry "IMG.bmp" false false (Z.of_nat i)) (seq 0 n).

(** The list of per-frame rates [checkSpeed] compares, in index order. *)
Fixpoint frameRates (raw : Z -> option Speed.rawFile) (latency : Z -> Z)
    (count : nat) (i : Z) : list Z :=
  match count with
  | O => []
  | S k =>
      match raw i with
      | Some f => Speed.frameRate latency f :: frameRates raw latency k (i + 1)
      | None => frameRates raw latency k (i + 1)
      end
  end.

(** Two indexed frames of ten blocks each: the blocks of the first are
    read in at most 1000 microseconds, those of the second in 5000. *)
Definition two_frames (i : Z) : option Speed.rawFile :=
  if i =? 0 then Some (Speed.MkRaw (Some (100, 109)) 5120)
  else Some (Speed.MkRaw (Some (200, 209)) 5120).

Definition two_latencies (blk : Z) : Z := if blk <? 200 then 1000 else 5000.

Definition sumZ (l : list Z) : Z := fold_right Z.add 0 l.

Definition maxZ (l : list Z) : Z := fold_left Z.max l 0.

(** The blocks written, in order, among the events of a trace. *)
Fixpoint writes (tr : list Bmp.event) : list (Z * list Z) :=
  match tr with
  | [] => []
  | Bmp.EvWrite blk d :: rest => (blk, d) :: writes rest
  | _ :: rest => writes rest
  end.

Definition final_state {A : Type} (o : Bmp.outcome A) : Bmp.state :=
  match o with Bmp.Done _ st => st | Bmp.Halt _ st => st end.

Section Reference.

Variable gamma : Z -> Z.
Variable bump : Z -> Z.
Variable dither : Z -> Z -> Z.

(** The corrected bytes of one image row: [bytes] holds the blue, green
    and red bytes of the pixels from [column] on, the result their
    corrected red, green and blue bytes. *)
Fixpoint row_out (b row column : Z) (bytes : list Z) : list Z :=
  match bytes with
  | bl :: gr :: rd :: rest =>
      let d := Mach.u8 (dither (Z.land row 15) (Z.land column 15)) in
      Bmp.correct gamma bump d (Bmp.scale b rd)
        :: Bmp.correct gamma bump d (Bmp.scale b gr)
        :: Bmp.correct gamma bump d (Bmp.scale b bl)
        :: row_out b row (column + 1) rest
  | _ => []
  end.

End Reference.

(** *** A BMP file built from an image *)

Definition le16 (v : Z) : list Z := [v mod 256; v / 256 mod 256].

Definition le32 (v : Z) : list Z :=
  [v mod 256; v / 256 mod 256; v / 65536 mod 256; v / 16777216 mod 256].

(** The first 34 bytes of a BMP file: signature, file size, reserved,
    pixel-data offset, info-header size, width, height, planes, bits per
    pixel, compression. *)
Definition bmp_header (fileSz offset width height planes bpp compression : Z) : list Z :=
  [66; 77] ++ le32 fileSz ++ le32 0 ++ le32 offset ++ le32 40
  ++ le32 (Mach.u32 width) ++ le32 (Mach.u32 height)
  ++ le16 planes ++ le16 bpp ++ le32 compression.

(** Bytes of one stored row, padded to a multiple of four. *)
Definition stride (w : Z) : Z := (w * 3 + 3) / 4 * 4.

Definition pad_row (w : Z) (row : list Z) : list Z :=
  row ++ replicate (Z.to_nat (stride w - w * 3)) 0.

(** The 24-bit uncompressed file of an image of width [w].  [img] lists
    the rows from the bottom of the picture upwards, each as [3 * w]
    bytes (blue, green, red per pixel).  A bottom-up file stores the rows
    in this order and has a positive height; a top-down file stores them
    in the opposite order and has a negative height.  [gap] is whatever
    lies between the 34 bytes [bmpProcess] reads and the pixel data (the
    rest of the info header, colour masks, ...): the pixel data start at
    offset [34 + length gap]. *)
Definition bmp_file_at (gap : list Z) (topdown : bool) (w : Z) (img : list (list Z))
    : list Z :=
  let h := Z.of_nat (length img) in
  let off := 34 + Z.of_nat (length gap) in
  bmp_header (off + stride w * h) off w (if topdown then - h else h) 1 24 0
  ++ gap
  ++ concat (pad_row w <$> (if topdown then reverse img else img)).

(** The common layout: a 40-byte info header, pixel data at offset 54. *)
Definition bmp_file (topdown : bool) (w : Z) (img : list (list Z)) : list Z :=
  bmp_file_at (replicate 20 0) topdown w img.

(** The file is shorter than 4 GiB, the range of its size field. *)
Definition fits_size_field (gap : list Z) (w : Z) (img : list (list Z)) : Prop :=
  34 + Z.of_nat (length gap) + stride w * Z.of_nat (length img) < 4294967296.

(** The part of an image row that reaches the strip. *)
Definition crop (w : Z) (row : list Z) : list Z :=
  let '(startCol, _, columns, _) := Bmp.geometry w in
  take (Z.to_nat (columns * 3)) (drop (Z.to_nat (startCol * 3)) row).

Definition well_formed_image (w : Z) (img : list (list Z)) : Prop :=
  0 < w <= 10921
  /\ 0 < Z.of_nat (length img) < 32768
  /\ Forall (fun row => length row = Z.to_nat (w * 3) /\ Forall is_u8 row) img.

(** A card on which every allocation starts at block [first] and every
    write succeeds. *)
Definition good_card (first : Z) : Bmp.card :=
  {| Bmp.createContiguous := fun _ _ => Some first; Bmp.writeBlock := fun _ => true |}.

(** Tables for the examples: identity gamma, no dither bump. *)
Definition id_gamma (raw : Z) : Z := raw.
Definition no_bump (raw : Z) : Z := 0.
Definition flat_dither (r c : Z) : Z := 0.

Definition blank_state : Bmp.state :=
  {| Bmp.sdBuf := replicate 512 0; Bmp.firstBlock := 0; Bmp.nBlocks := 0; Bmp.trace := [] |}.

Section FrameRows.

Variable gamma : Z -> Z.
Variable bump : Z -> Z.
Variable dither : Z -> Z -> Z.

(** The 512-byte block expected for output row [k], made from one image
    row: dark bytes up to the first lit pixel, the corrected pixels, dark
    bytes up to the end of the strip, and [tail], the 80 bytes of
    [sdBuf] behind the strip data that the conversion never touches. *)
Definition frame_row (b w k : Z) (imgrow tail : list Z) : list Z :=
  let '(_, ledStart, columns, _) := Bmp.geometry w in
  replicate (Z.to_nat ledStart) 0
  ++ row_out gamma bump dither b k 0 (crop w imgrow)
  ++ replicate (Z.to_nat (N_LEDS * 3 - ledStart - columns * 3)) 0
  ++ tail.

(** The sum of the corrected bytes of output row [k]. *)
Definition row_sum (b w k : Z) (imgrow : list Z) : Z :=
  sumZ (row_out gamma bump dither b k 0 (crop w imgrow)).

End FrameRows.

Section Expected.

Variable gamma : Z -> Z.
Variable bump : Z -> Z.
Variable dither : Z -> Z -> Z.

(** The [b] of [bmpProcess]: [1 + *brightness] in eight bits. *)
Definition multiplier (brightness : option Z) : Z :=
  match brightness with Some v => Mach.u8 (1 + v) | None => 0 end.

(** The block writes expected for an image whose rows are listed from
    the bottom: row [k] goes to block [first + k]. *)
Definition frame_events (b w first : Z) (img : list (list Z)) (tail : list Z)
    : list Bmp.event :=
  (fun k => Bmp.EvWrite (Mach.u32 (first + k))
              (frame_row gamma bump dither b w k (img !!! Z.to_nat k) tail))
    <$> seqZ 0 (Z.of_nat (length img)).

(** The largest row sum of an image. *)
Definition maxRowSum (b w : Z) (img : list (list Z)) : Z :=
  maxZ ((fun k => row_sum gamma bump dither b w k (img !!! Z.to_nat k))
          <$> seqZ 0 (Z.of_nat (length img))).

End Expected.

(** A 2-pixel-wide image of three rows, listed from the bottom. *)
Definition small_image : list (list Z) :=
  [[1; 2; 3; 4; 5; 6]; [7; 8; 9; 10; 11; 12]; [13; 14; 15; 16; 17; 18]].

(** One row of 100 white pixels. *)
Definition white_row : list (list Z) := [replicate 300 255].

(** One row of 150 pixels: bytes 100 in the 144 columns in the middle,
    bytes 200 in the three columns on either side. *)
Definition framed_row : list (list Z) :=
  [replicate 9 200 ++ replicate 432 100 ++ replicate 9 200].

(** A picture 10922 pixels wide and two rows high: the bottom row dark,
    the row above it white. *)
Definition dark_then_white : list (list Z) :=
  [replicate (Z.to_nat 32766) 0; replicate (Z.to_nat 32766) 255].

(** A picture 10922 pixels wide and two rows high: every byte of the
    bottom row is 1, every byte of the row above it 2. *)
Definition ones_then_twos : list (list Z) :=
  [replicate (Z.to_nat 32766) 1; replicate (Z.to_nat 32766) 2].

(** A picture 21990 pixels wide and one row high: bytes 1 in the 144
    columns in the middle, bytes 0 in the 10923 columns on either side. *)
Definition lit_middle : list (list Z) :=
  [replicate (Z.to_nat 32769) 0 ++ replicate 432 1 ++ replicate (Z.to_nat 32769) 0].

(** ** File names *)

(** [strcpy(p, t)] where [p] points [off] characters into the C string
    [s]: the string now ends with [t]. *)
Definition strcpy_at (s : string) (off : nat) (t : string) : string :=
  (String.substring 0 off s ++ t)%string.

(** The name of the directory entry at position [idx], as
    [tmp.open(sd.vwd(), idx, O_RDONLY); tmp.getName(fileName, 18);]
    delivers it; [None] when no entry is there and the buffer stays as it
    was. *)
Definition name_of_index (dir : list dirEntry) (idx : Z) : option string :=
  name <$> List.find (fun d => dirIndex d =? idx) dir.

(** The suffix handling of [getFileName]: [ext = 1] swaps "bmp" for
    "raw", [ext = 2] cuts the name at ".bmp".  [strcpy] to the null
    pointer of a failed [strstr] is undefined: [None]. *)
Definition swap_ext (fileName : string) (ext : Z) : option string :=
  let s1 := if ext =? 1
            then match strstr fileName "bmp" with
                 | Some p => Some (strcpy_at fileName p "raw")
                 | None => None
                 end
            else Some fileName in
  match s1 with
  | None => None
  | Some fileName1 =>
      if ext =? 2
      then match strstr fileName1 ".bmp" with
           | Some p => Some (strcpy_at fileName1 p "")
           | None => None
           end
      else Some fileName1
  end.

(** [getFileName(fileName, index, ext)] *)
Definition getFileName (dir : list dirEntry) (st : index_state) (index ext : Z)
    : option string :=
  match name_of_index dir (fileIndex st !!! Z.to_nat index) with
  | Some fileName => swap_ext fileName ext
  | None => None
  end.

(** ** The menu *)

Module Menu.

(** The globals the menu works on. *)
Record ui : Type := MkUi {
  menuState : Z;
  selected : Z;
  frame : Z;
  cfg : settings
}.

(** What one pass of [loop] calls besides changing the globals. *)
Inductive action : Type :=
  | Nothing
  | Trigger       (* trigger() *)
  | SaveConfig    (* saveConfig() and the "Config saved!" screen *)
  | Rescan        (* completeScan(); checkSpeed(); clamp; preload(); saveBrightness() *)
  | Preload.      (* preload() *)

(** The functions of the sketch behind each action, in call order. *)
Inductive callee : Type :=
  | CallTrigger | CallSaveConfig | CallCompleteScan | CallCheckSpeed
  | CallPreload | CallSaveBrightness.

Definition calls (a : action) : list callee :=
  match a with
  | Nothing => []
  | Trigger => [CallTrigger]
  | SaveConfig => [CallSaveConfig]
  | Rescan => [CallCompleteScan; CallCheckSpeed; CallPreload; CallSaveBrightness]
  | Preload => [CallPreload]
  end.

Definition goto (m s : Z) (u : ui) : ui :=
  {| menuState := m; selected := s; frame := frame u; cfg := cfg u |}.

Definition select (s : Z) (u : ui) : ui := goto (menuState u) s u.

Definition set_frame (f : Z) (u : ui) : ui :=
  {| menuState := menuState u; selected := selected u; frame := f; cfg := cfg u |}.

Definition set_cfg (c : settings) (u : ui) : ui :=
  {| menuState := menuState u; selected := selected u; frame := frame u; cfg := c |}.

(** The four conditional updates of a setting screen, in program order. *)
Definition adjust (inputOption v : Z) : Z :=
  let v := if (inputOption =? 1) && negb (v =? 255) then Mach.u8 (v + 1) else v in
  let v := if (inputOption =? 4) && (v <? 250) then Mach.u8 (v + 5) else v in
  let v := if (inputOption =? 2) && negb (v =? 0) then Mach.u8 (v - 1) else v in
  let v := if (inputOption =? 5) && (v >? 5) then Mach.u8 (v - 5) else v in
  v.

(** [if (frame == 0) frame = nFrames - 1; else frame--;] *)
Definition frame_up (nFrames f : Z) : Z :=
  if f =? 0 then Mach.u8 (nFrames - 1) else Mach.u8 (f - 1).

(** [if (frame == nFrames - 1) frame = 0; else frame++;] *)
Definition frame_down (nFrames f : Z) : Z :=
  if f =? nFrames - 1 then 0 else Mach.u8 (f + 1).

(** The switch of [loop], for the input [getInput] returned. *)
Definition loop (nFrames inputOption : Z) (u : ui) : ui * action :=
  let i := inputOption in
  let s := selected u in
  if menuState u =? 0 then
    if (s =? 1) && (i =? 2) then (select 0 u, Nothing)
    else if (s =? 1) && (i =? 3) then (goto 1 2 u, Nothing)
    else if (s =? 0) && (i =? 1) then (select 1 u, Nothing)
    else if (s =? 0) && (i =? 3) then (u, Trigger)
    else (u, Nothing)
  else if menuState u =? 1 then
    if (i =? 2) && (s =? 2) then (select 3 u, Nothing)
    else if (i =? 2) && (s =? 3) then (goto 2 4 u, Nothing)
    else if (i =? 1) && (s =? 3) then (select 2 u, Nothing)
    else
      let u := if (i =? 3) && (selected u =? 2) then goto 8 0 u else u in
      let u := if (i =? 3) && (selected u =? 3) then goto 5 (selected u) u else u in
      (u, Nothing)
  else if menuState u =? 2 then
    if (i =? 2) && (s =? 3) then (select 4 u, Nothing)
    else if (i =? 2) && (s =? 4) then (goto 3 5 u, Nothing)
    else if (i =? 1) && (s =? 4) then (select 3 u, Nothing)
    else if (i =? 1) && (s =? 3) then (goto 1 2 u, Nothing)
    else
      let u := if (i =? 3) && (selected u =? 3) then goto 5 (selected u) u else u in
      let u := if (i =? 3) && (selected u =? 4) then goto 6 (selected u) u else u in
      (u, Nothing)
  else if menuState u =? 3 then
    if (i =? 2) && (s =? 4) then (select 5 u, Nothing)
    else if (i =? 2) && (s =? 5) then (goto 4 6 u, Nothing)
    else if (i =? 1) && (s =? 5) then (select 4 u, Nothing)
    else if (i =? 1) && (s =? 4) then (goto 2 3 u, Nothing)
    else
      let u := if (i =? 3) && (selected u =? 4) then goto 6 (selected u) u else u in
      let u := if (i =? 3) && (selected u =? 5) then goto 7 (selected u) u else u in
      (u, Nothing)
  else if menuState u =? 4 then
    if (i =? 2) && (s =? 5) then (select 6 u, Nothing)
    else if (i =? 1) && (s =? 6) then (select 5 u, Nothing)
    else if (i =? 1) && (s =? 5) then (goto 3 4 u, Nothing)
    else if (i =? 3) && (s =? 5) then (goto 7 s u, Nothing)
    else if (i =? 3) && (s =? 6) then (goto 0 1 u, SaveConfig)
    else (u, Nothing)
  else if menuState u =? 5 then
    let c := cfg u in
    let u := set_cfg {| SetBrightness := adjust i (SetBrightness c);
                        Speed := Speed c; Delay := Delay c |} u in
    if i =? 3 then (goto 0 1 u, Rescan) else (u, Nothing)
  else if menuState u =? 6 then
    let c := cfg u in
    let u := set_cfg {| SetBrightness := SetBrightness c;
                        Speed := adjust i (Speed c); Delay := Delay c |} u in
    if i =? 3 then (goto 0 1 u, Nothing) else (u, Nothing)
  else if menuState u =? 7 then
    let c := cfg u in
    let u := set_cfg {| SetBrightness := SetBrightness c;
                        Speed := Speed c; Delay := adjust i (Delay c) |} u in
    if i =? 3 then (goto 0 1 u, Nothing) else (u, Nothing)
  else if menuState u =? 8 then
    if (i =? 1) && (s =? 0) then (set_frame (frame_up nFrames (frame u)) u, Nothing)
    else if (i =? 1) && (s =? 1)
    then (select 0 (set_frame (frame_up nFrames (frame u)) u), Nothing)
    else if (i =? 2) && (s =? 0)
    then (select 1 (set_frame (frame_down nFrames (frame u)) u), Nothing)
    else if (i =? 2) && (s =? 1)
    then (set_frame (frame_down nFrames (frame u)) u, Nothing)
    else if i =? 3 then (goto 0 0 u, Preload)
    else (u, Nothing)
  else (u, Nothing).

(** The two index entries whose names the file chooser of [menuDisplay]
    prints on the top and on the bottom line (case 8). *)
Definition chooser_lines (nFrames : Z) (u : ui) : Z * Z :=
  if selected u =? 0
  then
    let frame1 := Mach.u8 (frame u + 1) in
    let frame1 := if frame1 =? nFrames then 0 else frame1 in
    (frame u, frame1)
  else
    let frame1 := if frame u =? 0 then Mach.u8 (nFrames - 1) else Mach.u8 (frame u - 1) in
    (frame1, frame u).

(** The line the selection mark is drawn on: [markTop] for
    [selected == 0], [markBottom] otherwise. *)
Definition chooser_mark (u : ui) : Z := if selected u =? 0 then 0 else 1.

(** The screens and marks the menu moves through. *)
Definition screens : list (Z * Z) :=
  [(0, 0); (0, 1); (1, 2); (1, 3); (2, 3); (2, 4); (3, 4); (3, 5); (4, 5); (4, 6);
   (5, 3); (6, 4); (7, 5); (8, 0); (8, 1)].

Definition on_screen (u : ui) : bool :=
  existsb (fun p => (menuState u =? fst p) && (selected u =? snd p)) screens.

(** The globals at the first pass of [loop]. *)
Definition power_on (c : settings) : ui :=
  {| menuState := 0; selected := 0; frame := 0; cfg := c |}.

(** The state after a sequence of inputs. *)
Fixpoint run (nFrames : Z) (inputs : list Z) (u : ui) : ui :=
  match inputs with
  | [] => u
  | i :: rest => run nFrames rest (fst (loop nFrames i u))
  end.

End Menu.

(** ** Playback *)

Module Play.

(** The clock of the target board, in Hz: with the 64:1 prescale of
    [setup] Timer1 counts at [F_CPU / 64] = 250 kHz. *)
Definition F_CPU : Z := 16000000.

(** The globals playback works on. *)
Record state : Type := MkPlay {
  sdBuf : list Z;
  firstBlock : Z;
  nBlocks : Z
}.

(** The two ways [preload] ends in [error]. *)
Inductive stop : Type :=
  | CantOpen       (* "Can't open file" / "Try rescaning?" *)
  | RawFileError.  (* ":( Raw file error" / "Try rescaning?" *)

(** [preload]: [raw] is the result of opening the raw file of the chosen
    frame, [blocks] the content of the card by block number, as
    [readBlock] delivers it. *)
Definition preload (raw : option Speed.rawFile) (blocks : Z -> list Z) (st : state)
    : state + stop :=
  match raw with
  | None => inr CantOpen
  | Some f =>
      match Speed.contiguousRange f with
      | None => inr RawFileError
      | Some (first, _) =>
          inl {| sdBuf := blocks first;
                 firstBlock := first;
                 nBlocks := Mach.u32 (Speed.fileSize f / 512) |}
      end
  end.

(** [uint32_t linesPerSec = map(Speed, 0, 255, 10, maxLPS);] *)
Definition linesPerSec (speed maxLPS : Z) : Z :=
  Mach.u32 (Mach.map speed 0 255 10 maxLPS).

(** [OCR1A = (F_CPU / 64) / linesPerSec;] on a 16-bit register; the
    division is undefined for a rate of 0. *)
Definition timerInterval (rate : Z) : option Z :=
  if rate =? 0 then None else Some (Mach.u16 (Mach.u32 (F_CPU / 64) / rate)).

(** [memset(sdBuf, 0, N_LEDS * 3)] *)
Definition lights_off (buf : list Z) : list Z :=
  replicate (Z.to_nat (N_LEDS * 3)) 0 ++ drop (Z.to_nat (N_LEDS * 3)) buf.

(** The playback loop of [trigger], one Timer1 overflow per pass.
    [show()] sends the first [N_LEDS * 3] bytes of [sdBuf] to the strip;
    [shown] collects what was sent.  [released k] is the outcome of the
    [k]-th test [digitalRead(TRIGGER) == HIGH], [reads] the number of
    tests made so far. *)
Fixpoint trigger_loop (blocks : Z -> list Z) (released : nat -> bool)
    (firstBlock nBlocks : Z) (fuel : nat) (block : Z) (stopFlag : bool) (reads : nat)
    (sdBuf : list Z) (shown : list (list Z)) : option (list Z * list (list Z)) :=
  match fuel with
  | O => None
  | S fuel =>
      let shown := shown ++ [take (Z.to_nat (N_LEDS * 3)) sdBuf] in
      if stopFlag then Some (sdBuf, shown)
      else
        let block := Mach.u32 (block + 1) in
        if block >=? nBlocks then
          if released reads then
            trigger_loop blocks released firstBlock nBlocks fuel block true (S reads)
                         (lights_off sdBuf) shown
          else
            let block := 0 in
            trigger_loop blocks released firstBlock nBlocks fuel block false (S reads)
                         (blocks (Mach.u32 (block + firstBlock))) shown
        else
          trigger_loop blocks released firstBlock nBlocks fuel block false reads
                       (blocks (Mach.u32 (block + firstBlock))) shown
  end.

(** [trigger], from the timer set-up on: the rows sent to the strip and
    the buffer left behind, when the loop ends within [fuel] passes. *)
Definition trigger (blocks : Z -> list Z) (released : nat -> bool) (fuel : nat)
    (st : state) : option (state * list (list Z)) :=
  match trigger_loop blocks released (firstBlock st) (nBlocks st) fuel 0 false 0%nat
                     (sdBuf st) [] with
  | Some (buf, shown) =>
      Some ({| sdBuf := buf; firstBlock := firstBlock st; nBlocks := nBlocks st |}, shown)
  | None => None
  end.

End Play.

(** The content of the card after the block writes of a conversion:
    [blocks] with every written block replaced by the data last written
    to it. *)
Fixpoint stored (tr : list Bmp.event) (blocks : Z -> list Z) : Z -> list Z :=
  match tr with
  | [] => blocks
  | Bmp.EvWrite b d :: tr => stored tr (fun x => if x =? b then d else blocks x)
  | _ :: tr => stored tr blocks
  end.

(** The raw files found on the card after the events [tr] of a
    conversion, by name; [files] are those found before.  A file created
    contiguously is found again with the size it was created with,
    starting at the block the creation returned; [lastBlock] gives the
    last block of its range, which lies on a cluster boundary. *)
Fixpoint raw_files (c : Bmp.card) (lastBlock : Z -> Z -> Z) (tr : list Bmp.event)
    (files : string -> option Speed.rawFile) : string -> option Speed.rawFile :=
  match tr with
  | [] => files
  | Bmp.EvRemove n :: tr =>
      raw_files c lastBlock tr (fun x => if String.eqb x n then None else files x)
  | Bmp.EvCreate n sz :: tr =>
      raw_files c lastBlock tr
        (match Bmp.createContiguous c n sz with
         | Some first =>
             fun x => if String.eqb x n
                      then Some {| Speed.contiguousRange := Some (first, lastBlock first sz);
                                   Speed.fileSize := sz |}
                      else files x
         | None => files
         end)
  | Bmp.EvWrite _ _ :: tr => raw_files c lastBlock tr files
  end.

(** The rows of a frame as they lie on the card. *)
Definition frame_strip (blocks : Z -> list Z) (first n : Z) : list (list Z) :=
  (fun k => take (Z.to_nat (N_LEDS * 3)) (blocks (first + k))) <$> seqZ 0 n.

(** A row with every LED off. *)
Definition dark_row : list Z := replicate (Z.to_nat (N_LEDS * 3)) 0.

(** ** The strip driver

    [show] is AVR assembly.  Each instruction is modelled by its effect
    on the registers it names and by its length in clock cycles on the
    ATmega328 ([st], [ld], [rjmp], [sbiw]: 2; [mov], [dec], [rol], [ldi],
    [nop]: 1; a branch 2 when taken and 1 when not; [sbrc] 2 when it
    skips the next instruction and 1 when not). *)

Module Strip.

Record regs : Type := MkRegs {
  byte : Z;              (* %[byte], the C variable b *)
  bit : Z;               (* %[bit] *)
  next : Z;              (* %[next] *)
  count : Z;             (* %[count], the C variable i *)
  ptr : Z;               (* %a[ptr], as an index into sdBuf *)
  carry : bool;          (* the C flag *)
  clock : Z;             (* cycles since the first instruction *)
  wire : list (Z * Z)    (* stores to the port: start cycle and value *)
}.

Definition tick (n : Z) (m : regs) : regs :=
  {| byte := byte m; bit := bit m; next := next m; count := count m; ptr := ptr m;
     carry := carry m; clock := clock m + n; wire := wire m |}.

(** [st %a[port], v] *)
Definition st_port (v : Z) (m : regs) : regs :=
  {| byte := byte m; bit := bit m; next := next m; count := count m; ptr := ptr m;
     carry := carry m; clock := clock m + 2; wire := wire m ++ [(clock m, v)] |}.

(** [mov %[next], v] *)
Definition mov_next (v : Z) (m : regs) : regs :=
  {| byte := byte m; bit := bit m; next := v; count := count m; ptr := ptr m;
     carry := carry m; clock := clock m + 1; wire := wire m |}.

(** [dec %[bit]]; the Z flag it sets is read back as [bit = 0]. *)
Definition dec_bit (m : regs) : regs :=
  {| byte := byte m; bit := Mach.u8 (bit m - 1); next := next m; count := count m;
     ptr := ptr m; carry := carry m; clock := clock m + 1; wire := wire m |}.

(** [rol %[byte]]: rotate left through carry. *)
Definition rol_byte (m : regs) : regs :=
  {| byte := Mach.u8 (2 * byte m + (if carry m then 1 else 0)); bit := bit m;
     next := next m; count := count m; ptr := ptr m;
     carry := Z.testbit (byte m) 7; clock := clock m + 1; wire := wire m |}.

(** [ldi %[bit], 8] *)
Definition ldi_bit (m : regs) : regs :=
  {| byte := byte m; bit := 8; next := next m; count := count m; ptr := ptr m;
     carry := carry m; clock := clock m + 1; wire := wire m |}.

(** [ld %[byte], %a[ptr]+] *)
Definition ld_byte (sdBuf : list Z) (m : regs) : regs :=
  {| byte := sdBuf !!! Z.to_nat (ptr m); bit := bit m; next := next m; count := count m;
     ptr := ptr m + 1; carry := carry m; clock := clock m + 2; wire := wire m |}.

(** [sbiw %[count], 1]; the Z flag it sets is read back as [count = 0]. *)
Definition sbiw_count (m : regs) : regs :=
  {| byte := byte m; bit := bit m; next := next m; count := Mach.u16 (count m - 1);
     ptr := ptr m; carry := count m <? 1; clock := clock m + 2; wire := wire m |}.

(** One pass from the label [head20] to the next jump to it, or to the
    end of the loop ([false]). *)
Definition head20 (sdBuf : list Z) (hi lo : Z) (m : regs) : regs * bool :=
  let m := st_port hi m in                      (* st   port, hi        *)
  let m := if Z.testbit (byte m) 7              (* sbrc byte, 7         *)
           then mov_next hi (tick 1 m)          (*  mov next, hi        *)
           else tick 2 m in
  let m := dec_bit m in                         (* dec  bit             *)
  let m := st_port (next m) m in                (* st   port, next      *)
  let m := mov_next lo m in                     (* mov  next, lo        *)
  if bit m =? 0 then                            (* breq nextbyte20      *)
    let m := tick 2 m in
    let m := ldi_bit m in                       (* ldi  bit, 8          *)
    let m := ld_byte sdBuf m in                 (* ld   byte, ptr+      *)
    let m := st_port lo m in                    (* st   port, lo        *)
    let m := tick 1 m in                        (* nop                  *)
    let m := sbiw_count m in                    (* sbiw count, 1        *)
    if count m =? 0 then (tick 1 m, false)      (* brne head20          *)
    else (tick 2 m, true)
  else
    let m := tick 1 m in
    let m := rol_byte m in                      (* rol  byte            *)
    let m := tick 2 m in                        (* rjmp .+0             *)
    let m := tick 1 m in                        (* nop                  *)
    let m := st_port lo m in                    (* st   port, lo        *)
    let m := tick 1 m in                        (* nop                  *)
    let m := tick 2 m in                        (* rjmp .+0             *)
    (tick 2 m, true).                           (* rjmp head20          *)

Fixpoint run (sdBuf : list Z) (hi lo : Z) (fuel : nat) (m : regs) : option regs :=
  match fuel with
  | O => None
  | S fuel =>
      let '(m, again) := head20 sdBuf hi lo m in
      if again then run sdBuf hi lo fuel m else Some m
  end.

(** [show], from [hi = *port | pinMask] on; [c] is the carry flag on
    entry to the assembly. *)
Definition show (sdBuf : list Z) (port pinMask : Z) (c : bool) (fuel : nat) : option regs :=
  let hi := Mach.u8 (Z.lor port pinMask) in
  let lo := Mach.u8 (Z.land port (Z.lnot pinMask)) in
  run sdBuf hi lo fuel
      {| byte := sdBuf !!! 0%nat; bit := 8; next := lo; count := Mach.u16 (N_LEDS * 3);
         ptr := 1; carry := c; clock := 0; wire := [] |}.

End Strip.

(** The bits of a byte, most significant first. *)
Definition msb_first (b : Z) : list bool :=
  [Z.testbit b 7; Z.testbit b 6; Z.testbit b 5; Z.testbit b 4;
   Z.testbit b 3; Z.testbit b 2; Z.testbit b 1; Z.testbit b 0].

(** The stores of an 800 kHz bit stream that starts at cycle [t]: every
    20 cycles the line goes high, stays high after 5 cycles only for a 1
    bit, and is low from cycle 13 on. *)
Fixpoint waveform (hi lo : Z) (t : Z) (bits : list bool) : list (Z * Z) :=
  match bits with
  | [] => []
  | b :: rest =>
      [(t, hi); (t + 5, if b then hi else lo); (t + 13, lo)]
      ++ waveform hi lo (t + 20) rest
  end.

(** ** Buttons *)

Module Input.

(** The three statics of [getInput]. *)
Record flags : Type := MkFlags {
  buttonActive : bool;
  longPress : bool;
  pressTimer : Z
}.

(** The statics at power-on. *)
Definition idle : flags :=
  {| buttonActive := false; longPress := false; pressTimer := 0 |}.



End Input.

(** * Properties *)

(** ** Machine arithmetic *)

Lemma u8_small (v : Z) : 0 <= v < 256 -> Mach.u8 v = v.
Proof. intros H. unfold Mach.u8, Mach.wrap. apply Z.mod_small. lia. Qed.

Lemma u16_small (v : Z) : 0 <= v < 65536 -> Mach.u16 v = v.
Proof. intros H. unfold Mach.u16, Mach.wrap. apply Z.mod_small. lia. Qed.

Lemma u32_small (v : Z) : 0 <= v < 4294967296 -> Mach.u32 v = v.
Proof. intros H. unfold Mach.u32, Mach.wrap. apply Z.mod_small. lia. Qed.

Lemma u8_range (v : Z) : 0 <= Mach.u8 v < 256.
Proof. unfold Mach.u8, Mach.wrap. apply Z.mod_pos_bound. lia. Qed.

Lemma u32_range (v : Z) : 0 <= Mach.u32 v < 4294967296.
Proof. unfold Mach.u32, Mach.wrap. apply Z.mod_pos_bound. lia. Qed.

Lemma int_small (v : Z) : -32768 <= v < 32768 -> Mach.int v = v.
Proof.
  intros H. unfold Mach.int, Mach.swrap.
  change (2 ^ 16) with 65536. change (2 ^ (16 - 1)) with 32768.
  destruct (Z.ltb_spec (v mod 65536) 32768) as [Hlt | Hge].
  - destruct (Z_lt_le_dec v 0) as [Hneg | Hpos].
    + assert (v mod 65536 = v + 65536) by (symmetry; apply (Z.mod_unique _ _ (-1)); lia). lia.
    + apply Z.mod_small. lia.
  - destruct (Z_lt_le_dec v 0) as [Hneg | Hpos].
    + assert (v mod 65536 = v + 65536) by (symmetry; apply (Z.mod_unique _ _ (-1)); lia). lia.
    + rewrite Z.mod_small in Hge; lia.
Qed.

(** ** EEPROM settings *)

Lemma EEPROM_update_read_eq (a v : Z) (e : gmap Z Z) :
  EEPROM_read (EEPROM_update a v e) a = Mach.u8 v.
Proof.
  unfold EEPROM_update.
  destruct (Z.eqb_spec (EEPROM_read e a) (Mach.u8 v)) as [Heq | Hne]; [exact Heq |].
  unfold EEPROM_read. rewrite lookup_insert_eq. reflexivity.
Qed.

Lemma EEPROM_update_read_ne (a a' v : Z) (e : gmap Z Z) :
  a <> a' -> EEPROM_read (EEPROM_update a v e) a' = EEPROM_read e a'.
Proof.
  intros Hne. unfold EEPROM_update.
  destruct (EEPROM_read e a =? Mach.u8 v); [reflexivity |].
  unfold EEPROM_read. rewrite lookup_insert_ne by exact Hne. reflexivity.
Qed.

Lemma saveConfig_cells (s : settings) (e : gmap Z Z) :
  EEPROM_read (saveConfig s e) 0 = 66
  /\ EEPROM_read (saveConfig s e) 1 = Mach.u8 (SetBrightness s)
  /\ EEPROM_read (saveConfig s e) 2 = Mach.u8 (Speed s)
  /\ EEPROM_read (saveConfig s e) 3 = Mach.u8 (Delay s).
Proof.
  unfold saveConfig. repeat split.
  - do 3 (rewrite EEPROM_update_read_ne by lia). apply EEPROM_update_read_eq.
  - do 2 (rewrite EEPROM_update_read_ne by lia). apply EEPROM_update_read_eq.
  - rewrite EEPROM_update_read_ne by lia. apply EEPROM_update_read_eq.
  - apply EEPROM_update_read_eq.
Qed.

(** C10: [loadConfig] right after [saveConfig] restores the three saved
    settings whatever the EEPROM held before and whatever the globals hold
    at load time (the version tag 66 is written by [saveConfig]); and when
    cell 0 does not hold 66, [loadConfig] changes none of the settings. *)
Theorem config_save_load (saved cur : settings) (e : gmap Z Z) :
  u8_settings saved ->
  loadConfig (saveConfig saved e) cur = saved
  /\ EEPROM_read (saveConfig saved e) 0 = 66
  /\ (forall (e' : gmap Z Z) (cur' : settings),
        EEPROM_read e' 0 <> 66 -> loadConfig e' cur' = cur').
Proof.
  intros (Hb & Hs & Hd).
  destruct (saveConfig_cells saved e) as (H0 & H1 & H2 & H3).
  split; [| split].
  - unfold loadConfig. rewrite H0, H1, H2, H3. simpl.
    rewrite !u8_small by assumption. destruct saved; reflexivity.
  - exact H0.
  - intros e' cur' Hne. unfold loadConfig.
    destruct (Z.eqb_spec (EEPROM_read e' 0) 66); [contradiction | reflexivity].
Qed.

Lemma config_save_load_witness :
  u8_settings (MkSettings 200 17 3)
  /\ loadConfig (saveConfig (MkSettings 200 17 3) ∅) default_settings = MkSettings 200 17 3.
Proof.
  assert (H : u8_settings (MkSettings 200 17 3)) by (unfold u8_settings, is_u8; simpl; lia).
  split; [exact H |].
  exact (proj1 (config_save_load (MkSettings 200 17 3) default_settings ∅ H)).
Defined.

(** ** Directory scanning *)



(** The frame counter after a quick scan: the old count plus the number of
    eligible entries, in [uint8_t] arithmetic.  [shortScan] does not start
    from zero. *)
Lemma shortScan_nFrames (dir : list dirEntry) (st : index_state) :
  0 <= nFrames st < 256 ->
  nFrames (shortScan dir st)
  = Mach.u8 (nFrames st + Z.of_nat (length (List.filter eligible dir))).
Proof.
  unfold shortScan. revert st.
  induction dir as [| d rest IH]; intros st Hr; simpl.
  - rewrite Z.add_0_r, u8_small by lia. reflexivity.
  - destruct (eligible d); simpl.
    + rewrite IH.
      * unfold incr_nFrames, store_fileIndex. destruct (nFrames st <? FILE_INDEX_LEN); simpl;
          unfold Mach.u8, Mach.wrap; rewrite Zplus_mod_idemp_l; f_equal; lia.
      * unfold incr_nFrames. simpl. apply u8_range.
    + apply IH, Hr.
Qed.

(** [completeScan] starts its count from zero, whatever it was before. *)
Lemma completeScan_restarts (convert : dirEntry -> Z -> option Z) (s : settings)
    (dir : list dirEntry) (st : index_state) (n : Z) :
  completeScan convert s dir
    {| fileIndex := fileIndex st; nFrames := n; spill := spill st |}
  = completeScan convert s dir st.
Proof. reflexivity. Qed.

(** C3: 31 eligible files, one more than [fileIndex] holds.  Both scans
    run to the end, count 31 frames, and perform the store
    [fileIndex[30] = 30], which lies past the end of the 30-cell table;
    neither reports anything. *)
Theorem scan_overruns_fileIndex :
  let quick := shortScan (bmp_dir 31) index_init in
  length (fileIndex index_init) = 30%nat
  /\ nFrames quick = 31 /\ spill quick = [(30, 30)]
  /\ exists full,
       completeScan (fun _ b => Some b) default_settings (bmp_dir 31) index_init = Some full
       /\ nFrames full = 31 /\ spill full = [(30, 30)].
Proof.
  vm_compute. repeat split. eexists. repeat split.
Qed.

(** ** Speed check *)

Lemma linesPerSec_bound (worst : Z) : 0 <= Speed.linesPerSec worst <= 223.
Proof.
  unfold Speed.linesPerSec, N_LEDS, OVERHEAD.
  pose proof (u32_range (worst * 21)) as Hw.
  assert (Hq : 0 <= Mach.u32 (worst * 21) / 20 <= 214748364).
  { split; [apply Z.div_pos; lia |].
    apply Z.lt_succ_r. apply Z.div_lt_upper_bound; lia. }
  rewrite (u32_small (_ + 144 * 30)) by lia.
  rewrite (u32_small (_ + 150)) by lia.
  set (d := Mach.u32 (worst * 21) / 20 + 144 * 30 + 150) in *.
  assert (Hd : 4470 <= d) by (unfold d; lia).
  assert (Hn : 0 <= 1000000 / d <= 223).
  { split; [apply Z.div_pos; lia |].
    apply Z.lt_succ_r. apply Z.div_lt_upper_bound; lia. }
  rewrite u16_small by lia. exact Hn.
Qed.

(** What [checkSpeed] leaves in [maxLPS]: the largest of the old value and
    the per-frame rates. *)
Lemma checkSpeed_loop_largest (raw : Z -> option Speed.rawFile) (latency : Z -> Z)
    (count : nat) (i : Z) (st st' : Speed.speed_state) :
  Speed.checkSpeed_loop raw latency count i st = Speed.Done st' ->
  Speed.maxLPS st' = fold_left Z.max (frameRates raw latency count i) (Speed.maxLPS st).
Proof.
  revert i st. induction count as [| k IH]; intros i st; simpl.
  - intros H. injection H as <-. reflexivity.
  - destruct (raw i) as [f |]; [| discriminate].
    unfold Speed.frameRate.
    destruct (Speed.contiguousRange f) as [[first last] |]; [| discriminate].
    intros H. apply IH in H. rewrite H. simpl. f_equal.
    destruct (Z.gtb_spec (Speed.linesPerSec
      (Speed.benchmark latency first (Mach.u32 (Speed.fileSize f / 512)))) (Speed.maxLPS st)); lia.
Qed.

Lemma checkSpeed_loop_bound (raw : Z -> option Speed.rawFile) (latency : Z -> Z)
    (count : nat) (i : Z) (st st' : Speed.speed_state) (m : Z) :
  223 <= m -> Speed.maxLPS st <= m ->
  Speed.checkSpeed_loop raw latency count i st = Speed.Done st' ->
  Speed.maxLPS st' <= m.
Proof.
  intros Hm. revert i st. induction count as [| k IH]; intros i st Hst; simpl.
  - intros H. injection H as <-. exact Hst.
  - destruct (raw i) as [f |]; [| discriminate].
    destruct (Speed.contiguousRange f) as [[first last] |]; [| discriminate].
    apply IH. simpl.
    pose proof (linesPerSec_bound
      (Speed.benchmark latency first (Mach.u32 (Speed.fileSize f / 512)))) as Hb.
    destruct (_ >? _); lia.
Qed.

(** C9: the step [checkSpeed(); if(maxLPS > 400) maxLPS = 400;] either
    halts in [error()] or leaves [maxLPS] at most 400, for every set of
    raw files, every measured latency (zero included) and every earlier
    value of [maxLPS]. *)
Theorem speedCheckStep_ceiling (raw : Z -> option Speed.rawFile) (latency : Z -> Z)
    (frames : Z) (st : Speed.speed_state) :
  match Speed.speedCheckStep raw latency frames st with
  | Speed.Done st' => Speed.maxLPS st' <= 400
  | Speed.Halt _ => True
  end.
Proof.
  unfold Speed.speedCheckStep.
  destruct (Speed.checkSpeed raw latency frames st) as [st' | f]; [| exact I].
  destruct (Z.gtb_spec (Speed.maxLPS st') 400); simpl; lia.
Qed.

(** The step does finish when every raw file opens and is contiguous;
    with no latency at all the rate is 223 lines per second. *)
Lemma speedCheckStep_zero_latency :
  Speed.speedCheckStep (fun _ => Some (Speed.MkRaw (Some (100, 109)) 5120))
                       (fun _ => 0) 2 (Speed.MkSpeed 0 0 0)
  = Speed.Done (Speed.MkSpeed 223 100 10).
Proof. vm_compute. reflexivity. Qed.

(** C1: on the two frames above the per-frame rates are 181 and 102 lines
    per second; [checkSpeed] started from [maxLPS = 0] leaves 181, the
    larger of the two, not the minimum 102. *)
Theorem checkSpeed_keeps_largest_rate :
  frameRates two_frames two_latencies 2 0 = [181; 102]
  /\ Speed.checkSpeed two_frames two_latencies 2 (Speed.MkSpeed 0 0 0)
     = Speed.Done (Speed.MkSpeed 181 200 10)
  /\ 181 <> Z.min 181 102.
Proof. vm_compute. repeat split; intros H; discriminate H. Qed.

(** ** Brightness scaling *)



(** ** The conversion of one row *)

Lemma u32_add_idemp (a c : Z) : Mach.u32 (Mach.u32 a + c) = Mach.u32 (a + c).
Proof. unfold Mach.u32, Mach.wrap. apply Zplus_mod_idemp_l. Qed.

Section RowProofs.

Variable gamma : Z -> Z.
Variable bump : Z -> Z.
Variable dither : Z -> Z -> Z.

Lemma correct_range (d raw : Z) : 0 <= Bmp.correct gamma bump d raw < 256.
Proof. unfold Bmp.correct. destruct (_ >? _); apply u8_range. Qed.

Lemma do_pixel_spec (b d : Z) (pre post : list Z) (bl gr rd sum : Z) :
  Bmp.do_pixel gamma bump b d (length pre) (pre ++ bl :: gr :: rd :: post) sum
  = (pre ++ Bmp.correct gamma bump d (Bmp.scale b rd)
         :: Bmp.correct gamma bump d (Bmp.scale b gr)
         :: Bmp.correct gamma bump d (Bmp.scale b bl) :: post,
     Mach.u32 (sum + (Bmp.correct gamma bump d (Bmp.scale b rd)
                      + (Bmp.correct gamma bump d (Bmp.scale b gr)
                         + Bmp.correct gamma bump d (Bmp.scale b bl))))).
Proof.
  unfold Bmp.do_pixel, NEO_RED, NEO_GREEN, NEO_BLUE, BMP_RED, BMP_GREEN, BMP_BLUE.
  rewrite !lookup_total_app_r by lia.
  replace (length pre + 2 - length pre)%nat with 2%nat by lia.
  replace (length pre + 1 - length pre)%nat with 1%nat by lia.
  replace (length pre + 0 - length pre)%nat with 0%nat by lia.
  cbn [lookup_total list_lookup_total insert list_insert list_alter].
  f_equal.
  - rewrite !insert_app_r_alt by lia.
    replace (length pre + 2 - length pre)%nat with 2%nat by lia.
    replace (length pre + 1 - length pre)%nat with 1%nat by lia.
    rewrite Nat.sub_diag. reflexivity.
  - rewrite u32_add_idemp, <- Z.add_assoc, u32_add_idemp.
    apply (f_equal Mach.u32). lia.
Qed.

Lemma columns_loop_spec (b row : Z) (count : nat) :
  forall (column : Z) (pre bytes post : list Z) (sum : Z),
    length bytes = (3 * count)%nat ->
    0 <= sum < 4294967296 ->
    Bmp.columns_loop gamma bump dither b row count column (length pre)
                     (pre ++ bytes ++ post) sum
    = (pre ++ row_out gamma bump dither b row column bytes ++ post,
       Mach.u32 (sum + sumZ (row_out gamma bump dither b row column bytes))).
Proof.
  induction count as [| k IH]; intros column pre bytes post sum Hlen Hsum.
  - destruct bytes; [| discriminate]. simpl. rewrite Z.add_0_r, u32_small by lia. reflexivity.
  - destruct bytes as [| bl [| gr [| rd rest]]]; simpl in Hlen; try lia.
    cbn [Bmp.columns_loop row_out]. cbn [app].
    rewrite do_pixel_spec.
    set (d := Mach.u8 (dither (Z.land row 15) (Z.land column 15))).
    set (c0 := Bmp.correct gamma bump d (Bmp.scale b rd)).
    set (c1 := Bmp.correct gamma bump d (Bmp.scale b gr)).
    set (c2 := Bmp.correct gamma bump d (Bmp.scale b bl)).
    replace (pre ++ c0 :: c1 :: c2 :: rest ++ post)
      with ((pre ++ [c0; c1; c2]) ++ rest ++ post)
      by (rewrite <- app_assoc; reflexivity).
    replace (length pre + 3)%nat with (length (pre ++ [c0; c1; c2]))
      by (rewrite length_app; reflexivity).
    rewrite IH; [| lia | apply u32_range].
    rewrite <- app_assoc. cbn [app sumZ fold_right].
    f_equal. rewrite u32_add_idemp. apply (f_equal Mach.u32). unfold sumZ. lia.
Qed.

End RowProofs.

Lemma int_u16_small (v : Z) : 0 <= v < 32768 -> Mach.u16 (Mach.int v) = v.
Proof. intros H. rewrite int_small by lia. apply u16_small. lia. Qed.


Section RowsProofs.

Variable gamma : Z -> Z.
Variable bump : Z -> Z.
Variable dither : Z -> Z -> Z.
Variable c : Bmp.card.
Variable j : Bmp.job.
Variable content : list Z.
Variable src : Z -> list Z.
Variable pre post : list Z.
Variable first nblk : Z.

Hypothesis Hcols : 0 < Bmp.columns j <= 170.
Hypothesis Hpre : length pre = Z.to_nat (Bmp.ledStart j).
Hypothesis Hled : 0 <= Bmp.ledStart j.
Hypothesis Hroom : Bmp.ledStart j + Bmp.columns j * 3 <= 512.
Hypothesis Hwrite : forall blk, Bmp.writeBlock c blk = true.
Hypothesis Hsrc : forall k, 0 <= k < Bmp.bmpHeight j ->
  0 <= Bmp.rowPosition j k
  /\ Bmp.rowPosition j k + Bmp.columns j * 3 <= Z.of_nat (length content)
  /\ take (Z.to_nat (Bmp.columns j * 3)) (drop (Z.to_nat (Bmp.rowPosition j k)) content) = src k.

Local Abbreviation out k := (row_out gamma bump dither (Bmp.b16 j) k 0 (src k)).

Local Abbreviation evs row count :=
  (match Bmp.outName j with
   | Some _ => (fun k => Bmp.EvWrite (Mach.u32 (first + k)) (pre ++ out k ++ post))
                 <$> seqZ row (Z.of_nat count)
   | None => []
   end).

Lemma src_length (k : Z) : 0 <= k < Bmp.bmpHeight j ->
  length (src k) = Z.to_nat (Bmp.columns j * 3).
Proof.
  intros Hk. destruct (Hsrc k Hk) as (H0 & H1 & <-).
  rewrite length_take, length_drop. lia.
Qed.

Lemma row_out_length (b row : Z) (bytes : list Z) (n : nat) :
  forall column, length bytes = (3 * n)%nat ->
  length (row_out gamma bump dither b row column bytes) = (3 * n)%nat.
Proof.
  revert bytes. induction n as [| n IH]; intros bytes column Hlen.
  - destruct bytes; [reflexivity | discriminate].
  - destruct bytes as [| bl [| gr [| rd rest]]]; simpl in Hlen; try lia.
    cbn [row_out length]. rewrite (IH rest) by lia. lia.
Qed.

Lemma blit_middle (bytes X : list Z) :
  length bytes = length X ->
  Bmp.blit (Z.to_nat (Bmp.ledStart j)) bytes (pre ++ X ++ post) = pre ++ bytes ++ post.
Proof.
  intros Hlen. unfold Bmp.blit. rewrite <- Hpre.
  rewrite take_app_length. f_equal. f_equal.
  rewrite drop_app_ge by lia.
  replace (length pre + length bytes - length pre)%nat with (length X) by lia.
  apply drop_app_length.
Qed.

Lemma rows_loop_run (count : nat) :
  forall (row : Z) (f : Bmp.SdFile) (lineMax : Z) (X : list Z) (tr : list Bmp.event),
    0 <= row -> row + Z.of_nat count <= Bmp.bmpHeight j ->
    Bmp.data f = content ->
    length X = Z.to_nat (Bmp.columns j * 3) ->
    exists X',
      length X' = Z.to_nat (Bmp.columns j * 3)
      /\ Bmp.rows_loop gamma bump dither c j count row f lineMax
           {| Bmp.sdBuf := pre ++ X ++ post; Bmp.firstBlock := first;
              Bmp.nBlocks := nblk; Bmp.trace := tr |}
         = Bmp.Done
             (fold_left Z.max ((fun k => Mach.u32 (sumZ (out k))) <$> seqZ row (Z.of_nat count))
                        lineMax)
             {| Bmp.sdBuf := pre ++ X' ++ post; Bmp.firstBlock := first;
                Bmp.nBlocks := nblk; Bmp.trace := tr ++ evs row count |}.
Proof.
  induction count as [| k IH]; intros row f lineMax X tr Hrow Hend Hf HX.
  - exists X. split; [exact HX |]. simpl.
    destruct (Bmp.outName j); simpl; rewrite app_nil_r; reflexivity.
  - assert (Hk : 0 <= row < Bmp.bmpHeight j) by lia.
    destruct (Hsrc row Hk) as (Hp0 & Hp1 & Hdata).
    pose proof (src_length row Hk) as Hlen.
    assert (Hout : length (out row) = Z.to_nat (Bmp.columns j * 3)).
    { rewrite (row_out_length _ _ _ (Z.to_nat (Bmp.columns j))); lia. }
    cbn [Bmp.rows_loop].
    rewrite int_u16_small by lia.
    unfold Bmp.seekSet, Bmp.size. rewrite Hf.
    destruct (Z.gtb_spec (Bmp.rowPosition j row) (Z.of_nat (length content))) as [Hgt | _]; [lia |].
    unfold Bmp.read, Bmp.size. cbn [Bmp.data Bmp.curPosition].
    assert (Hn : (if Bmp.columns j * 3 >=? Z.of_nat (length content) - Bmp.rowPosition j row
                  then Z.of_nat (length content) - Bmp.rowPosition j row
                  else Bmp.columns j * 3) = Bmp.columns j * 3).
    { destruct (Z.geb_spec (Bmp.columns j * 3)
                  (Z.of_nat (length content) - Bmp.rowPosition j row)); lia. }
    rewrite Hn, Hdata.
    rewrite bool_decide_eq_false_2
      by (intros E; rewrite E in Hlen; simpl in Hlen; lia).
    cbn [Bmp.sdBuf Bmp.firstBlock Bmp.nBlocks Bmp.trace].
    destruct (Z.ltb_spec (Bmp.ledStart j) 0) as [Hneg | _]; [lia |].
    destruct (Z.gtb_spec (Bmp.ledStart j + Z.of_nat (length (src row))) 512) as [Hbig | _]; [lia |].
    cbn [orb].
    rewrite blit_middle by lia.
    rewrite <- Hpre.
    rewrite (columns_loop_spec gamma bump dither) by lia.
    rewrite Z.add_0_l.
    set (sum := Mach.u32 (sumZ (out row))).
    assert (Hmax : (if sum >? lineMax then sum else lineMax) = Z.max lineMax sum).
    { destruct (Z.gtb_spec sum lineMax); lia. }
    rewrite Hmax.
    assert (Hseq : seqZ row (Z.of_nat (S k)) = row :: seqZ (row + 1) (Z.of_nat k)).
    { rewrite seqZ_cons by lia. f_equal. f_equal; lia. }
    destruct (IH (row + 1) {| Bmp.data := content;
                              Bmp.curPosition := Bmp.rowPosition j row + Bmp.columns j * 3 |}
                 (Z.max lineMax sum) (out row)
                 (tr ++ match Bmp.outName j with
                        | Some _ => [Bmp.EvWrite (Mach.u32 (first + row)) (pre ++ out row ++ post)]
                        | None => []
                        end))
      as (X' & HX' & Hrun); [lia | lia | reflexivity | exact Hout |].
    exists X'. split; [exact HX' |].
    rewrite Hseq. cbn [fmap list_fmap fold_left].
    destruct (Bmp.outName j) as [o |].
    + rewrite Hwrite. rewrite Hrun. cbn [fmap list_fmap].
      rewrite <- app_assoc. reflexivity.
    + rewrite app_nil_r in Hrun. rewrite Hrun. reflexivity.
Qed.

End RowsProofs.

(** ** The layout of a BMP file *)

Lemma int_u32 (v : Z) : -32768 <= v < 32768 -> Mach.int (Mach.u32 v) = v.
Proof.
  intros H. rewrite <- (int_small v H) at 2.
  unfold Mach.int, Mach.swrap, Mach.u32, Mach.wrap.
  rewrite Z.mod_mod_divide; [reflexivity |].
  exists (2 ^ 16). reflexivity.
Qed.

Lemma land_minus4 (x : Z) : Z.land x (-4) = x / 4 * 4.
Proof.
  change (-4) with (Z.lnot (Z.ones 2)).
  rewrite <- Z.ldiff_land, Z.ldiff_ones_r by lia.
  rewrite Z.shiftl_mul_pow2, Z.shiftr_div_pow2 by lia. reflexivity.
Qed.

Lemma load32_le32 (x : Z) (rest : list Z) :
  0 <= x < 4294967296 -> Bmp.load32 (le32 x ++ rest) 0 = x.
Proof.
  intros H. unfold Bmp.load32, Bmp.load16, le32. cbn [app lookup_total list_lookup_total Nat.add].
  Z.div_mod_to_equations. lia.
Qed.

Lemma load16_le16 (x : Z) (rest : list Z) :
  0 <= x < 65536 -> Bmp.load16 (le16 x ++ rest) 0 = x.
Proof.
  intros H. unfold Bmp.load16, le16. cbn [app lookup_total list_lookup_total].
  Z.div_mod_to_equations. lia.
Qed.

(** The fields [bmpProcess] reads, in a buffer that starts with a header. *)
Lemma header_fields (fs off w h p bpp comp : Z) (rest : list Z) :
  let buf := bmp_header fs off w h p bpp comp ++ rest in
  Bmp.load16 buf 0 = 19778
  /\ Bmp.load32 buf 10 = Bmp.load32 (le32 off) 0
  /\ Bmp.load32 buf 18 = Bmp.load32 (le32 (Mach.u32 w)) 0
  /\ Bmp.load32 buf 22 = Bmp.load32 (le32 (Mach.u32 h)) 0
  /\ Bmp.load16 buf 26 = Bmp.load16 (le16 p) 0
  /\ Bmp.load16 buf 28 = Bmp.load16 (le16 bpp) 0
  /\ Bmp.load32 buf 30 = Bmp.load32 (le32 comp) 0.
Proof. repeat split; reflexivity. Qed.

Lemma bmp_header_length (fs off w h p bpp comp : Z) :
  length (bmp_header fs off w h p bpp comp) = 34%nat.
Proof. reflexivity. Qed.

(** Row [r] of a run of equally long rows. *)
Lemma drop_concat_row (rs : nat) (rows : list (list Z)) :
  forall (r : nat) (row : list Z),
    Forall (fun x => length x = rs) rows ->
    rows !! r = Some row ->
    drop (r * rs) (concat rows) = row ++ concat (drop (S r) rows).
Proof.
  induction rows as [| x rows IH]; intros r row Hall Hr; [discriminate |].
  inversion Hall as [| ? ? Hx Hrest]; subst.
  destruct r as [| r]; simpl in Hr |- *.
  - injection Hr as ->. rewrite drop_0. reflexivity.
  - rewrite drop_app_ge by lia.
    replace (length x + r * length x - length x)%nat with (r * length x)%nat by lia.
    apply IH; assumption.
Qed.

Lemma stride_bounds (w : Z) : 0 <= w -> w * 3 <= stride w <= w * 3 + 3.
Proof. intros H. unfold stride. Z.div_mod_to_equations. lia. Qed.

Lemma geometry_crop (w : Z) :
  N_LEDS <= w < 32768 ->
  Bmp.geometry w = ((w - N_LEDS) / 2, 0, N_LEDS, false).
Proof.
  intros H. unfold Bmp.geometry, N_LEDS in *.
  destruct (Z.geb_spec w 144) as [_ | Hlt]; [| lia].
  rewrite (int_small (w - 144)) by lia.
  rewrite Z.quot_div_nonneg by lia.
  rewrite int_small; [reflexivity |].
  Z.div_mod_to_equations. lia.
Qed.

Lemma geometry_centre (w : Z) :
  0 <= w < N_LEDS ->
  Bmp.geometry w = (0, (N_LEDS - w) / 2 * 3, w, true).
Proof.
  intros H. unfold Bmp.geometry, N_LEDS in *.
  destruct (Z.geb_spec w 144) as [Hge | _]; [lia |].
  rewrite (int_small (144 - w)) by lia.
  rewrite Z.quot_div_nonneg by lia.
  rewrite int_small; [reflexivity |].
  Z.div_mod_to_equations. lia.
Qed.

(** What every geometry of a sane width satisfies. *)
Lemma geometry_window (w : Z) :
  0 < w < 32768 ->
  exists startCol ledStart columns clear,
    Bmp.geometry w = (startCol, ledStart, columns, clear)
    /\ 0 <= startCol /\ 0 <= ledStart /\ 0 < columns <= N_LEDS
    /\ startCol + columns <= w
    /\ ledStart + columns * 3 <= N_LEDS * 3
    /\ (clear = false -> ledStart = 0 /\ columns = N_LEDS).
Proof.
  intros H. destruct (Z_lt_le_dec w N_LEDS) as [Hlt | Hge].
  - rewrite geometry_centre by lia. do 4 eexists. split; [reflexivity |].
    unfold N_LEDS in *. repeat split; try discriminate; try lia.
    all: Z.div_mod_to_equations; lia.
  - rewrite geometry_crop by lia. do 4 eexists. split; [reflexivity |].
    unfold N_LEDS in *. repeat split; try lia.
    all: Z.div_mod_to_equations; lia.
Qed.

Section FileProofs.

Variable gap : list Z.
Variable topdown : bool.
Variable w : Z.
Variable img : list (list Z).
Hypothesis Hwf : well_formed_image w img.

Local Abbreviation H := (Z.of_nat (length img)).
Local Abbreviation stored := (if topdown then reverse img else img).
Local Abbreviation off := (34 + Z.of_nat (length gap)).

Lemma wf_width : 0 < w <= 10921.
Proof. exact (proj1 Hwf). Qed.

Lemma wf_height : 0 < H < 32768.
Proof. exact (proj1 (proj2 Hwf)). Qed.

Lemma stored_length : length stored = length img.
Proof. destruct topdown; [apply length_reverse | reflexivity]. Qed.

Lemma img_row_length (k : nat) (row : list Z) :
  img !! k = Some row -> length row = Z.to_nat (w * 3).
Proof.
  intros Hk. destruct Hwf as (_ & _ & Hall).
  rewrite Forall_forall in Hall. apply Hall.
  eapply list_elem_of_lookup_2. exact Hk.
Qed.

Lemma padded_rows_length :
  Forall (fun x => length x = Z.to_nat (stride w)) (pad_row w <$> stored).
Proof.
  apply Forall_fmap. apply Forall_forall. intros row Hin. simpl.
  assert (Hrow : length row = Z.to_nat (w * 3)).
  { apply list_elem_of_lookup_1 in Hin as [k Hk].
    destruct topdown.
    - apply reverse_lookup_Some in Hk as [Hk _]. eapply img_row_length, Hk.
    - eapply img_row_length, Hk. }
  unfold pad_row. rewrite length_app, length_replicate, Hrow.
  pose proof wf_width. pose proof (stride_bounds w). lia.
Qed.

(** Output row [k] is stored as row [H - 1 - k] of a top-down file and
    as row [k] of a bottom-up one: in both it is image row [k]. *)
Lemma stored_row (k : nat) :
  (k < length img)%nat ->
  stored !! (if topdown then (length img - 1 - k)%nat else k) = Some (img !!! k).
Proof.
  intros Hk. destruct topdown.
  - rewrite reverse_lookup by lia.
    replace (length img - S (length img - 1 - k))%nat with k by lia.
    apply list_lookup_lookup_total_lt. exact Hk.
  - apply list_lookup_lookup_total_lt. exact Hk.
Qed.

Lemma concat_length_uniform (rs : nat) (rows : list (list Z)) :
  Forall (fun x => length x = rs) rows ->
  length (concat rows) = (length rows * rs)%nat.
Proof.
  induction 1 as [| x rows Hx _ IH]; [reflexivity |].
  simpl. rewrite length_app, IH, Hx. reflexivity.
Qed.

Lemma file_split :
  exists front,
    length front = (34 + length gap)%nat
    /\ bmp_file_at gap topdown w img = front ++ concat (pad_row w <$> stored).
Proof.
  exists (bmp_header (off + stride w * H) off w (if topdown then - H else H) 1 24 0
          ++ gap).
  split; [rewrite length_app, bmp_header_length; reflexivity |].
  unfold bmp_file_at. rewrite <- app_assoc. reflexivity.
Qed.

Lemma file_length :
  Z.of_nat (length (bmp_file_at gap topdown w img)) = off + stride w * H.
Proof.
  destruct file_split as (front & Hfront & ->).
  rewrite length_app, Hfront, (concat_length_uniform _ _ padded_rows_length).
  rewrite length_fmap, stored_length.
  pose proof wf_width. pose proof (stride_bounds w). nia.
Qed.

(** The bytes found [s] bytes into the stored row of output row [k]. *)
Lemma file_row (k s n : Z) :
  0 <= k < H -> 0 <= s -> 0 <= n -> s + n <= w * 3 ->
  take (Z.to_nat n)
       (drop (Z.to_nat (off + s + stride w * (if topdown then H - 1 - k else k)))
             (bmp_file_at gap topdown w img))
  = take (Z.to_nat n) (drop (Z.to_nat s) (img !!! Z.to_nat k)).
Proof.
  intros Hk Hs Hn Hfit.
  pose proof wf_width as Hw. pose proof (stride_bounds w) as Hst.
  destruct file_split as (front & Hfront & ->).
  assert (Hklt : (Z.to_nat k < length img)%nat) by lia.
  pose proof (stored_row (Z.to_nat k) Hklt) as Hrow.
  set (r := if topdown then (length img - 1 - Z.to_nat k)%nat else Z.to_nat k) in *.
  assert (Hr : (if topdown then H - 1 - k else k) = Z.of_nat r).
  { unfold r in *. destruct topdown; lia. }
  rewrite Hr.
  replace (Z.to_nat (off + s + stride w * Z.of_nat r))
    with (length front + (r * Z.to_nat (stride w) + Z.to_nat s))%nat by nia.
  rewrite drop_app_ge by lia.
  replace (length front + (r * Z.to_nat (stride w) + Z.to_nat s) - length front)%nat
    with (r * Z.to_nat (stride w) + Z.to_nat s)%nat by lia.
  rewrite <- drop_drop.
  rewrite (drop_concat_row _ _ r (pad_row w (img !!! Z.to_nat k)) padded_rows_length)
    by (rewrite list_lookup_fmap, Hrow; reflexivity).
  assert (Hlen : length (img !!! Z.to_nat k) = Z.to_nat (w * 3)).
  { apply (img_row_length (Z.to_nat k)). apply list_lookup_lookup_total_lt. exact Hklt. }
  unfold pad_row. rewrite <- !app_assoc.
  rewrite drop_app_le by lia.
  rewrite take_app_le by (rewrite length_drop; lia).
  reflexivity.
Qed.

End FileProofs.

(** The buffer at the start of the row loop: dark up to [ledStart], then
    room for the pixels, dark up to the end of the strip, then the bytes
    behind the strip data. *)
Lemma strip_buffer_split (B : list Z) (clear : bool) (ls cols : Z) :
  length B = 512%nat -> 0 <= ls -> 0 <= cols -> ls + cols * 3 <= N_LEDS * 3 ->
  (clear = false -> ls = 0 /\ cols = N_LEDS) ->
  exists X,
    length X = Z.to_nat (cols * 3)
    /\ (if clear then Bmp.blit 0 (replicate (Z.to_nat (N_LEDS * 3)) 0) B else B)
       = replicate (Z.to_nat ls) 0 ++ X
         ++ replicate (Z.to_nat (N_LEDS * 3 - ls - cols * 3)) 0 ++ drop 432 B.
Proof.
  intros HB Hls Hcols Hfit Hcrop. unfold N_LEDS in *. destruct clear.
  - exists (replicate (Z.to_nat (cols * 3)) 0). split; [apply length_replicate |].
    unfold Bmp.blit. rewrite length_replicate.
    change (Z.to_nat (144 * 3)) with 432%nat. cbn [take app Nat.add].
    rewrite !app_assoc. f_equal. rewrite <- !replicate_add.
    apply (f_equal (fun n => replicate n 0)). lia.
  - destruct (Hcrop eq_refl) as [-> ->]. exists (take 432 B).
    split; [rewrite length_take; lia |].
    cbn [replicate app Z.to_nat]. change (Z.to_nat (144 * 3 - 0 - 144 * 3)) with 0%nat.
    cbn [replicate app]. symmetry. apply take_drop.
Qed.

Lemma row_out_sum_bound (gamma bump : Z -> Z) (dither : Z -> Z -> Z) (b row : Z) (n : nat) :
  forall (bytes : list Z) (column : Z),
    (length bytes <= n)%nat ->
    0 <= sumZ (row_out gamma bump dither b row column bytes)
      <= 255 * Z.of_nat (length bytes).
Proof.
  induction n as [| n IH]; intros bytes column Hn.
  - destruct bytes; [simpl; lia | simpl in Hn; lia].
  - destruct bytes as [| bl [| gr [| rd rest]]]; try (simpl; lia).
    cbn [row_out sumZ fold_right]. fold (sumZ (row_out gamma bump dither b row (column + 1) rest)).
    set (d := Mach.u8 (dither (Z.land row 15) (Z.land column 15))).
    pose proof (correct_range gamma bump d (Bmp.scale b rd)).
    pose proof (correct_range gamma bump d (Bmp.scale b gr)).
    pose proof (correct_range gamma bump d (Bmp.scale b bl)).
    simpl in Hn. pose proof (IH rest (column + 1) ltac:(lia)).
    cbn [length]. lia.
Qed.

(** The size [512L * bmpHeight] requested for the raw file, as the
    unsigned argument of [createContiguous]: the height is still negative
    for a top-down file when it is computed. *)
Lemma request_size (topdown : bool) (rows : Z) :
  0 < rows < 32768 ->
  Mach.u32 (512 * (if topdown then - rows else rows))
  = if topdown then 4294967296 - 512 * rows else 512 * rows.
Proof.
  intros Hr. destruct topdown.
  - replace (512 * - rows) with (4294967296 - 512 * rows + (-1) * 4294967296) by lia.
    unfold Mach.u32, Mach.wrap. change (2 ^ 32) with 4294967296.
    rewrite Z.mod_add by lia. apply Z.mod_small. lia.
  - apply u32_small. lia.
Qed.

Section RunProofs.

Variable gamma : Z -> Z.
Variable bump : Z -> Z.
Variable dither : Z -> Z -> Z.

Variable gap : list Z.
Variable topdown : bool.
Variable w : Z.
Variable img : list (list Z).
Hypothesis Hwf : well_formed_image w img.
Hypothesis Hfits : fits_size_field gap w img.

Local Abbreviation H := (Z.of_nat (length img)).
Local Abbreviation h := (if topdown then - H else H).
Local Abbreviation off := (34 + Z.of_nat (length gap)).
Local Abbreviation hdr := (bmp_header (off + stride w * H) off w h 1 24 0).

Lemma read_header :
  Bmp.read 34 {| Bmp.data := bmp_file_at gap topdown w img; Bmp.curPosition := 0 |}
  = (hdr, {| Bmp.data := bmp_file_at gap topdown w img; Bmp.curPosition := 34 |}).
Proof.
  unfold Bmp.read, Bmp.size. cbn [Bmp.data Bmp.curPosition].
  rewrite (file_length gap topdown w img Hwf).
  pose proof (wf_width w img Hwf) as Hw. pose proof (wf_height w img Hwf) as Hh.
  pose proof (stride_bounds w) as Hs.
  destruct (Z.geb_spec 34 (off + stride w * H - 0)) as [Hge | _]; [nia |].
  reflexivity.
Qed.

Lemma header_ok_encoded (rest : list Z) : Bmp.header_ok (hdr ++ rest) = true.
Proof.
  unfold Bmp.header_ok.
  destruct (header_fields (off + stride w * H) off w h 1 24 0 rest)
    as (H0 & _ & _ & _ & H26 & H28 & H30).
  rewrite H0, H26, H28, H30. reflexivity.
Qed.

Lemma header_values (rest : list Z) :
  Bmp.load32 (hdr ++ rest) 10 = off
  /\ Mach.int (Bmp.load32 (hdr ++ rest) 18) = w
  /\ Mach.int (Bmp.load32 (hdr ++ rest) 22) = h.
Proof.
  pose proof (wf_width w img Hwf) as Hw. pose proof (wf_height w img Hwf) as Hh.
  pose proof (stride_bounds w) as Hs. unfold fits_size_field in Hfits.
  destruct (header_fields (off + stride w * H) off w h 1 24 0 rest)
    as (_ & H10 & H18 & H22 & _).
  rewrite H10, H18, H22.
  split.
  { rewrite <- (app_nil_r (le32 off)). apply load32_le32. nia. }
  rewrite <- (app_nil_r (le32 (Mach.u32 w))), <- (app_nil_r (le32 (Mach.u32 h))).
  rewrite !load32_le32 by apply u32_range.
  split; apply int_u32; destruct topdown; lia.
Qed.

Lemma rowSize_stride :
  Mach.u32 (Z.land (Mach.int (Mach.int (w * 3) + 3)) (-4)) = stride w.
Proof.
  pose proof (wf_width w img Hwf) as Hw. pose proof (stride_bounds w) as Hs.
  rewrite (int_small (w * 3)), int_small by lia.
  rewrite land_minus4. unfold stride. apply u32_small. unfold stride in Hs. lia.
Qed.

Variable prec : Z.
Variable c : Bmp.card.
Variable outN : option string.
Variable brightness : option Z.
Variable st : Bmp.state.
Variable first : Z.

Hypothesis Hbuf : length (Bmp.sdBuf st) = 512%nat.
Hypothesis Hcreate : forall o, outN = Some o ->
  Bmp.createContiguous c o (Mach.u32 (512 * h)) = Some first.
Hypothesis Hwrite : forall blk, Bmp.writeBlock c blk = true.
Hypothesis Hargs : ~ (brightness = None /\ outN = None).

Lemma bmpProcess_run :
  exists st',
    Bmp.bmpProcess gamma bump dither prec c (Some (bmp_file_at gap topdown w img))
                   outN brightness st
    = Bmp.Done
        (option_map
           (fun v => Bmp.suggestedBrightness prec v
                       (maxRowSum gamma bump dither (multiplier brightness) w img))
           brightness) st'
    /\ Bmp.trace st'
       = Bmp.trace st
         ++ match outN with
            | Some o =>
                [Bmp.EvRemove o; Bmp.EvCreate o (Mach.u32 (512 * h))]
                ++ frame_events gamma bump dither (multiplier brightness) w first img
                     (drop 432 (Bmp.sdBuf st))
            | None => []
            end.
Proof.
  pose proof (wf_width w img Hwf) as Hw. pose proof (wf_height w img Hwf) as Hh.
  pose proof (stride_bounds w) as Hs.
  pose proof Hfits as Hsz. unfold fits_size_field in Hsz.
  unfold Bmp.bmpProcess.
  rewrite bool_decide_eq_false_2 by exact Hargs.
  rewrite read_header.
  assert (Hblit : Bmp.blit 0 hdr (Bmp.sdBuf st) = hdr ++ drop 34 (Bmp.sdBuf st)) by reflexivity.
  cbn [Bmp.sdBuf Bmp.firstBlock Bmp.nBlocks Bmp.trace].
  rewrite Hblit.
  rewrite bool_decide_eq_false_2 by discriminate.
  rewrite header_ok_encoded. cbn [negb andb].
  destruct (header_values (drop 34 (Bmp.sdBuf st))) as (Hoff & Hwidth & Hheight).
  rewrite Hoff, Hwidth, Hheight.
  rewrite rowSize_stride.
  assert (Hflip : (h <? 0) = topdown).
  { destruct topdown; [apply Z.ltb_lt | apply Z.ltb_ge]; lia. }
  assert (HH : (if h <? 0 then Mach.int (- h) else h) = H).
  { rewrite Hflip. destruct topdown; [| reflexivity]. rewrite Z.opp_involutive.
    apply int_small. lia. }
  rewrite HH, Hflip.
  destruct (geometry_window w) as (sc & ls & cols & clear & Hgeo & Hsc & Hls & Hcols & Hin
                                   & Hfit & Hcrop); [lia |].
  rewrite Hgeo.
  set (B := hdr ++ drop 34 (Bmp.sdBuf st)).
  assert (HB : length B = 512%nat).
  { unfold B. rewrite length_app, length_drop, Hbuf. reflexivity. }
  assert (Htail : drop 432 B = drop 432 (Bmp.sdBuf st)).
  { unfold B. rewrite drop_app_ge by (rewrite bmp_header_length; lia).
    rewrite bmp_header_length, drop_drop. reflexivity. }
  destruct (strip_buffer_split B clear ls cols HB Hls ltac:(lia) Hfit Hcrop)
    as (X & HX & Hsplit).
  rewrite Htail in Hsplit.
  change (match brightness with Some v => Mach.u8 (1 + v) | None => 0 end)
    with (multiplier brightness).
  set (j := {| Bmp.outName := outN; Bmp.b16 := multiplier brightness;
               Bmp.bmpImageoffset := off; Bmp.rowSize := stride w;
               Bmp.bmpHeight := H; Bmp.flip := topdown; Bmp.bmpStartCol := sc;
               Bmp.ledStart := ls; Bmp.columns := cols |}).
  set (src := fun k : Z => crop w (img !!! Z.to_nat k)).
  assert (Hsrc : forall k, 0 <= k < Bmp.bmpHeight j ->
            0 <= Bmp.rowPosition j k
            /\ Bmp.rowPosition j k + Bmp.columns j * 3
               <= Z.of_nat (length (bmp_file_at gap topdown w img))
            /\ take (Z.to_nat (Bmp.columns j * 3))
                    (drop (Z.to_nat (Bmp.rowPosition j k)) (bmp_file_at gap topdown w img))
               = src k).
  { intros k Hk. cbn [Bmp.bmpHeight j] in Hk.
    assert (Hpos : Bmp.rowPosition j k
                   = off + sc * 3 + stride w * (if topdown then H - 1 - k else k)).
    { unfold Bmp.rowPosition. cbn [j Bmp.bmpImageoffset Bmp.bmpStartCol Bmp.rowSize
                                     Bmp.flip Bmp.bmpHeight].
      rewrite (int_small (sc * 3)) by lia.
      destruct topdown.
      - rewrite (int_small (H - 1)) by lia. rewrite int_small by lia.
        apply u32_small. unfold N_LEDS in *. nia.
      - apply u32_small. unfold N_LEDS in *. nia. }
    rewrite Hpos, (file_length gap topdown w img Hwf). cbn [j Bmp.columns].
    split; [destruct topdown; nia |].
    split; [destruct topdown; nia |].
    rewrite (file_row gap topdown w img Hwf k (sc * 3) (cols * 3)) by lia.
    unfold src, crop. rewrite Hgeo. reflexivity. }
  set (pre := replicate (Z.to_nat ls) 0) in *.
  set (post := replicate (Z.to_nat (N_LEDS * 3 - ls - cols * 3)) 0
               ++ drop 432 (Bmp.sdBuf st)) in *.
  assert (Hrun := fun fb nb tr =>
    rows_loop_run gamma bump dither c j (bmp_file_at gap topdown w img) src pre post fb nb
      ltac:(cbn [j Bmp.columns]; unfold N_LEDS in *; lia)
      ltac:(apply length_replicate)
      Hls
      ltac:(cbn [j Bmp.columns Bmp.ledStart]; unfold N_LEDS in *; lia)
      Hwrite Hsrc (Z.to_nat H) 0
      {| Bmp.data := bmp_file_at gap topdown w img; Bmp.curPosition := 34 |} 0 X tr
      ltac:(lia) ltac:(cbn [j Bmp.bmpHeight]; lia) eq_refl HX).
  assert (Hmax :
    fold_left Z.max
      ((fun k => Mach.u32 (sumZ (row_out gamma bump dither (Bmp.b16 j) k 0 (src k))))
         <$> seqZ 0 (Z.of_nat (Z.to_nat H))) 0
    = maxRowSum gamma bump dither (multiplier brightness) w img).
  { unfold maxRowSum, maxZ, row_sum. rewrite Z2Nat.id by lia. f_equal.
    apply list_fmap_ext. intros i k _. cbn [j Bmp.b16]. unfold src.
    apply u32_small.
    pose proof (row_out_sum_bound gamma bump dither (multiplier brightness) k _
                  (crop w (img !!! Z.to_nat k)) 0 (le_n _)) as Hb.
    assert (Hc : (length (crop w (img !!! Z.to_nat k)) <= 432)%nat).
    { unfold crop. rewrite Hgeo, length_take. unfold N_LEDS in *. lia. }
    lia. }
  assert (Hevs : forall fb,
    (fun k => Bmp.EvWrite (Mach.u32 (fb + k))
                (pre ++ row_out gamma bump dither (Bmp.b16 j) k 0 (src k) ++ post))
      <$> seqZ 0 (Z.of_nat (Z.to_nat H))
    = frame_events gamma bump dither (multiplier brightness) w fb img
        (drop 432 (Bmp.sdBuf st))).
  { intros fb. unfold frame_events, frame_row. rewrite Hgeo, Z2Nat.id by lia.
    reflexivity. }
  destruct outN as [o |].
  - rewrite (Hcreate o eq_refl).
    destruct (Hrun first (Mach.u32 h)
                (Bmp.trace st ++ [Bmp.EvRemove o; Bmp.EvCreate o (Mach.u32 (512 * h))]))
      as (X' & _ & Hr).
    cbn [Bmp.outName j] in Hr. rewrite Hmax, Hevs in Hr.
    eexists. split.
    + cbn [Bmp.sdBuf Bmp.firstBlock Bmp.nBlocks Bmp.trace].
      replace (if clear then _ else _)
        with {| Bmp.sdBuf := pre ++ X ++ post; Bmp.firstBlock := first;
                Bmp.nBlocks := Mach.u32 h;
                Bmp.trace := Bmp.trace st
                             ++ [Bmp.EvRemove o; Bmp.EvCreate o (Mach.u32 (512 * h))] |}
        by (rewrite <- Hsplit; destruct clear; reflexivity).
      rewrite Hr. destruct brightness; reflexivity.
    + cbn [Bmp.trace]. rewrite <- app_assoc. reflexivity.
  - destruct (Hrun (Bmp.firstBlock st) (Bmp.nBlocks st) (Bmp.trace st)) as (X' & _ & Hr).
    cbn [Bmp.outName j] in Hr. rewrite Hmax in Hr.
    eexists. split.
    + cbn [Bmp.sdBuf Bmp.firstBlock Bmp.nBlocks Bmp.trace].
      replace (if clear then _ else _)
        with {| Bmp.sdBuf := pre ++ X ++ post; Bmp.firstBlock := Bmp.firstBlock st;
                Bmp.nBlocks := Bmp.nBlocks st; Bmp.trace := Bmp.trace st |}
        by (rewrite <- Hsplit; destruct clear; reflexivity).
      rewrite Hr. destruct brightness; reflexivity.
    + reflexivity.
Qed.

End RunProofs.

(** ** Whole conversions *)

Lemma writes_app (t1 t2 : list Bmp.event) : writes (t1 ++ t2) = writes t1 ++ writes t2.
Proof.
  induction t1 as [| e t1 IH]; [reflexivity |].
  destruct e; simpl; rewrite IH; reflexivity.
Qed.

Section Conversions.

Variable gamma : Z -> Z.
Variable bump : Z -> Z.
Variable dither : Z -> Z -> Z.

Lemma writes_frame_events (b w first : Z) (img : list (list Z)) (tail : list Z) :
  writes (frame_events gamma bump dither b w first img tail)
  = (fun k => (Mach.u32 (first + k),
               frame_row gamma bump dither b w k (img !!! Z.to_nat k) tail))
      <$> seqZ 0 (Z.of_nat (length img)).
Proof.
  unfold frame_events. induction (seqZ 0 (Z.of_nat (length img))) as [| k l IH];
    [reflexivity |].
  cbn [fmap list_fmap writes]. f_equal. exact IH.
Qed.

(** C8, as amended: an image 1 to 10921 pixels wide with 1 to 32767
    rows, given by its rows from the bottom upwards, is stored either
    bottom-up (positive height) or top-down (negative height) behind a
    header of any length, rows padded to four bytes, the file shorter
    than 4 GiB.  On a card that grants the size the sketch requests (for
    a top-down file 2^32 - 512 * rows bytes, the height being negated
    only after the request) and accepts the block writes, the conversion
    finishes and the blocks written are, in order, the converted rows 0,
    1, 2, ... counted from the bottom of the picture: block [k] is made
    from [img !!! k], the same list whatever the storage order. *)
Theorem rows_written_bottom_up (prec : Z) (c : Bmp.card) (gap : list Z) (w : Z)
    (img : list (list Z)) (out : string) (v : Z) (st : Bmp.state) (first : Z)
    (topdown : bool) :
  well_formed_image w img ->
  fits_size_field gap w img ->
  length (Bmp.sdBuf st) = 512%nat ->
  Bmp.createContiguous c out
    (if topdown then 4294967296 - 512 * Z.of_nat (length img)
     else 512 * Z.of_nat (length img)) = Some first ->
  (forall blk, Bmp.writeBlock c blk = true) ->
  exists r st',
    Bmp.bmpProcess gamma bump dither prec c (Some (bmp_file_at gap topdown w img))
                   (Some out) (Some v) st = Bmp.Done r st'
    /\ writes (Bmp.trace st')
       = writes (Bmp.trace st)
         ++ ((fun k => (Mach.u32 (first + k),
                        frame_row gamma bump dither (Mach.u8 (1 + v)) w k
                                  (img !!! Z.to_nat k) (drop 432 (Bmp.sdBuf st))))
               <$> seqZ 0 (Z.of_nat (length img))).
Proof.
  intros Hwf Hfits Hbuf Hcreate Hwrite.
  pose proof (wf_height w img Hwf) as Hh.
  destruct (bmpProcess_run gamma bump dither gap topdown w img Hwf Hfits prec c (Some out)
              (Some v) st first Hbuf) as (st' & Hrun & Htrace);
    [| exact Hwrite | |].
  { intros o' Eo. injection Eo as <-. rewrite request_size by exact Hh. exact Hcreate. }
  { intros [Hb _]. discriminate Hb. }
  eexists. exists st'. split; [exact Hrun |].
  rewrite Htrace, writes_app. f_equal.
  cbn [app writes]. apply writes_frame_events.
Qed.

End Conversions.

Lemma rows_written_bottom_up_witness :
  exists r st',
    Bmp.bmpProcess id_gamma no_bump flat_dither 24 (good_card 1000)
                   (Some (bmp_file true 2 small_image)) (Some "IMG.raw"%string) (Some 255)
                   blank_state = Bmp.Done r st'
    /\ writes (Bmp.trace st')
       = writes (Bmp.trace blank_state)
         ++ ((fun k => (Mach.u32 (1000 + k),
                        frame_row id_gamma no_bump flat_dither (Mach.u8 (1 + 255)) 2 k
                                  (small_image !!! Z.to_nat k)
                                  (drop 432 (Bmp.sdBuf blank_state))))
               <$> seqZ 0 (Z.of_nat (length small_image))).
Proof.
  apply (rows_written_bottom_up id_gamma no_bump flat_dither 24 (good_card 1000)
           (replicate 20 0) 2 small_image "IMG.raw"%string 255 blank_state 1000 true).
  - unfold well_formed_image, small_image. repeat split; try (simpl; lia).
    repeat constructor; unfold is_u8; lia.
  - reflexivity.
  - reflexivity.
  - reflexivity.
  - reflexivity.
Defined.

(** C8, as stated, fails: the file of a picture 10922 pixels wide and two
    rows high, bytes 1 in the bottom row and 2 in the row above.  With
    this width [(bmpWidth * 3) + 3] leaves the 16-bit [int], the row size
    becomes 2^32 - 32768 and the seek to the second row is refused, so
    that the read goes on in the bottom row: the second block written
    holds bytes of the bottom row again, where the row above it is due. *)
Lemma wide_image_row_repeated :
  frame_row id_gamma no_bump flat_dither (Mach.u8 (1 + 255)) 10922 1
            (ones_then_twos !!! 1%nat) (drop 432 (Bmp.sdBuf blank_state))
  = replicate 432 2 ++ replicate 80 0
  /\ exists r st',
       Bmp.bmpProcess id_gamma no_bump flat_dither 24 (good_card 1000)
                      (Some (bmp_file false 10922 ones_then_twos))
                      (Some "IMG.raw"%string) (Some 255) blank_state = Bmp.Done r st'
       /\ writes (Bmp.trace st')
          = [(1000, replicate 432 1 ++ replicate 80 0);
             (1001, replicate 432 1 ++ replicate 80 0)].
Proof.
  split; [vm_compute; reflexivity |].
  do 2 eexists. split; vm_compute; reflexivity.
Qed.

(** ** The header test *)

Lemma load16_prefix (bytes rest : list Z) (i : nat) :
  (S i < 34)%nat -> (34 <= length bytes)%nat ->
  Bmp.load16 (take 34 bytes ++ rest) i = Bmp.load16 bytes i.
Proof.
  intros Hi Hlen. unfold Bmp.load16.
  rewrite !lookup_total_app_l by (rewrite length_take; lia).
  rewrite !lookup_total_take_lt by lia. reflexivity.
Qed.

Lemma header_ok_prefix (bytes rest : list Z) :
  (34 <= length bytes)%nat ->
  Bmp.header_ok (take 34 bytes ++ rest) = Bmp.header_ok bytes.
Proof.
  intros Hlen. unfold Bmp.header_ok, Bmp.load32.
  rewrite !load16_prefix by (simpl; lia). reflexivity.
Qed.

Lemma header_ok_fields (bytes : list Z) :
  Bmp.header_ok bytes = true
  <-> Bmp.load16 bytes 0 = 19778 /\ Bmp.load16 bytes 26 = 1
      /\ Bmp.load16 bytes 28 = 24 /\ Bmp.load32 bytes 30 = 0.
Proof.
  unfold Bmp.header_ok. rewrite !andb_true_iff, !Z.eqb_eq. tauto.
Qed.

Lemma read_34 (bytes : list Z) :
  (34 <= length bytes)%nat ->
  Bmp.read 34 {| Bmp.data := bytes; Bmp.curPosition := 0 |}
  = (take 34 bytes, {| Bmp.data := bytes; Bmp.curPosition := 34 |}).
Proof.
  intros Hlen. unfold Bmp.read, Bmp.size. cbn [Bmp.data Bmp.curPosition].
  rewrite Z.sub_0_r.
  destruct (Z.geb_spec 34 (Z.of_nat (length bytes))) as [Hge | Hlt].
  - assert (Heq : length bytes = 34%nat) by lia. rewrite Heq. reflexivity.
  - reflexivity.
Qed.

Section Faults.

Variable gamma : Z -> Z.
Variable bump : Z -> Z.
Variable dither : Z -> Z -> Z.

(** The row loop only appends to the trace and never reports a format
    error. *)
Lemma rows_loop_trace (c : Bmp.card) (j : Bmp.job) (count : nat) :
  forall (row : Z) (f : Bmp.SdFile) (lineMax : Z) (st : Bmp.state),
    (exists extra,
       Bmp.trace (final_state (Bmp.rows_loop gamma bump dither c j count row f lineMax st))
       = Bmp.trace st ++ extra)
    /\ (forall st',
          Bmp.rows_loop gamma bump dither c j count row f lineMax st
          <> Bmp.Halt FormatNotRecognized st').
Proof.
  induction count as [| k IH]; intros row f lineMax st.
  - simpl. split; [exists []; rewrite app_nil_r; reflexivity | discriminate].
  - cbn [Bmp.rows_loop].
    destruct (Bmp.read _ _) as [bytes f'].
    destruct (bool_decide (bytes = [])).
    { simpl. split; [exists []; rewrite app_nil_r; reflexivity | discriminate]. }
    destruct (_ || _).
    { simpl. split; [exists []; rewrite app_nil_r; reflexivity | discriminate]. }
    destruct (Bmp.columns_loop _ _ _ _ _ _ _ _ _ _) as [buf sum].
    destruct (Bmp.outName j) as [o |].
    + destruct (Bmp.writeBlock c _).
      * match goal with
        | |- context [Bmp.rows_loop _ _ _ _ _ k ?r ?g ?l ?s] =>
            destruct (IH r g l s) as [[extra Hx] Hne]
        end.
        split; [| exact Hne].
        rewrite Hx. cbn [Bmp.trace]. rewrite <- app_assoc. eexists. reflexivity.
      * simpl. split; [exists []; rewrite app_nil_r; reflexivity | discriminate].
    + match goal with
      | |- context [Bmp.rows_loop _ _ _ _ _ k ?r ?g ?l ?s] =>
          destruct (IH r g l s) as [[extra Hx] Hne]
      end.
      split; [| exact Hne]. rewrite Hx. cbn [Bmp.trace]. eexists. reflexivity.
Qed.

(** The row loop stops only in the read error, in the write error, or at
    a store outside [sdBuf]. *)
Lemma rows_loop_faults (c : Bmp.card) (j : Bmp.job) (count : nat) :
  forall (row : Z) (f : Bmp.SdFile) (lineMax : Z) (st : Bmp.state),
    match Bmp.rows_loop gamma bump dither c j count row f lineMax st with
    | Bmp.Done _ _ => True
    | Bmp.Halt e _ => e = ReadError \/ e = WriteError \/ e = BufferOverrun
    end.
Proof.
  induction count as [| k IH]; intros row f lineMax st; [exact I |].
  cbn [Bmp.rows_loop].
  destruct (Bmp.read _ _) as [bytes f'].
  destruct (bool_decide (bytes = [])); [left; reflexivity |].
  destruct (_ || _); [right; right; reflexivity |].
  destruct (Bmp.columns_loop _ _ _ _ _ _ _ _ _ _) as [buf sum].
  destruct (Bmp.outName j) as [o |].
  - destruct (Bmp.writeBlock c _); [apply IH | right; left; reflexivity].
  - apply IH.
Qed.

End Faults.

Section HeaderCheck.

Variable gamma : Z -> Z.
Variable bump : Z -> Z.
Variable dither : Z -> Z -> Z.

(** C2, as amended: for an input file of at least 34 bytes, converted
    to the raw file [out].  The conversion ends in the format error, with
    nothing removed, created or written and [firstBlock], [nBlocks]
    unchanged, exactly when the signature, plane count, bit depth and
    compression fields are not 0x4D42, 1, 24 and 0.  With a matching
    header the old raw file is removed and the new one requested, and the
    run then returns or stops in the create, read or write error (or at a
    store outside [sdBuf]): a matching header alone does not make a frame.
    A frame of one block per image row is produced for the file of an
    image 1 to 10921 pixels wide with 1 to 32767 rows, stored bottom-up
    or top-down behind a header of any length with rows padded to four
    bytes, the file shorter than 4 GiB, on a card that grants the size
    requested and accepts the block writes. *)
Theorem header_decides_format_error (prec : Z) (c : Bmp.card) (bytes : list Z)
    (out : string) (brightness : option Z) (st : Bmp.state) :
  (34 <= length bytes)%nat ->
  length (Bmp.sdBuf st) = 512%nat ->
  let matches := Bmp.load16 bytes 0 = 19778 /\ Bmp.load16 bytes 26 = 1
                 /\ Bmp.load16 bytes 28 = 24 /\ Bmp.load32 bytes 30 = 0 in
  let o := Bmp.bmpProcess gamma bump dither prec c (Some bytes) (Some out) brightness st in
  (~ matches ->
     exists st', o = Bmp.Halt FormatNotRecognized st'
                 /\ Bmp.trace st' = Bmp.trace st
                 /\ Bmp.firstBlock st' = Bmp.firstBlock st
                 /\ Bmp.nBlocks st' = Bmp.nBlocks st)
  /\ (matches ->
        (forall st', o <> Bmp.Halt FormatNotRecognized st')
        /\ (exists sz extra,
              Bmp.trace (final_state o)
              = Bmp.trace st ++ [Bmp.EvRemove out; Bmp.EvCreate out sz] ++ extra)
        /\ match o with
           | Bmp.Done _ _ => True
           | Bmp.Halt e _ =>
               e = CreateFileError \/ e = ReadError \/ e = WriteError \/ e = BufferOverrun
           end)
  /\ (forall gap topdown w img first,
        bytes = bmp_file_at gap topdown w img ->
        well_formed_image w img ->
        fits_size_field gap w img ->
        Bmp.createContiguous c out
          (if topdown then 4294967296 - 512 * Z.of_nat (length img)
           else 512 * Z.of_nat (length img)) = Some first ->
        (forall blk, Bmp.writeBlock c blk = true) ->
        exists r st',
          o = Bmp.Done r st'
          /\ length (writes (Bmp.trace st'))
             = (length (writes (Bmp.trace st)) + length img)%nat).
Proof.
  intros Hlen Hbuf matches o.
  assert (Hargs : ~ (brightness = None /\ Some out = None)) by (intros [_ Hx]; discriminate Hx).
  assert (Ho : o = Bmp.bmpProcess gamma bump dither prec c (Some bytes) (Some out)
                     brightness st) by reflexivity.
  unfold Bmp.bmpProcess in Ho.
  rewrite bool_decide_eq_false_2 in Ho by exact Hargs.
  rewrite read_34 in Ho by exact Hlen.
  cbn [Bmp.sdBuf Bmp.firstBlock Bmp.nBlocks Bmp.trace] in Ho.
  assert (Hnil : bool_decide (take 34 bytes = []) = false).
  { apply bool_decide_eq_false_2. intros E. apply (f_equal length) in E.
    rewrite length_take in E. cbn [length] in E. lia. }
  rewrite Hnil in Ho. cbn [negb andb] in Ho.
  change (Bmp.blit 0 (take 34 bytes) (Bmp.sdBuf st))
    with (take 34 bytes ++ drop (0 + length (take 34 bytes)) (Bmp.sdBuf st)) in Ho.
  rewrite header_ok_prefix in Ho by exact Hlen.
  split; [| split].
  - intros Hno.
    assert (Hok : Bmp.header_ok bytes = false).
    { destruct (Bmp.header_ok bytes) eqn:E; [| reflexivity].
      exfalso. apply Hno. apply header_ok_fields. exact E. }
    rewrite Hok in Ho. eexists. split; [exact Ho |]. repeat split.
  - intros Hyes. apply header_ok_fields in Hyes. rewrite Hyes in Ho.
    destruct (Bmp.createContiguous c out _) as [fb |] in Ho.
    + destruct (Bmp.geometry _) as [[[sc ls] cols] clear] in Ho.
      match type of Ho with
      | context [Bmp.rows_loop _ _ _ ?c0 ?j0 ?n0 ?r0 ?f0 ?l0 ?s0] =>
          destruct (rows_loop_trace gamma bump dither c0 j0 n0 r0 f0 l0 s0)
            as [[extra Hx] Hne];
          pose proof (rows_loop_faults gamma bump dither c0 j0 n0 r0 f0 l0 s0) as Hfault;
          destruct (Bmp.rows_loop gamma bump dither c0 j0 n0 r0 f0 l0 s0)
            as [lm st3 | e st3] eqn:Hloop
      end.
      * split; [intros st'; rewrite Ho; discriminate |].
        split; [| rewrite Ho; exact I].
        rewrite Ho. cbn [final_state] in Hx |- *. rewrite Hx.
        destruct clear; cbn [Bmp.trace]; rewrite <- app_assoc; do 2 eexists; reflexivity.
      * split.
        { intros st' E. rewrite Ho in E. injection E as -> ->. apply (Hne st'). reflexivity. }
        split; [| rewrite Ho; tauto].
        rewrite Ho. cbn [final_state] in Hx |- *. rewrite Hx.
        destruct clear; cbn [Bmp.trace]; rewrite <- app_assoc; do 2 eexists; reflexivity.
    + split; [intros st'; rewrite Ho; discriminate |].
      split; [| rewrite Ho; left; reflexivity].
      rewrite Ho. cbn [final_state Bmp.trace]. do 2 eexists.
      instantiate (1 := []). reflexivity.
  - intros gap topdown w img first -> Hwf Hfits Hcreate Hwrite.
    pose proof (wf_height w img Hwf) as Hh.
    destruct (bmpProcess_run gamma bump dither gap topdown w img Hwf Hfits prec c (Some out)
                brightness st first Hbuf) as (st' & Hrun & Htrace);
      [| exact Hwrite | exact Hargs |].
    { intros o' Eo. injection Eo as <-. rewrite request_size by exact Hh. exact Hcreate. }
    eexists. exists st'. split; [exact Hrun |].
    rewrite Htrace, writes_app. cbn [app writes].
    rewrite writes_frame_events, length_app, length_fmap, length_seqZ. lia.
Qed.

End HeaderCheck.

(** C2, as stated, fails: a 34-byte file that is nothing but a header with
    signature 0x4D42, one plane, 24 bits and no compression (width 1,
    height 1).  The header matches, the raw file is removed and created
    anew, and the first row read finds no data: the conversion stops in
    the read error with no block written. *)
Lemma header_matches_but_no_frame :
  let bytes := bmp_header 34 54 1 1 1 24 0 in
  (Bmp.load16 bytes 0 = 19778 /\ Bmp.load16 bytes 26 = 1
   /\ Bmp.load16 bytes 28 = 24 /\ Bmp.load32 bytes 30 = 0)
  /\ exists st',
       Bmp.bmpProcess id_gamma no_bump flat_dither 24 (good_card 1000) (Some bytes)
                      (Some "IMG.raw"%string) (Some 255) blank_state
       = Bmp.Halt ReadError st'
       /\ Bmp.trace st' = [Bmp.EvRemove "IMG.raw"; Bmp.EvCreate "IMG.raw" 512].
Proof.
  split; [repeat split |].
  eexists. split; vm_compute; reflexivity.
Qed.

(** A file cut off inside a row is not noticed either: with a matching
    header for a picture two pixels wide and one row high, but only three
    of its six pixel bytes, the row read returns the three bytes there
    are, and the conversion finishes with one block written. *)
Lemma partial_row_not_detected :
  exists r st',
    Bmp.bmpProcess id_gamma no_bump flat_dither 24 (good_card 1000)
                   (Some (bmp_header 57 54 2 1 1 24 0 ++ replicate 20 0 ++ [9; 9; 9]))
                   (Some "IMG.raw"%string) (Some 255) blank_state = Bmp.Done r st'
    /\ length (writes (Bmp.trace st')) = 1%nat.
Proof.
  do 2 eexists. split; vm_compute; reflexivity.
Qed.

Lemma header_decides_format_error_witness :
  exists r st',
    Bmp.bmpProcess id_gamma no_bump flat_dither 24 (good_card 1000)
                   (Some (bmp_file true 2 small_image)) (Some "IMG.raw"%string) (Some 255)
                   blank_state = Bmp.Done r st'
    /\ length (writes (Bmp.trace st'))
       = (length (writes (Bmp.trace blank_state)) + length small_image)%nat.
Proof.
  assert (Hlen : (34 <= length (bmp_file true 2 small_image))%nat) by (vm_compute; lia).
  assert (Hbuf : length (Bmp.sdBuf blank_state) = 512%nat) by reflexivity.
  assert (Hwf : well_formed_image 2 small_image).
  { unfold well_formed_image, small_image. repeat split; try (simpl; lia).
    repeat constructor; unfold is_u8; lia. }
  destruct (header_decides_format_error id_gamma no_bump flat_dither 24 (good_card 1000)
              (bmp_file true 2 small_image) "IMG.raw"%string (Some 255) blank_state
              Hlen Hbuf) as (_ & _ & Hrun).
  apply (Hrun (replicate 20 0) true 2 small_image 1000 eq_refl Hwf); reflexivity.
Defined.

(** ** Current estimate *)

Lemma fold_max_bound (B : Z) (l : list Z) :
  forall acc, 0 <= acc <= B -> Forall (fun x => 0 <= x <= B) l ->
              0 <= fold_left Z.max l acc <= B.
Proof.
  induction l as [| x l IH]; intros acc Hacc Hall; [exact Hacc |].
  inversion Hall; subst. simpl. apply IH; [lia | assumption].
Qed.

(** *** Division by the correction factor *)

Lemma rne_den_1 (n : Z) : Flt.rne n 1 = n.
Proof.
  unfold Flt.rne. rewrite Z.div_1_r, Z.mod_1_r. reflexivity.
Qed.

Lemma rne_bounds (num den : Z) :
  0 < den ->
  num / den <= Flt.rne num den /\ 2 * den * Flt.rne num den <= 2 * num + den.
Proof.
  intros Hden. unfold Flt.rne.
  pose proof (Z.div_mod num den ltac:(lia)) as Hdm.
  pose proof (Z.mod_pos_bound num den Hden) as Hr.
  set (q := num / den) in *. set (r := num mod den) in *.
  assert (Hq : 2 * den * q = 2 * num - 2 * r) by lia.
  assert (Hq1 : 2 * den * (q + 1) = 2 * num - 2 * r + 2 * den) by lia.
  destruct (Z.ltb_spec (2 * r) den).
  - split; lia.
  - destruct (Z.gtb_spec (2 * r) den).
    + split; lia.
    + destruct (Z.even q); split; lia.
Qed.

Lemma quotient_by_1_4 (mc S x K : Z) :
  0 < mc -> 5 * mc <= 7 * S -> 7 * S - 5 * mc <= 3 ->
  8388608 <= S ->
  0 <= x <= 8640 -> 4 <= K ->
  Flt.rne (x * S * K) mc / K = x * 10 / 14.
Proof.
  intros Hmc Hle Hclose HS Hx HK.
  destruct (rne_bounds (x * S * K) mc Hmc) as [Hlo Hhi].
  set (r := Flt.rne (x * S * K) mc) in *.
  set (n := x * 10 / 14).
  assert (Hn : 7 * n <= 5 * x <= 7 * n + 6 /\ 0 <= n <= 6171).
  { unfold n. Z.div_mod_to_equations. lia. }
  destruct Hn as [Hn Hn'].
  assert (F1 : 0 <= (5 * x - 7 * n) * (K * mc)) by (apply Z.mul_nonneg_nonneg; lia).
  assert (F2 : 0 <= (7 * S - 5 * mc) * (x * K)) by (apply Z.mul_nonneg_nonneg; lia).
  assert (F3 : 0 <= (7 * n + 6 - 5 * x) * (S * K)) by (apply Z.mul_nonneg_nonneg; lia).
  assert (F4 : 0 <= (n * K) * (5 * mc + 3 - 7 * S)) by (apply Z.mul_nonneg_nonneg; lia).
  assert (F5 : 0 <= (S - 8388608) * (K - 4)) by (apply Z.mul_nonneg_nonneg; lia).
  assert (F6 : 0 <= (6171 - n) * K) by (apply Z.mul_nonneg_nonneg; lia).
  assert (F7 : 0 <= (5 * mc + 3 - 7 * S) * K) by (apply Z.mul_nonneg_nonneg; lia).
  assert (Hfloor : n * K <= x * S * K / mc).
  { apply Z.div_le_lower_bound; [lia |]. lia. }
  assert (Hup : 2 * mc * r < 2 * mc * ((n + 1) * K)) by lia.
  assert (Hr : r < (n + 1) * K).
  { apply (Z.mul_lt_mono_pos_l (2 * mc)); lia. }
  symmetry. apply (Z.div_unique_pos r K n (r - n * K)); lia.
Qed.

Lemma pow2_nonneg (k : Z) : 0 <= k -> Flt.pow2 k = 2 ^ k.
Proof. intros H. unfold Flt.pow2. rewrite Z.max_r by lia. reflexivity. Qed.

Lemma pow2_nonpos (k : Z) : k <= 0 -> Flt.pow2 k = 1.
Proof. intros H. unfold Flt.pow2. rewrite Z.max_l by lia. reflexivity. Qed.

(** A positive integer below [2 ^ prec] converts without rounding. *)
Lemma of_Z_exact (prec x : Z) :
  0 < x -> Z.log2 x < prec ->
  Flt.of_Z prec x = Flt.mk (x * 2 ^ (prec - 1 - Z.log2 x)) (Z.log2 x - (prec - 1)).
Proof.
  intros Hx Hk. unfold Flt.of_Z, Flt.round.
  pose proof (Z.log2_nonneg x) as Hk0.
  pose proof (Z.log2_spec x Hx) as [Hlo Hhi].
  destruct (Z.leb_spec x 0) as [Hle | _]; [lia |].
  change (Z.log2 1) with 0. rewrite Z.sub_0_r.
  rewrite (pow2_nonpos (- Z.log2 x)), (pow2_nonneg (Z.log2 x)) by lia.
  destruct (Z.ltb_spec (x * 1) (1 * 2 ^ Z.log2 x)) as [Hlt | _]; [lia |].
  rewrite (pow2_nonneg (- (Z.log2 x - (prec - 1)))) by lia.
  rewrite (pow2_nonpos (Z.log2 x - (prec - 1))) by lia.
  change (1 * 1) with 1. rewrite rne_den_1. f_equal. f_equal. f_equal. lia.
Qed.

Lemma float_quotient (prec mc x : Z) :
  24 <= prec ->
  CORRECTION_FACTOR prec = Flt.mk mc (1 - prec) ->
  Z.log2 mc = prec - 1 ->
  5 * mc <= 7 * 2 ^ (prec - 1) -> 7 * 2 ^ (prec - 1) - 5 * mc <= 3 ->
  0 <= x <= 8640 ->
  Flt.to_Z (Flt.div prec (Flt.of_Z prec x) (CORRECTION_FACTOR prec)) = x * 10 / 14.
Proof.
  intros Hprec Hcf Hlog Hle Hclose Hx.
  destruct (Z.eq_dec x 0) as [-> | Hx0]; [rewrite Hcf; reflexivity |].
  assert (Hxpos : 0 < x) by lia.
  pose proof (Z.log2_nonneg x) as Hk0.
  pose proof (Z.log2_spec x Hxpos) as [Hlo Hhi].
  assert (Hk13 : Z.log2 x <= 13).
  { apply Z.lt_succ_r. apply Z.log2_lt_pow2; [lia |]. change (2 ^ Z.succ 13) with 16384. lia. }
  set (k := Z.log2 x) in *.
  assert (Hmcpos : 0 < mc).
  { destruct (Z_lt_le_dec 0 mc) as [Hp | Hn]; [exact Hp |].
    rewrite Z.log2_nonpos in Hlog by exact Hn. lia. }
  pose proof (Z.log2_spec mc Hmcpos) as [Hmlo Hmhi]. rewrite Hlog in Hmlo, Hmhi.
  assert (HS : 0 < 2 ^ (prec - 1)) by (apply Z.pow_pos_nonneg; lia).
  rewrite of_Z_exact, Hcf by (fold k; lia). fold k.
  unfold Flt.div. cbn [Flt.mant Flt.expo].
  replace (k - (prec - 1) - (1 - prec)) with k by lia.
  replace (1 - prec - (k - (prec - 1))) with (- k) by lia.
  rewrite (pow2_nonneg k), (pow2_nonpos (- k)), Z.mul_1_r by lia.
  replace (x * 2 ^ (prec - 1 - k) * 2 ^ k) with (x * 2 ^ (prec - 1))
    by (rewrite <- Z.mul_assoc, <- Z.pow_add_r by lia; do 2 f_equal; lia).
  unfold Flt.round.
  destruct (Z.leb_spec (x * 2 ^ (prec - 1)) 0) as [Hneg | _]; [nia |].
  rewrite Z.log2_mul_pow2, Hlog by lia. fold k.
  replace (prec - 1 + k - (prec - 1)) with k by lia.
  rewrite (pow2_nonneg k), (pow2_nonpos (- k)), Z.mul_1_r by lia.
  set (e := if x * 2 ^ (prec - 1) <? mc * 2 ^ k then k - 1 else k).
  assert (He : k - 1 <= e <= k) by (unfold e; destruct (_ <? _); lia).
  rewrite (pow2_nonneg (- (e - (prec - 1)))), (pow2_nonpos (e - (prec - 1))), Z.mul_1_r by lia.
  unfold Flt.to_Z. cbn [Flt.mant Flt.expo].
  destruct (Z.geb_spec (e - (prec - 1)) 0) as [Hge | _]; [lia |].
  apply quotient_by_1_4; try lia.
  - assert (H23 : 2 ^ 23 <= 2 ^ (prec - 1)) by (apply Z.pow_le_mono_r; lia).
    change (2 ^ 23) with 8388608 in H23. exact H23.
  - assert (H4 : 2 ^ 2 <= 2 ^ (- (e - (prec - 1)))) by (apply Z.pow_le_mono_r; lia).
    change (2 ^ 2) with 4 in H4. exact H4.
Qed.

(** Dividing by the literal 1.4 and truncating, for every value the
    estimate can take on a 144-pixel strip: the result is the integer
    quotient by 1.4, in the 32-bit format as in the 64-bit one. *)
Lemma float_quotient_24 (x : Z) :
  0 <= x <= 8640 ->
  Flt.to_Z (Flt.div 24 (Flt.of_Z 24 x) (CORRECTION_FACTOR 24)) = x * 10 / 14.
Proof.
  intros Hx. apply (float_quotient 24 11744051); [lia | reflexivity | reflexivity | | | exact Hx].
  - change (2 ^ (24 - 1)) with 8388608. lia.
  - change (2 ^ (24 - 1)) with 8388608. lia.
Qed.

Lemma float_quotient_53 (x : Z) :
  0 <= x <= 8640 ->
  Flt.to_Z (Flt.div 53 (Flt.of_Z 53 x) (CORRECTION_FACTOR 53)) = x * 10 / 14.
Proof.
  intros Hx.
  apply (float_quotient 53 6305039478318694); [lia | reflexivity | reflexivity | | | exact Hx].
  - change (2 ^ (53 - 1)) with 4503599627370496. lia.
  - change (2 ^ (53 - 1)) with 4503599627370496. lia.
Qed.

Lemma estimatedCurrent_value (prec m : Z) :
  prec = 24 \/ prec = 53 -> 0 <= m <= 110160 ->
  Bmp.estimatedCurrent prec m = m * 20 / 255 * 10 / 14.
Proof.
  intros Hprec Hm. unfold Bmp.estimatedCurrent.
  rewrite (u32_small (m * 20)) by lia.
  assert (HmA : 0 <= m * 20 / 255 <= 8640).
  { split; [apply Z.div_pos; lia |]. apply Z.lt_succ_r. apply Z.div_lt_upper_bound; lia. }
  set (mA := m * 20 / 255) in *.
  assert (Hq : Flt.to_Z (Flt.div prec (Flt.of_Z prec mA) (CORRECTION_FACTOR prec))
               = mA * 10 / 14).
  { destruct Hprec as [-> | ->]; [apply float_quotient_24 | apply float_quotient_53]; lia. }
  rewrite Hq. apply u32_small. split; [apply Z.div_pos; lia |].
  apply Z.div_lt_upper_bound; lia.
Qed.

Lemma suggestedBrightness_value (prec v m : Z) :
  prec = 24 \/ prec = 53 -> 0 <= m <= 110160 -> 0 <= v <= 255 ->
  Bmp.suggestedBrightness prec v m
  = let est := m * 20 / 255 * 10 / 14 in
    if est >? CURRENT_MAX then v * CURRENT_MAX / est else v.
Proof.
  intros Hprec Hm Hv. unfold Bmp.suggestedBrightness.
  rewrite estimatedCurrent_value by assumption. cbv zeta.
  set (est := m * 20 / 255 * 10 / 14). unfold CURRENT_MAX.
  destruct (Z.gtb_spec est 3500) as [Hgt | _]; [| reflexivity].
  rewrite (u32_small (v * 3500)) by lia.
  apply u8_small. split; [apply Z.div_pos; lia |].
  apply Z.div_lt_upper_bound; nia.
Qed.

(** The brightest possible row, all 432 bytes at 255: 6171 mA are
    estimated and full brightness is cut to 144. *)
Lemma suggestedBrightness_full_white :
  Bmp.estimatedCurrent Flt.double_prec 110160 = 6171
  /\ Bmp.suggestedBrightness Flt.double_prec 255 110160 = 144.
Proof. vm_compute. split; reflexivity. Qed.

Section Estimate.

Variable gamma : Z -> Z.
Variable bump : Z -> Z.
Variable dither : Z -> Z -> Z.

Lemma crop_length (w : Z) (row : list Z) : (length (crop w row) <= 432)%nat.
Proof.
  unfold crop, Bmp.geometry, N_LEDS. destruct (Z.geb_spec w 144); rewrite length_take; lia.
Qed.

Lemma maxRowSum_bound (b w : Z) (img : list (list Z)) :
  0 <= maxRowSum gamma bump dither b w img <= 110160.
Proof.
  unfold maxRowSum, maxZ. apply fold_max_bound; [lia |].
  apply Forall_fmap, Forall_forall. intros k _. simpl. unfold row_sum.
  pose proof (row_out_sum_bound gamma bump dither b k _
                (crop w (img !!! Z.to_nat k)) 0 (le_n _)).
  pose proof (crop_length w (img !!! Z.to_nat k)). lia.
Qed.

(** C5, as amended: converting the file of an image 1 to 10921 pixels
    wide with 1 to 32767 rows (stored behind a header of any length, rows
    padded to four bytes, the file shorter than 4 GiB; card granting the
    requested size and accepting the writes) at brightness [v]: with [m]
    the largest sum of corrected bytes over the rows, the estimate is
    [m * 20 / 255] (20 mA per full-scale byte) divided by the correction
    factor 1.4, each division dropping the fraction; the value left in
    [*brightness] is [v * CURRENT_MAX / estimate] when the estimate is
    above CURRENT_MAX and [v] otherwise.  The width of [double] (24 or 53
    significant bits) makes no difference. *)
Theorem estimate_and_suggestion (prec : Z) (c : Bmp.card) (gap : list Z) (w : Z)
    (img : list (list Z)) (outN : option string) (v : Z) (st : Bmp.state) (first : Z)
    (topdown : bool) :
  prec = 24 \/ prec = 53 ->
  well_formed_image w img ->
  fits_size_field gap w img ->
  length (Bmp.sdBuf st) = 512%nat ->
  (forall o, outN = Some o ->
             Bmp.createContiguous c o
               (if topdown then 4294967296 - 512 * Z.of_nat (length img)
                else 512 * Z.of_nat (length img)) = Some first) ->
  (forall blk, Bmp.writeBlock c blk = true) ->
  0 <= v <= 255 ->
  let m := maxRowSum gamma bump dither (Mach.u8 (1 + v)) w img in
  let est := m * 20 / 255 * 10 / 14 in
  Bmp.estimatedCurrent prec m = est
  /\ exists st',
       Bmp.bmpProcess gamma bump dither prec c (Some (bmp_file_at gap topdown w img))
                      outN (Some v) st
       = Bmp.Done (Some (if est >? CURRENT_MAX then v * CURRENT_MAX / est else v)) st'.
Proof.
  intros Hprec Hwf Hfits Hbuf Hcreate Hwrite Hv m est.
  pose proof (maxRowSum_bound (Mach.u8 (1 + v)) w img) as Hm. fold m in Hm.
  pose proof (wf_height w img Hwf) as Hh.
  split; [apply estimatedCurrent_value; assumption |].
  destruct (bmpProcess_run gamma bump dither gap topdown w img Hwf Hfits prec c outN (Some v)
              st first Hbuf) as (st' & Hrun & _);
    [| exact Hwrite | |].
  { intros o Eo. rewrite request_size by exact Hh. exact (Hcreate o Eo). }
  { intros [Hb _]. discriminate Hb. }
  exists st'. rewrite Hrun. cbn [option_map multiplier]. fold m.
  rewrite suggestedBrightness_value by assumption. reflexivity.
Qed.

End Estimate.

Lemma estimate_and_suggestion_witness :
  let m := maxRowSum id_gamma no_bump flat_dither (Mach.u8 (1 + 255)) 100 white_row in
  let est := m * 20 / 255 * 10 / 14 in
  (m = 76500 /\ est = 4285 /\ 255 * CURRENT_MAX / est = 208)
  /\ Bmp.estimatedCurrent 24 m = est
  /\ exists st',
       Bmp.bmpProcess id_gamma no_bump flat_dither 24 (good_card 1000)
                      (Some (bmp_file false 100 white_row)) (Some "IMG.raw"%string)
                      (Some 255) blank_state
       = Bmp.Done (Some (if est >? CURRENT_MAX then 255 * CURRENT_MAX / est else 255)) st'.
Proof.
  cbv zeta. split; [vm_compute; repeat split |].
  apply (estimate_and_suggestion id_gamma no_bump flat_dither 24 (good_card 1000)
           (replicate 20 0) 100 white_row (Some "IMG.raw"%string) 255 blank_state 1000
           false).
  - left. reflexivity.
  - unfold well_formed_image, white_row. split; [lia |]. split; [simpl; lia |].
    constructor; [| constructor]. split; [reflexivity |].
    apply Forall_replicate. unfold is_u8. lia.
  - reflexivity.
  - reflexivity.
  - intros o _. reflexivity.
  - reflexivity.
  - lia.
Defined.

(** C5, as stated, fails: the file of a picture 10922 pixels wide and two
    rows high, the bottom row dark and the row above it white.  The
    largest row sum is 110160, for which the estimate is 6171 mA and the
    brightness 255 is to be cut to 144; but with this width
    [(bmpWidth * 3) + 3] leaves the 16-bit [int], the seek to the second
    row is refused, the white row is never read, and [bmpProcess] leaves
    the brightness at 255. *)
Lemma wide_image_not_dimmed :
  let m := maxRowSum id_gamma no_bump flat_dither (Mach.u8 (1 + 255)) 10922 dark_then_white in
  let est := m * 20 / 255 * 10 / 14 in
  m = 110160 /\ est = 6171 /\ 255 * CURRENT_MAX / est = 144
  /\ exists st',
       Bmp.bmpProcess id_gamma no_bump flat_dither 24 (good_card 1000)
                      (Some (bmp_file false 10922 dark_then_white))
                      (Some "IMG.raw"%string) (Some 255) blank_state
       = Bmp.Done (Some 255) st'.
Proof.
  cbv zeta. split; [vm_compute; reflexivity |].
  split; [vm_compute; reflexivity |].
  split; [vm_compute; reflexivity |].
  eexists. vm_compute. reflexivity.
Qed.

(** ** Cropping and centring *)

(** The scenario of a 150-pixel-wide image on the 144-pixel strip: three
    columns are dropped on each side. *)
Lemma geometry_150 : Bmp.geometry 150 = (3, 0, 144, false).
Proof. reflexivity. Qed.

Section Cropping.

Variable gamma : Z -> Z.
Variable bump : Z -> Z.
Variable dither : Z -> Z -> Z.

(** C6, as amended: for the file of an image of width [w], 1 to 10921
    pixels, with 1 to 32767 rows (header of any length, rows padded to
    four bytes, the file shorter than 4 GiB; card granting the requested
    size and accepting the writes).  When [w >= N_LEDS],
    [left = floor ((w - N_LEDS) / 2)] columns are dropped on one side and
    [right = w - N_LEDS - left] on the other, the counts differ by at
    most one and [N_LEDS] columns are kept.  When [w < N_LEDS] every
    column is kept and [dark_left = floor ((N_LEDS - w) / 2)] unlit
    pixels precede the image, [dark_right] follow it.  The geometry
    computed by [bmpProcess] is this one, and every block it writes is:
    zero bytes for the unlit pixels on the left, the corrected bytes of
    the kept columns of that image row, zero bytes up to the end of the
    strip, and the untouched bytes behind the strip. *)
Theorem crop_and_centre (prec : Z) (c : Bmp.card) (gap : list Z) (w : Z)
    (img : list (list Z)) (out : string) (v : Z) (st : Bmp.state) (first : Z)
    (topdown : bool) :
  well_formed_image w img ->
  fits_size_field gap w img ->
  length (Bmp.sdBuf st) = 512%nat ->
  Bmp.createContiguous c out
    (if topdown then 4294967296 - 512 * Z.of_nat (length img)
     else 512 * Z.of_nat (length img)) = Some first ->
  (forall blk, Bmp.writeBlock c blk = true) ->
  let crops := w >=? N_LEDS in
  let left := if crops then (w - N_LEDS) / 2 else 0 in
  let kept := if crops then N_LEDS else w in
  let right := w - kept - left in
  let dark_left := if crops then 0 else (N_LEDS - w) / 2 in
  let dark_right := N_LEDS - kept - dark_left in
  Bmp.geometry w = (left, dark_left * 3, kept, negb crops)
  /\ (N_LEDS <= w ->
        left = (w - N_LEDS) / 2 /\ right = w - N_LEDS - (w - N_LEDS) / 2
        /\ kept = N_LEDS /\ 0 <= right - left <= 1
        /\ dark_left = 0 /\ dark_right = 0)
  /\ (w < N_LEDS ->
        left = 0 /\ right = 0 /\ kept = w
        /\ dark_left = (N_LEDS - w) / 2 /\ 0 <= dark_right - dark_left <= 1
        /\ dark_left + w + dark_right = N_LEDS)
  /\ exists r st',
       Bmp.bmpProcess gamma bump dither prec c (Some (bmp_file_at gap topdown w img))
                      (Some out) (Some v) st = Bmp.Done r st'
       /\ writes (Bmp.trace st')
          = writes (Bmp.trace st)
            ++ ((fun k =>
                   (Mach.u32 (first + k),
                    replicate (Z.to_nat (dark_left * 3)) 0
                    ++ row_out gamma bump dither (Mach.u8 (1 + v)) k 0
                         (take (Z.to_nat (kept * 3))
                               (drop (Z.to_nat (left * 3)) (img !!! Z.to_nat k)))
                    ++ replicate (Z.to_nat (dark_right * 3)) 0
                    ++ drop 432 (Bmp.sdBuf st)))
                  <$> seqZ 0 (Z.of_nat (length img))).
Proof.
  intros Hwf Hfits Hbuf Hcreate Hwrite. cbv zeta.
  pose proof (wf_width w img Hwf) as Hw. pose proof (wf_height w img Hwf) as Hh.
  destruct (bmpProcess_run gamma bump dither gap topdown w img Hwf Hfits prec c (Some out)
              (Some v) st first Hbuf) as (st' & Hrun & Htrace);
    [| exact Hwrite | |].
  { intros o' Eo. injection Eo as <-. rewrite request_size by exact Hh. exact Hcreate. }
  { intros [Hb _]. discriminate Hb. }
  assert (Hwrites : forall sc ls cols clear,
            Bmp.geometry w = (sc, ls * 3, cols, clear) ->
            writes (Bmp.trace st')
            = writes (Bmp.trace st)
              ++ ((fun k =>
                     (Mach.u32 (first + k),
                      replicate (Z.to_nat (ls * 3)) 0
                      ++ row_out gamma bump dither (Mach.u8 (1 + v)) k 0
                           (take (Z.to_nat (cols * 3))
                                 (drop (Z.to_nat (sc * 3)) (img !!! Z.to_nat k)))
                      ++ replicate (Z.to_nat ((N_LEDS - cols - ls) * 3)) 0
                      ++ drop 432 (Bmp.sdBuf st)))
                    <$> seqZ 0 (Z.of_nat (length img)))).
  { intros sc ls cols clear Hgeo.
    rewrite Htrace, writes_app. f_equal.
    cbn [app writes]. rewrite writes_frame_events.
    apply list_fmap_ext. intros _ k _. f_equal.
    unfold frame_row, crop. rewrite Hgeo. cbn [multiplier].
    do 3 f_equal. apply (f_equal (fun n => replicate n 0)). lia. }
  destruct (Z.geb_spec w N_LEDS) as [Hge | Hlt]; cbn [negb].
  - pose proof (geometry_crop w ltac:(lia)) as Hgeo.
    split; [exact Hgeo |].
    split; [| split].
    + intros _. unfold N_LEDS. repeat split; try lia.
      all: Z.div_mod_to_equations; lia.
    + intros Hlt. lia.
    + eexists. exists st'. split; [exact Hrun |].
      apply (Hwrites _ 0 _ _ Hgeo).
  - pose proof (geometry_centre w ltac:(lia)) as Hgeo.
    split; [exact Hgeo |].
    split; [| split].
    + intros Hge. lia.
    + intros _. unfold N_LEDS. repeat split; try lia.
      all: Z.div_mod_to_equations; lia.
    + eexists. exists st'. split; [exact Hrun |].
      apply (Hwrites _ _ _ _ Hgeo).
Qed.

End Cropping.

Lemma crop_and_centre_witness :
  (Bmp.geometry 150 = (3, 0, 144, false)
   /\ exists r st',
        Bmp.bmpProcess id_gamma no_bump flat_dither 24 (good_card 1000)
                       (Some (bmp_file false 150 framed_row)) (Some "IMG.raw"%string)
                       (Some 255) blank_state = Bmp.Done r st'
        /\ writes (Bmp.trace st')
           = (fun k =>
                (Mach.u32 (1000 + k),
                 replicate (Z.to_nat (0 * 3)) 0
                 ++ row_out id_gamma no_bump flat_dither (Mach.u8 (1 + 255)) k 0
                      (take (Z.to_nat (144 * 3))
                            (drop (Z.to_nat (3 * 3)) (framed_row !!! Z.to_nat k)))
                 ++ replicate (Z.to_nat (0 * 3)) 0
                 ++ drop 432 (Bmp.sdBuf blank_state)))
               <$> seqZ 0 1)
  /\ (Bmp.geometry 2 = (0, 71 * 3, 2, true)
      /\ exists r st',
           Bmp.bmpProcess id_gamma no_bump flat_dither 24 (good_card 1000)
                          (Some (bmp_file false 2 small_image)) (Some "IMG.raw"%string)
                          (Some 255) blank_state = Bmp.Done r st'
           /\ writes (Bmp.trace st')
              = (fun k =>
                   (Mach.u32 (1000 + k),
                    replicate (Z.to_nat (71 * 3)) 0
                    ++ row_out id_gamma no_bump flat_dither (Mach.u8 (1 + 255)) k 0
                         (take (Z.to_nat (2 * 3))
                               (drop (Z.to_nat (0 * 3)) (small_image !!! Z.to_nat k)))
                    ++ replicate (Z.to_nat (71 * 3)) 0
                    ++ drop 432 (Bmp.sdBuf blank_state)))
                  <$> seqZ 0 3).
Proof.
  assert (Hwide : well_formed_image 150 framed_row).
  { unfold well_formed_image, framed_row. split; [lia |]. split; [simpl; lia |].
    constructor; [| constructor]. split; [reflexivity |].
    rewrite !Forall_app. repeat split; apply Forall_replicate; unfold is_u8; lia. }
  assert (Hwf : well_formed_image 2 small_image).
  { unfold well_formed_image, small_image. repeat split; try (simpl; lia).
    repeat constructor; unfold is_u8; lia. }
  split.
  - destruct (crop_and_centre id_gamma no_bump flat_dither 24 (good_card 1000)
                (replicate 20 0) 150 framed_row "IMG.raw"%string 255 blank_state 1000 false
                Hwide ltac:(reflexivity) eq_refl ltac:(reflexivity) ltac:(reflexivity))
      as (Hgeo & _ & _ & Hrun).
    split; [exact Hgeo | exact Hrun].
  - destruct (crop_and_centre id_gamma no_bump flat_dither 24 (good_card 1000)
                (replicate 20 0) 2 small_image "IMG.raw"%string 255 blank_state 1000 false
                Hwf ltac:(reflexivity) eq_refl ltac:(reflexivity) ltac:(reflexivity))
      as (Hgeo & _ & _ & Hrun).
    split; [exact Hgeo | exact Hrun].
Defined.

(** C6, as stated, fails: the file of a picture 21990 pixels wide and one
    row high, bytes 1 in the 144 columns in the middle and 0 elsewhere.
    The geometry asks for the columns from 10923 on, but
    [bmpStartCol * 3] leaves the 16-bit [int], the seek is refused and the
    row is read from where the header read stopped: the block written is
    dark, where the 144 middle columns are due. *)
Lemma wide_image_crop_misplaced :
  Bmp.geometry 21990 = (10923, 0, 144, false)
  /\ row_out id_gamma no_bump flat_dither (Mach.u8 (1 + 255)) 0 0
       (take (Z.to_nat (144 * 3)) (drop (Z.to_nat (10923 * 3)) (lit_middle !!! 0%nat)))
     = replicate 432 1
  /\ exists r st',
       Bmp.bmpProcess id_gamma no_bump flat_dither 24 (good_card 1000)
                      (Some (bmp_file false 21990 lit_middle))
                      (Some "IMG.raw"%string) (Some 255) blank_state = Bmp.Done r st'
       /\ writes (Bmp.trace st') = [(1000, replicate 512 0)].
Proof.
  split; [vm_compute; reflexivity |].
  split; [vm_compute; reflexivity |].
  do 2 eexists. split; vm_compute; reflexivity.
Qed.



(** ** More on the speed check *)

Lemma benchmark_loop_max (latency : Z -> Z) (count : nat) :
  forall block maxTime,
    0 <= block -> block + Z.of_nat count <= 4294967296 ->
    (forall b, 0 <= latency b < 4294967296) ->
    Speed.benchmark_loop latency count block maxTime
    = fold_left Z.max (latency <$> seqZ block (Z.of_nat count)) maxTime.
Proof.
  induction count as [| k IH]; intros block maxTime Hb Hend Hlat; [reflexivity |].
  cbn [Speed.benchmark_loop].
  rewrite (u32_small (latency block)) by apply Hlat.
  assert (Hmax : (if latency block >? maxTime then latency block else maxTime)
                 = Z.max maxTime (latency block)).
  { destruct (Z.gtb_spec (latency block) maxTime); lia. }
  rewrite Hmax.
  destruct (Z_lt_le_dec (block + 1) 4294967296) as [Hlt | Hge].
  - rewrite (u32_small (block + 1)) by lia.
    rewrite IH by (try apply Hlat; lia).
    rewrite (seqZ_cons block (Z.of_nat (S k))) by lia.
    cbn [fmap list_fmap fold_left].
    replace (Z.pred (Z.of_nat (S k))) with (Z.of_nat k) by lia.
    replace (Z.succ block) with (block + 1) by lia.
    reflexivity.
  - assert (k = 0%nat) by lia. subst k. cbn [Speed.benchmark_loop].
    rewrite (seqZ_cons block (Z.of_nat 1)) by lia. reflexivity.
Qed.

(** X1: [benchmark] returns the worst of the [n] block reads it times:
    the largest latency among blocks [block .. block + n - 1]. *)
Theorem benchmark_worst_of_n (latency : Z -> Z) (block n : Z) :
  0 < n -> 0 <= block -> block + n <= 4294967296 ->
  (forall b, 0 <= latency b < 4294967296) ->
  Speed.benchmark latency block n = maxZ (latency <$> seqZ block n).
Proof.
  intros Hn Hb Hend Hlat. unfold Speed.benchmark, maxZ.
  destruct (Z.eqb_spec n 0) as [H0 | _]; [lia |].
  rewrite benchmark_loop_max by (try apply Hlat; lia).
  rewrite Z2Nat.id by lia. reflexivity.
Qed.

Lemma benchmark_worst_of_n_witness :
  Speed.benchmark two_latencies 195 10 = maxZ (two_latencies <$> seqZ 195 10).
Proof.
  apply (benchmark_worst_of_n two_latencies 195 10); try lia.
  intros b. unfold two_latencies. destruct (b <? 200); lia.
Defined.

Lemma fold_max_ge_acc (l : list Z) :
  forall acc, acc <= fold_left Z.max l acc.
Proof.
  induction l as [| x l IH]; intros acc; [simpl; lia |].
  simpl. specialize (IH (Z.max acc x)). lia.
Qed.

(** X2: with the 144-pixel strip and the loop overhead a frame rate is at
    most 223 lines per second, so from a [maxLPS] of at most 223 (0 at
    power-on) the clamp to 400 that follows [checkSpeed] changes nothing;
    and [checkSpeed] never lowers [maxLPS]. *)
Theorem clamp_never_fires (raw : Z -> option Speed.rawFile) (latency : Z -> Z)
    (frames : Z) (st : Speed.speed_state) :
  Speed.maxLPS st <= 223 ->
  Speed.speedCheckStep raw latency frames st = Speed.checkSpeed raw latency frames st
  /\ (forall st', Speed.checkSpeed raw latency frames st = Speed.Done st' ->
                  Speed.maxLPS st <= Speed.maxLPS st' <= 223).
Proof.
  intros Hst.
  assert (Hb : forall st', Speed.checkSpeed raw latency frames st = Speed.Done st' ->
                           Speed.maxLPS st <= Speed.maxLPS st' <= 223).
  { intros st' Hrun. unfold Speed.checkSpeed in Hrun. split.
    - rewrite (checkSpeed_loop_largest _ _ _ _ _ _ Hrun). apply fold_max_ge_acc.
    - eapply checkSpeed_loop_bound; [| exact Hst | exact Hrun]. lia. }
  split; [| exact Hb].
  unfold Speed.speedCheckStep.
  destruct (Speed.checkSpeed raw latency frames st) as [st' | f] eqn:Hrun; [| reflexivity].
  specialize (Hb st' eq_refl).
  destruct (Z.gtb_spec (Speed.maxLPS st') 400); [lia | reflexivity].
Qed.

Lemma clamp_never_fires_witness :
  Speed.speedCheckStep two_frames two_latencies 2 (Speed.MkSpeed 0 0 0)
  = Speed.checkSpeed two_frames two_latencies 2 (Speed.MkSpeed 0 0 0).
Proof.
  exact (proj1 (clamp_never_fires two_frames two_latencies 2 (Speed.MkSpeed 0 0 0)
                  ltac:(simpl; lia))).
Defined.

(** X3: a slower worst-case read gives a lower (or equal) line rate, for
    read times up to 204 seconds (beyond that [time * 21] leaves 32 bits). *)
Theorem linesPerSec_antitone (w1 w2 : Z) :
  0 <= w1 <= w2 -> w2 <= 204522252 ->
  Speed.linesPerSec w2 <= Speed.linesPerSec w1.
Proof.
  intros Hw Hmax. unfold Speed.linesPerSec, N_LEDS, OVERHEAD.
  rewrite (u32_small (w1 * 21)), (u32_small (w2 * 21)) by lia.
  assert (Hq : 0 <= w1 * 21 / 20 <= w2 * 21 / 20).
  { split; [apply Z.div_pos; lia | apply Z.div_le_mono; lia]. }
  assert (Hq2 : w2 * 21 / 20 <= 214748364).
  { apply Z.lt_succ_r. apply Z.div_lt_upper_bound; lia. }
  rewrite !(u32_small (_ + 144 * 30)) by lia.
  rewrite !(u32_small (_ + 150)) by lia.
  assert (Hd : 1000000 / (w2 * 21 / 20 + 144 * 30 + 150)
               <= 1000000 / (w1 * 21 / 20 + 144 * 30 + 150)).
  { apply Z.div_le_compat_l; lia. }
  assert (Hup : forall d, 4470 <= d -> 0 <= 1000000 / d < 65536).
  { intros d Hdd. split; [apply Z.div_pos; lia | apply Z.div_lt_upper_bound; lia]. }
  rewrite !u16_small by (apply Hup; lia). exact Hd.
Qed.

Lemma linesPerSec_antitone_witness : Speed.linesPerSec 5000 <= Speed.linesPerSec 1000.
Proof. apply (linesPerSec_antitone 1000 5000); lia. Defined.

(** ** More on the scans *)

(** X4: [completeScan] restarts the frame count and enters its loop with
    the brightness [map(SetBrightness, 0, 255, 1, 255)], which is
    [1 + floor (254 * SetBrightness / 255)]: between 1 and 255, 1 for the
    setting 0 and 255 for the setting 255. *)
Theorem scan_brightness_range (convert : dirEntry -> Z -> option Z) (s : settings)
    (dir : list dirEntry) (st : index_state) :
  0 <= SetBrightness s <= 255 ->
  let b := 1 + SetBrightness s * 254 / 255 in
  completeScan convert s dir st = completeScan_loop convert dir b (reset_nFrames st)
  /\ 1 <= b <= 255
  /\ (SetBrightness s = 0 -> b = 1) /\ (SetBrightness s = 255 -> b = 255).
Proof.
  intros Hs b.
  assert (Hq : 0 <= SetBrightness s * 254 / 255 <= 254).
  { split; [apply Z.div_pos; lia |]. apply Z.lt_succ_r. apply Z.div_lt_upper_bound; lia. }
  split; [| split; [unfold b; lia | split]].
  - unfold completeScan, Mach.map. f_equal.
    replace (SetBrightness s - 0) with (SetBrightness s) by lia.
    change (255 - 1) with 254. change (255 - 0) with 255.
    assert (Hsw : forall v, -2147483648 <= v < 2147483648 -> Mach.swrap 32 v = v).
    { intros v Hv. unfold Mach.swrap.
      change (2 ^ 32) with 4294967296. change (2 ^ (32 - 1)) with 2147483648.
      destruct (Z_lt_le_dec v 0).
      - assert (Hm : v mod 4294967296 = v + 4294967296)
          by (symmetry; apply (Z.mod_unique _ _ (-1)); lia).
        rewrite Hm. destruct (Z.ltb_spec (v + 4294967296) 2147483648); lia.
      - rewrite Z.mod_small by lia. destruct (Z.ltb_spec v 2147483648); lia. }
    rewrite (Hsw (SetBrightness s * 254)) by lia.
    rewrite Z.quot_div_nonneg by lia.
    rewrite Hsw by lia. rewrite u8_small by lia. unfold b. lia.
  - intros H0. unfold b. rewrite H0. reflexivity.
  - intros H255. unfold b. rewrite H255. reflexivity.
Qed.

Lemma scan_brightness_range_witness :
  completeScan (fun _ b => Some b) default_settings (bmp_dir 2) index_init
  = completeScan_loop (fun _ b => Some b) (bmp_dir 2) (1 + 125 * 254 / 255)
                      (reset_nFrames index_init).
Proof.
  exact (proj1 (scan_brightness_range (fun _ b => Some b) default_settings (bmp_dir 2)
                  index_init ltac:(simpl; lia))).
Defined.


Lemma shortScan_loop_index (dir : list dirEntry) :
  forall (st : index_state),
    length (fileIndex st) = 30%nat ->
    0 <= nFrames st ->
    nFrames st + Z.of_nat (length (List.filter eligible dir)) <= 30 ->
    let st' := shortScan_loop dir st in
    nFrames st' = nFrames st + Z.of_nat (length (List.filter eligible dir))
    /\ spill st' = spill st
    /\ length (fileIndex st') = 30%nat
    /\ take (Z.to_nat (nFrames st')) (fileIndex st')
       = take (Z.to_nat (nFrames st)) (fileIndex st)
         ++ ((fun d => Mach.u8 (dirIndex d)) <$> List.filter eligible dir)
    /\ drop (Z.to_nat (nFrames st')) (fileIndex st')
       = drop (Z.to_nat (nFrames st')) (fileIndex st).
Proof.
  induction dir as [| d rest IH]; intros st Hlen Hn Hfit.
  - simpl. rewrite Z.add_0_r, app_nil_r. repeat split; assumption || reflexivity.
  - cbn [shortScan_loop List.filter] in Hfit |- *. destruct (eligible d) eqn:He.
    + cbn [length] in Hfit |- *.
      set (st1 := incr_nFrames (store_fileIndex (nFrames st) (dirIndex d) st)).
      assert (Hlt : (nFrames st <? FILE_INDEX_LEN) = true)
        by (apply Z.ltb_lt; unfold FILE_INDEX_LEN; lia).
      assert (H1 : nFrames st1 = nFrames st + 1).
      { unfold st1, incr_nFrames, store_fileIndex. rewrite Hlt. simpl. apply u8_small. lia. }
      assert (H2 : fileIndex st1 = <[Z.to_nat (nFrames st) := Mach.u8 (dirIndex d)]> (fileIndex st)).
      { unfold st1, incr_nFrames, store_fileIndex. rewrite Hlt. reflexivity. }
      assert (H3 : spill st1 = spill st).
      { unfold st1, incr_nFrames, store_fileIndex. rewrite Hlt. reflexivity. }
      destruct (IH st1) as (Hn' & Hs' & Hl' & Ht' & Hd').
      { rewrite H2, length_insert. exact Hlen. }
      { lia. }
      { lia. }
      cbv zeta. rewrite Hn', Hs', H1, H3 in *.
      split; [lia |]. split; [reflexivity |]. split; [exact Hl' |].
      replace (nFrames st + Z.of_nat (S (length (List.filter eligible rest))))
        with (nFrames st + 1 + Z.of_nat (length (List.filter eligible rest))) by lia.
      split.
      * rewrite Ht', H2. cbn [fmap list_fmap].
        replace (Z.to_nat (nFrames st + 1)) with (S (Z.to_nat (nFrames st))) by lia.
        rewrite (take_S_r _ _ (Mach.u8 (dirIndex d)))
          by (apply list_lookup_insert_eq; lia).
        rewrite take_insert_ge by lia. rewrite <- app_assoc. reflexivity.
      * rewrite Hd', H2. apply drop_insert_lt. lia.
    + apply IH; assumption.
Qed.

(** X5: a quick scan that starts with a frame count of zero, over a
    directory with at most 30 eligible entries: the count becomes the
    number of eligible entries, the table holds their directory positions
    (as bytes) in enumeration order, the cells behind them keep their old
    content, and no store leaves the table. *)
Theorem shortScan_builds_index (dir : list dirEntry) (st : index_state) :
  length (fileIndex st) = 30%nat ->
  nFrames st = 0 ->
  (length (List.filter eligible dir) <= 30)%nat ->
  let found := List.filter eligible dir in
  let st' := shortScan dir st in
  nFrames st' = Z.of_nat (length found)
  /\ spill st' = spill st
  /\ fileIndex st'
     = ((fun d => Mach.u8 (dirIndex d)) <$> found) ++ drop (length found) (fileIndex st).
Proof.
  intros Hlen Hn Hfit found st'.
  destruct (shortScan_loop_index dir st Hlen ltac:(lia) ltac:(lia))
    as (Hn' & Hs' & Hl' & Ht' & Hd').
  fold (shortScan dir st) in Hn', Hs', Hl', Ht', Hd'. fold st' in Hn', Hs', Hl', Ht', Hd'.
  fold found in Hn', Ht'.
  rewrite Hn in Hn', Ht'. cbn [Z.add] in Hn'. change (Z.to_nat 0) with 0%nat in Ht'.
  rewrite take_0 in Ht'. cbn [app] in Ht'.
  split; [exact Hn' |]. split; [exact Hs' |].
  rewrite <- (take_drop (Z.to_nat (nFrames st')) (fileIndex st')), Ht', Hd'.
  replace (Z.to_nat (nFrames st')) with (length found) by lia. reflexivity.
Qed.

Lemma shortScan_builds_index_witness :
  nFrames (shortScan (bmp_dir 3) index_init) = 3
  /\ spill (shortScan (bmp_dir 3) index_init) = []
  /\ fileIndex (shortScan (bmp_dir 3) index_init)
     = ((fun d => Mach.u8 (dirIndex d)) <$> List.filter eligible (bmp_dir 3))
       ++ drop (length (List.filter eligible (bmp_dir 3))) (fileIndex index_init).
Proof.
  apply (shortScan_builds_index (bmp_dir 3) index_init).
  - reflexivity.
  - reflexivity.
  - simpl. lia.
Defined.

(** ** Repeating the quick scan *)







(** ** More on the EEPROM *)

Lemma EEPROM_update_same (a v : Z) (e : gmap Z Z) :
  EEPROM_read e a = Mach.u8 v -> EEPROM_update a v e = e.
Proof.
  intros H. unfold EEPROM_update. rewrite H, Z.eqb_refl. reflexivity.
Qed.

(** X7: saving a configuration a second time writes nothing (the EEPROM
    is left exactly as after the first save), and a save touches no cell
    other than 0 to 3. *)
Theorem saveConfig_again_writes_nothing (s : settings) (e : gmap Z Z) :
  saveConfig s (saveConfig s e) = saveConfig s e
  /\ (forall a, a < 0 \/ 3 < a ->
        EEPROM_read (saveConfig s e) a = EEPROM_read e a).
Proof.
  split.
  - destruct (saveConfig_cells s e) as (H0 & H1 & H2 & H3).
    set (e1 := saveConfig s e) in *.
    unfold saveConfig at 1.
    rewrite (EEPROM_update_same 0 66 e1) by exact H0.
    rewrite (EEPROM_update_same 1 _ e1) by exact H1.
    rewrite (EEPROM_update_same 2 _ e1) by exact H2.
    apply EEPROM_update_same. exact H3.
  - intros a Ha. unfold saveConfig.
    rewrite !EEPROM_update_read_ne by lia. reflexivity.
Qed.

(** X8: [saveBrightness] stores the version tag and the brightness only.
    A [loadConfig] that follows takes the brightness just saved, but
    [Speed] and [Delay] from whatever cells 2 and 3 hold, not from the
    values in memory. *)
Theorem saveBrightness_then_load (s cur : settings) (e : gmap Z Z) :
  is_u8 (SetBrightness s) ->
  loadConfig (saveBrightness s e) cur
  = {| SetBrightness := SetBrightness s;
       Speed := EEPROM_read e 2;
       Delay := EEPROM_read e 3 |}.
Proof.
  intros Hb. unfold loadConfig, saveBrightness.
  rewrite (EEPROM_update_read_ne 1 0) by lia.
  rewrite EEPROM_update_read_eq. change (Mach.u8 66) with 66. rewrite Z.eqb_refl.
  rewrite EEPROM_update_read_eq, u8_small by exact Hb.
  rewrite !(EEPROM_update_read_ne 1), !(EEPROM_update_read_ne 0) by lia.
  reflexivity.
Qed.

Lemma saveBrightness_then_load_witness :
  loadConfig (saveBrightness (MkSettings 200 17 3) ∅) default_settings
  = MkSettings 200 (EEPROM_read ∅ 2) (EEPROM_read ∅ 3).
Proof.
  apply (saveBrightness_then_load (MkSettings 200 17 3) default_settings ∅).
  unfold is_u8. simpl. lia.
Defined.


(** ** What a conversion never does *)

Lemma u32_le (v : Z) : 0 <= v -> 0 <= Mach.u32 v <= v.
Proof.
  intros H. unfold Mach.u32, Mach.wrap. split.
  - apply Z.mod_pos_bound. lia.
  - apply Z.mod_le; lia.
Qed.

Lemma read_length (nbyte : Z) (f : Bmp.SdFile) :
  (length (fst (Bmp.read nbyte f)) <= Z.to_nat nbyte)%nat.
Proof.
  unfold Bmp.read. cbn [fst]. rewrite length_take.
  destruct (Z.geb_spec nbyte (Bmp.size f - Bmp.curPosition f)); lia.
Qed.

Lemma load32_prefix (bytes rest : list Z) (i : nat) :
  (i + 3 < 34)%nat -> (34 <= length bytes)%nat ->
  Bmp.load32 (take 34 bytes ++ rest) i = Bmp.load32 bytes i.
Proof.
  intros Hi Hlen. unfold Bmp.load32. rewrite !load16_prefix by lia. reflexivity.
Qed.

(** The strip window of every width that is not negative lies inside the
    first 432 bytes of [sdBuf]. *)
Lemma geometry_fits (w : Z) :
  0 <= w < 32768 ->
  exists sc ls cols clear,
    Bmp.geometry w = (sc, ls, cols, clear)
    /\ 0 <= ls /\ 0 <= cols <= 144 /\ ls + cols * 3 <= 432.
Proof.
  intros Hw. destruct (Z_lt_le_dec w N_LEDS) as [Hlt | Hge].
  - rewrite geometry_centre by lia. do 4 eexists. split; [reflexivity |].
    unfold N_LEDS in *. repeat split; try lia.
    all: Z.div_mod_to_equations; lia.
  - rewrite geometry_crop by lia. do 4 eexists. split; [reflexivity |].
    unfold N_LEDS in *. lia.
Qed.

(** Whatever the width field holds, at most 144 columns are converted. *)
Lemma geometry_columns (w : Z) :
  (Z.to_nat (snd (fst (Bmp.geometry w))) <= 144)%nat.
Proof.
  unfold Bmp.geometry, N_LEDS. destruct (Z.geb_spec w 144); cbn [fst snd]; lia.
Qed.

Section Never.

Variable gamma : Z -> Z.
Variable bump : Z -> Z.
Variable dither : Z -> Z -> Z.

Lemma do_pixel_sum (b d : Z) (ptr : nat) (buf : list Z) (sum : Z) :
  0 <= sum ->
  0 <= snd (Bmp.do_pixel gamma bump b d ptr buf sum) <= sum + 765.
Proof.
  intros Hs. unfold Bmp.do_pixel. cbn [snd].
  set (c0 := Bmp.correct gamma bump d _). set (c1 := Bmp.correct gamma bump d _).
  set (c2 := Bmp.correct gamma bump d _).
  pose proof (correct_range gamma bump d) as Hc.
  assert (H0 : 0 <= c0 < 256) by apply Hc.
  assert (H1 : 0 <= c1 < 256) by apply Hc.
  assert (H2 : 0 <= c2 < 256) by apply Hc.
  pose proof (u32_le (sum + c0) ltac:(lia)).
  pose proof (u32_le (Mach.u32 (sum + c0) + c1) ltac:(lia)).
  pose proof (u32_le (Mach.u32 (Mach.u32 (sum + c0) + c1) + c2) ltac:(lia)).
  lia.
Qed.

Lemma columns_loop_sum (b row : Z) (count : nat) :
  forall column ptr buf sum,
    0 <= sum ->
    0 <= snd (Bmp.columns_loop gamma bump dither b row count column ptr buf sum)
      <= sum + 765 * Z.of_nat count.
Proof.
  induction count as [| k IH]; intros column ptr buf sum Hs; [simpl; lia |].
  cbn [Bmp.columns_loop].
  pose proof (do_pixel_sum b (Mach.u8 (dither (Z.land row 15) (Z.land column 15)))
                ptr buf sum Hs) as Hp.
  destruct (Bmp.do_pixel _ _ _ _ _ _ _) as [buf' sum']. cbn [snd] in Hp.
  specialize (IH (column + 1) (ptr + 3)%nat buf' sum' ltac:(lia)). lia.
Qed.

(** The row loop keeps [lineMax] below any bound that holds 765 per
    converted column, and stops in the overrun only when the window does
    not fit the buffer. *)
Lemma rows_loop_never (c : Bmp.card) (j : Bmp.job) (B : Z) (count : nat) :
  765 * Z.of_nat (Z.to_nat (Bmp.columns j)) <= B ->
  forall row f lineMax st,
    0 <= lineMax <= B ->
    (forall lm st', Bmp.rows_loop gamma bump dither c j count row f lineMax st
                    = Bmp.Done lm st' -> 0 <= lm <= B)
    /\ (0 <= Bmp.ledStart j -> 0 <= Bmp.columns j ->
        Bmp.ledStart j + Bmp.columns j * 3 <= 512 ->
        forall st', Bmp.rows_loop gamma bump dither c j count row f lineMax st
                    <> Bmp.Halt BufferOverrun st').
Proof.
  intros HB. induction count as [| k IH]; intros row f lineMax st Hlm.
  - simpl. split; [intros lm st' E; injection E as <- _; exact Hlm | discriminate].
  - cbn [Bmp.rows_loop].
    pose proof (read_length (Mach.u16 (Mach.int (Bmp.columns j * 3)))
                  (Bmp.seekSet (Bmp.rowPosition j row) f)) as Hlen.
    destruct (Bmp.read _ _) as [bytes f']. cbn [fst] in Hlen.
    destruct (bool_decide (bytes = [])); [split; discriminate |].
    destruct ((Bmp.ledStart j <? 0) || (Bmp.ledStart j + Z.of_nat (length bytes) >? 512))
      eqn:Hover.
    { split; [discriminate |]. intros Hls Hcols Hfit st' _.
      assert (Hn : Mach.u16 (Mach.int (Bmp.columns j * 3)) = Bmp.columns j * 3).
      { rewrite int_small by lia. apply u16_small. lia. }
      rewrite Hn in Hlen.
      apply orb_true_iff in Hover as [Hneg | Hbig].
      - apply Z.ltb_lt in Hneg. lia.
      - apply Z.gtb_lt in Hbig. lia. }
    pose proof (columns_loop_sum (Bmp.b16 j) row (Z.to_nat (Bmp.columns j)) 0
                  (Z.to_nat (Bmp.ledStart j))
                  (Bmp.blit (Z.to_nat (Bmp.ledStart j)) bytes (Bmp.sdBuf st)) 0 ltac:(lia))
      as Hsum.
    destruct (Bmp.columns_loop _ _ _ _ _ _ _ _ _ _) as [buf sum]. cbn [snd] in Hsum.
    assert (Hlm' : 0 <= (if sum >? lineMax then sum else lineMax) <= B).
    { destruct (Z.gtb_spec sum lineMax); lia. }
    destruct (Bmp.outName j) as [o |].
    + destruct (Bmp.writeBlock c _); [| split; discriminate].
      apply IH. exact Hlm'.
    + apply IH. exact Hlm'.
Qed.

End Never.


Section NeverProcess.

Variable gamma : Z -> Z.
Variable bump : Z -> Z.
Variable dither : Z -> Z -> Z.

(** X9: whatever the input file and the card, when [bmpProcess] returns
    the brightness it leaves is never above the one passed in, and never
    below [v * 3500 / 6171] (the estimate for a strip of 144 pixels cannot
    exceed 6171 mA). *)
Theorem suggested_brightness_bounds (prec : Z) (c : Bmp.card) (inFile : option (list Z))
    (outN : option string) (v : Z) (st : Bmp.state) (r : option Z) (st' : Bmp.state) :
  prec = 24 \/ prec = 53 ->
  0 <= v <= 255 ->
  Bmp.bmpProcess gamma bump dither prec c inFile outN (Some v) st = Bmp.Done r st' ->
  exists b, r = Some b /\ v * 3500 / 6171 <= b <= v.
Proof.
  intros Hprec Hv Hrun. unfold Bmp.bmpProcess in Hrun.
  rewrite bool_decide_eq_false_2 in Hrun by (intros [E _]; discriminate E).
  destruct inFile as [bytes |]; [| discriminate].
  destruct (Bmp.read 34 _) as [hdr f].
  destruct (negb _ && _); [| discriminate].
  match type of Hrun with
  | context [match ?cr with Bmp.Done _ _ => _ | Bmp.Halt _ _ => _ end] =>
      destruct cr as [[] st1 | e st1]; [| discriminate]
  end.
  pose proof (geometry_columns (Mach.int (Bmp.load32
                (Bmp.sdBuf {| Bmp.sdBuf := Bmp.blit 0 hdr (Bmp.sdBuf st);
                              Bmp.firstBlock := Bmp.firstBlock st;
                              Bmp.nBlocks := Bmp.nBlocks st;
                              Bmp.trace := Bmp.trace st |}) 18))) as Hcols.
  destruct (Bmp.geometry _) as [[[sc ls] cols] clear]. cbn [fst snd] in Hcols.
  match type of Hrun with
  | context [Bmp.rows_loop _ _ _ ?c0 ?j0 ?n0 ?r0 ?f0 ?l0 ?s0] =>
      destruct (rows_loop_never gamma bump dither c0 j0 110160 n0
                  ltac:(cbn [Bmp.columns]; lia) r0 f0 l0 s0 ltac:(lia)) as [Hlm _];
      destruct (Bmp.rows_loop gamma bump dither c0 j0 n0 r0 f0 l0 s0)
        as [lm st3 | e st3]; [| discriminate]
  end.
  specialize (Hlm lm st3 eq_refl).
  injection Hrun as <- _. eexists. split; [reflexivity |].
  rewrite suggestedBrightness_value by assumption. cbv zeta. unfold CURRENT_MAX.
  assert (Hest : 0 <= lm * 20 / 255 * 10 / 14 <= 6171).
  { assert (0 <= lm * 20 / 255 <= 8640).
    { split; [apply Z.div_pos; lia |]. apply Z.lt_succ_r. apply Z.div_lt_upper_bound; lia. }
    split; [apply Z.div_pos; lia |]. apply Z.lt_succ_r. apply Z.div_lt_upper_bound; lia. }
  set (est := lm * 20 / 255 * 10 / 14) in *.
  assert (Hlow : v * 3500 / 6171 <= v).
  { apply Z.lt_succ_r. apply Z.div_lt_upper_bound; lia. }
  destruct (Z.gtb_spec est 3500) as [Hgt | Hle]; [| lia].
  split.
  - apply Z.div_le_compat_l; lia.
  - apply Z.lt_succ_r. apply Z.div_lt_upper_bound; nia.
Qed.

Lemma bmpProcess_no_overrun (prec : Z) (c : Bmp.card) (bytes : list Z)
    (outN : option string) (brightness : option Z) (st st' : Bmp.state) :
  (34 <= length bytes)%nat ->
  0 <= Mach.int (Bmp.load32 bytes 18) ->
  Bmp.bmpProcess gamma bump dither prec c (Some bytes) outN brightness st
  <> Bmp.Halt BufferOverrun st'.
Proof.
  intros Hlen Hw Hrun. unfold Bmp.bmpProcess in Hrun.
  destruct (bool_decide _); [discriminate |].
  rewrite read_34 in Hrun by exact Hlen.
  cbn [Bmp.sdBuf Bmp.firstBlock Bmp.nBlocks Bmp.trace] in Hrun.
  change (Bmp.blit 0 (take 34 bytes) (Bmp.sdBuf st))
    with (take 34 bytes ++ drop (0 + length (take 34 bytes)) (Bmp.sdBuf st)) in Hrun.
  rewrite !load32_prefix in Hrun by (simpl; lia).
  destruct (negb _ && _); [| discriminate].
  match type of Hrun with
  | context [match ?cr with Bmp.Done _ _ => _ | Bmp.Halt _ _ => _ end] =>
      destruct cr as [[] st1 | e st1] eqn:Hcreate
  end.
  2: { destruct outN; [| discriminate].
       destruct (Bmp.createContiguous _ _ _); [discriminate |].
       injection Hcreate as <- _. discriminate. }
  assert (Hrange : 0 <= Mach.int (Bmp.load32 bytes 18) < 32768).
  { split; [exact Hw |]. unfold Mach.int, Mach.swrap.
    change (2 ^ 16) with 65536. change (2 ^ (16 - 1)) with 32768.
    pose proof (Z.mod_pos_bound (Bmp.load32 bytes 18) 65536 ltac:(lia)).
    destruct (Z.ltb_spec (Bmp.load32 bytes 18 mod 65536) 32768); lia. }
  destruct (geometry_fits _ Hrange) as (sc & ls & cols & clear & Hgeo & Hls & Hcols & Hfit).
  rewrite Hgeo in Hrun.
  match type of Hrun with
  | context [Bmp.rows_loop _ _ _ ?c0 ?j0 ?n0 ?r0 ?f0 ?l0 ?s0] =>
      destruct (rows_loop_never gamma bump dither c0 j0 110160 n0
                  ltac:(cbn [Bmp.columns]; lia) r0 f0 l0 s0 ltac:(lia)) as [_ Hno];
      destruct (Bmp.rows_loop gamma bump dither c0 j0 n0 r0 f0 l0 s0)
        as [lm st3 | e st3]; [discriminate |]
  end.
  injection Hrun as -> ->.
  apply (Hno ltac:(cbn [Bmp.ledStart]; lia) ltac:(cbn [Bmp.columns]; lia)
             ltac:(cbn [Bmp.ledStart Bmp.columns]; lia) st').
  reflexivity.
Qed.

(** X10: for every input file of at least 34 bytes whose width field,
    read as the sketch's 16-bit [int], is not negative, the conversion
    never stores a row outside [sdBuf], whatever the rest of the file. *)
Theorem no_store_outside_sdBuf (prec : Z) (c : Bmp.card) (bytes : list Z)
    (outN : option string) (brightness : option Z) (st : Bmp.state) :
  (34 <= length bytes)%nat ->
  0 <= Mach.int (Bmp.load32 bytes 18) ->
  match Bmp.bmpProcess gamma bump dither prec c (Some bytes) outN brightness st with
  | Bmp.Halt BufferOverrun _ => False
  | _ => True
  end.
Proof.
  intros Hlen Hw.
  pose proof (fun st' => bmpProcess_no_overrun prec c bytes outN brightness st st' Hlen Hw)
    as Hno.
  destruct (Bmp.bmpProcess gamma bump dither prec c (Some bytes) outN brightness st)
    as [r st1 | e st1]; [exact I |].
  destruct e; try exact I. apply (Hno st1). reflexivity.
Qed.

End NeverProcess.

Lemma suggested_brightness_bounds_witness :
  exists b, Some 255 = Some b /\ 255 * 3500 / 6171 <= b <= 255.
Proof.
  eapply (suggested_brightness_bounds id_gamma no_bump flat_dither 24 (good_card 1000)
            (Some (bmp_file false 2 small_image)) (Some "IMG.raw"%string) 255 blank_state).
  - left. reflexivity.
  - lia.
  - vm_compute. reflexivity.
Defined.

Lemma no_store_outside_sdBuf_witness :
  match Bmp.bmpProcess id_gamma no_bump flat_dither 24 (good_card 1000)
                       (Some (bmp_file false 2 small_image)) (Some "IMG.raw"%string)
                       (Some 255) blank_state with
  | Bmp.Halt BufferOverrun _ => False
  | _ => True
  end.
Proof.
  apply (no_store_outside_sdBuf id_gamma no_bump flat_dither 24 (good_card 1000)
           (bmp_file false 2 small_image) (Some "IMG.raw"%string) (Some 255) blank_state).
  - vm_compute. lia.
  - vm_compute. discriminate.
Defined.


(** ** File names *)

Lemma prefix_cons (a b : ascii) (s t : string) :
  String.prefix (String a s) (String b t)
  = if ascii_dec a b then String.prefix s t else false.
Proof. reflexivity. Qed.

Lemma substring_0_S (n : nat) (c : ascii) (s : string) :
  String.substring 0 (S n) (String c s) = String c (String.substring 0 n s).
Proof. reflexivity. Qed.

Lemma append_cons (c : ascii) (s t : string) :
  (String c s ++ t)%string = String c (s ++ t)%string.
Proof. reflexivity. Qed.

Lemma substring_0_0 (s : string) : String.substring 0 0 s = EmptyString.
Proof. destruct s; reflexivity. Qed.

Lemma substring_0_nil (n : nat) : String.substring 0 n EmptyString = EmptyString.
Proof. destruct n; reflexivity. Qed.

Lemma strstr_cons (c : ascii) (rest needle : string) :
  strstr (String c rest) needle
  = if String.prefix needle (String c rest) then Some 0%nat
    else S <$> strstr rest needle.
Proof. reflexivity. Qed.

Lemma prefix_length (needle : string) :
  forall s, String.prefix needle s = true ->
            (String.length needle <= String.length s)%nat.
Proof.
  induction needle as [| a n IHn]; intros s E; [simpl; lia |].
  destruct s as [| b s]; [discriminate |].
  rewrite prefix_cons in E. destruct (ascii_dec a b); [| discriminate].
  specialize (IHn s E). simpl. lia.
Qed.

(** An occurrence lies inside the string. *)
Lemma strstr_bound (needle hay : string) :
  forall p, strstr hay needle = Some p ->
            (p + String.length needle <= String.length hay)%nat.
Proof.
  induction hay as [| c rest IH]; intros p Hp.
  - change (strstr "" needle)
      with (if String.prefix needle "" then Some 0%nat else None) in Hp.
    destruct (String.prefix needle "") eqn:E; [| discriminate].
    injection Hp as <-. apply prefix_length in E. lia.
  - rewrite strstr_cons in Hp.
    destruct (String.prefix needle (String c rest)) eqn:E.
    + injection Hp as <-. apply prefix_length in E. lia.
    + destruct (strstr rest needle) as [q |]; [| discriminate].
      injection Hp as <-. specialize (IH q eq_refl). simpl. lia.
Qed.

Lemma length_strcpy_at (t s : string) :
  forall off, (off <= String.length s)%nat ->
              String.length (strcpy_at s off t) = (off + String.length t)%nat.
Proof.
  unfold strcpy_at. induction s as [| c s IH]; intros off H.
  - simpl in H. assert (off = 0%nat) by lia. subst. reflexivity.
  - destruct off as [| off]; [rewrite substring_0_0; reflexivity |].
    rewrite substring_0_S, append_cons. cbn [String.length Nat.add].
    f_equal. apply IH. simpl in H. lia.
Qed.

(** "raw" written over the first "bmp": what precedes it decides whether
    a prefix test against "p", "mp" or "bmp" can succeed. *)
Lemma prefix_p_raw (rest : string) (q : nat) :
  String.prefix "p" rest = false ->
  String.prefix "p" (String.substring 0 q rest ++ "raw") = false.
Proof.
  intros H. destruct q as [| q]; [rewrite substring_0_0; reflexivity |].
  destruct rest as [| c r]; [reflexivity |].
  rewrite substring_0_S, append_cons.
  rewrite prefix_cons in H |- *. destruct (ascii_dec "p" c); [| reflexivity].
  destruct r; discriminate.
Qed.

Lemma prefix_mp_raw (rest : string) (q : nat) :
  String.prefix "mp" rest = false ->
  String.prefix "mp" (String.substring 0 q rest ++ "raw") = false.
Proof.
  intros H. destruct q as [| q]; [rewrite substring_0_0; reflexivity |].
  destruct rest as [| c r]; [reflexivity |].
  rewrite substring_0_S, append_cons.
  rewrite prefix_cons in H |- *. destruct (ascii_dec "m" c); [| reflexivity].
  apply prefix_p_raw. exact H.
Qed.

Lemma prefix_bmp_raw (rest : string) (q : nat) :
  String.prefix "bmp" rest = false ->
  String.prefix "bmp" (String.substring 0 q rest ++ "raw") = false.
Proof.
  intros H. destruct q as [| q]; [rewrite substring_0_0; reflexivity |].
  destruct rest as [| c r]; [reflexivity |].
  rewrite substring_0_S, append_cons.
  rewrite prefix_cons in H |- *. destruct (ascii_dec "b" c); [| reflexivity].
  apply prefix_mp_raw. exact H.
Qed.

Lemma strstr_raw_none (hay : string) :
  forall p, strstr hay "bmp" = Some p ->
            strstr (strcpy_at hay p "raw") "bmp" = None.
Proof.
  unfold strcpy_at.
  induction hay as [| c rest IH]; intros p Hp; [discriminate |].
  rewrite strstr_cons in Hp.
  destruct (String.prefix "bmp" (String c rest)) eqn:E.
  - injection Hp as <-. reflexivity.
  - destruct (strstr rest "bmp") as [q |] eqn:Hq; [| discriminate].
    injection Hp as <-.
    rewrite substring_0_S, append_cons.
    rewrite strstr_cons.
    change (String c (String.substring 0 q rest ++ "raw"))
      with (String.substring 0 (S q) (String c rest) ++ "raw")%string.
    rewrite (prefix_bmp_raw (String c rest) (S q) E).
    rewrite (IH q eq_refl). reflexivity.
Qed.

Lemma strstr_none_prefix (needle hay : string) :
  strstr hay needle = None -> String.prefix needle hay = false.
Proof.
  intros H. destruct hay as [| c rest].
  - change (strstr "" needle)
      with (if String.prefix needle "" then Some 0%nat else None) in H.
    destruct (String.prefix needle ""); [discriminate | reflexivity].
  - rewrite strstr_cons in H.
    destruct (String.prefix needle (String c rest)); [discriminate | reflexivity].
Qed.

Lemma strstr_none_tail (needle : string) (c : ascii) (rest : string) :
  strstr (String c rest) needle = None -> strstr rest needle = None.
Proof.
  intros H. rewrite strstr_cons in H.
  destruct (String.prefix needle (String c rest)); [discriminate |].
  destruct (strstr rest needle); [discriminate | reflexivity].
Qed.

(** Appending ".bmp" to a string that does not start with "bmp" gives a
    string that does not start with "bmp". *)
Lemma prefix_bmp_append (s : string) :
  String.prefix "bmp" s = false -> String.prefix "bmp" (s ++ ".bmp") = false.
Proof.
  intros H.
  destruct s as [| c1 s]; [reflexivity |].
  rewrite append_cons, prefix_cons in *. destruct (ascii_dec "b" c1); [| reflexivity].
  destruct s as [| c2 s]; [reflexivity |].
  rewrite append_cons, prefix_cons in *. destruct (ascii_dec "m" c2); [| reflexivity].
  destruct s as [| c3 s]; [reflexivity |].
  rewrite append_cons, prefix_cons in *. destruct (ascii_dec "p" c3); [| reflexivity].
  destruct s; discriminate H.
Qed.

Lemma strstr_bmp_suffix (base : string) :
  strstr base "bmp" = None ->
  strstr (base ++ ".bmp") "bmp" = Some (S (String.length base))
  /\ strstr (base ++ ".bmp") ".bmp" = Some (String.length base).
Proof.
  induction base as [| c r IH]; intros Hnone; [split; reflexivity |].
  destruct (IH (strstr_none_tail _ _ _ Hnone)) as [IH1 IH2].
  rewrite append_cons, !strstr_cons.
  change (String c (r ++ ".bmp")) with (String c r ++ ".bmp")%string.
  rewrite (prefix_bmp_append (String c r) (strstr_none_prefix _ _ Hnone)).
  rewrite append_cons, IH1, IH2. split; [reflexivity |].
  rewrite prefix_cons. destruct (ascii_dec "." c); [| reflexivity].
  rewrite (prefix_bmp_append r (strstr_none_prefix _ _ (strstr_none_tail _ _ _ Hnone))).
  reflexivity.
Qed.

Lemma substring_app_length (base t : string) :
  String.substring 0 (String.length base) (base ++ t) = base.
Proof.
  induction base as [| c r IH]; [apply substring_0_0 |].
  rewrite append_cons. cbn [String.length]. rewrite substring_0_S, IH. reflexivity.
Qed.

Lemma substring_app_length_S (base : string) (c : ascii) (t : string) :
  String.substring 0 (S (String.length base)) (base ++ String c t)
  = (base ++ String c "")%string.
Proof.
  induction base as [| d r IH].
  - change ("" ++ String c t)%string with (String c t).
    rewrite substring_0_S, substring_0_0. reflexivity.
  - rewrite !append_cons. cbn [String.length]. rewrite substring_0_S, IH. reflexivity.
Qed.

Lemma append_assoc (a b c : string) : ((a ++ b) ++ c)%string = (a ++ (b ++ c))%string.
Proof.
  induction a as [| x a IH]; [reflexivity |].
  rewrite !append_cons, IH. reflexivity.
Qed.

Lemma append_nil_r (a : string) : (a ++ "")%string = a.
Proof.
  induction a as [| x a IH]; [reflexivity |]. rewrite append_cons, IH. reflexivity.
Qed.

(** X11: the raw name [getFileName] derives never passes the test the
    scans apply to names, whatever the attributes and the position of the
    entry, so a scan does not index the raw files; and the raw name is
    not longer than the name it comes from. *)
Theorem raw_name_not_indexed (dir : list dirEntry) (st : index_state) (index : Z)
    (raw : string) :
  getFileName dir st index 1 = Some raw ->
  (forall sub hid pos, eligible (MkEntry raw sub hid pos) = false)
  /\ exists bmp, getFileName dir st index 0 = Some bmp
                 /\ (String.length raw <= String.length bmp)%nat.
Proof.
  unfold getFileName. destruct (name_of_index dir _) as [n |]; [| discriminate].
  unfold swap_ext. cbn [Z.eqb Pos.eqb].
  destruct (strstr n "bmp") as [p |] eqn:Hp; [| discriminate].
  intros E. injection E as <-.
  pose proof (strstr_bound _ _ _ Hp) as Hb. cbn [String.length] in Hb.
  split.
  - intros sub hid pos. unfold eligible. cbn [name].
    rewrite (strstr_raw_none n p Hp).
    rewrite bool_decide_eq_false_2 by (intros [x Hx]; discriminate Hx).
    apply andb_false_r.
  - exists n. split; [reflexivity |].
    rewrite length_strcpy_at by lia. cbn [String.length]. lia.
Qed.

Lemma raw_name_not_indexed_witness :
  (forall sub hid pos, eligible (MkEntry "IMG.raw" sub hid pos) = false)
  /\ exists bmp, getFileName (bmp_dir 1) (shortScan (bmp_dir 1) index_init) 0 0 = Some bmp
                 /\ (String.length "IMG.raw" <= String.length bmp)%nat.
Proof.
  apply (raw_name_not_indexed (bmp_dir 1) (shortScan (bmp_dir 1) index_init) 0 "IMG.raw").
  reflexivity.
Defined.

(** X12: for a name [base.bmp] whose [base] does not contain "bmp",
    [getFileName]'s suffix handling gives [base.raw] for the raw file,
    [base] for the display name, and the name itself otherwise. *)
Theorem swap_ext_plain_name (base : string) :
  strstr base "bmp" = None ->
  swap_ext (base ++ ".bmp") 1 = Some (base ++ ".raw")%string
  /\ swap_ext (base ++ ".bmp") 2 = Some base
  /\ swap_ext (base ++ ".bmp") 0 = Some (base ++ ".bmp")%string.
Proof.
  intros Hnone. destruct (strstr_bmp_suffix base Hnone) as [H1 H2].
  unfold swap_ext. cbn [Z.eqb Pos.eqb]. rewrite H1, H2. unfold strcpy_at.
  split; [| split; [| reflexivity]].
  - rewrite substring_app_length_S, append_assoc. reflexivity.
  - rewrite substring_app_length, append_nil_r. reflexivity.
Qed.

Lemma swap_ext_plain_name_witness :
  swap_ext ("stripes" ++ ".bmp") 1 = Some ("stripes" ++ ".raw")%string
  /\ swap_ext ("stripes" ++ ".bmp") 2 = Some "stripes"%string
  /\ swap_ext ("stripes" ++ ".bmp") 0 = Some ("stripes" ++ ".bmp")%string.
Proof. apply (swap_ext_plain_name "stripes"). reflexivity. Defined.


(** ** The menu *)

Lemma adjust_spec (i v : Z) :
  is_u8 v ->
  is_u8 (Menu.adjust i v)
  /\ (i = 1 \/ i = 4 -> v <= Menu.adjust i v <= v + 5)
  /\ (i = 2 \/ i = 5 -> v - 5 <= Menu.adjust i v <= v)
  /\ (i <> 1 /\ i <> 2 /\ i <> 4 /\ i <> 5 -> Menu.adjust i v = v).
Proof.
  unfold is_u8, Menu.adjust. intros Hv.
  destruct (Z.eqb_spec i 1) as [-> | H1]; cbn [andb Z.eqb Pos.eqb].
  - destruct (Z.eqb_spec v 255) as [-> | Hm]; cbn [negb];
      [| rewrite (u8_small (v + 1)) by lia]; repeat split; lia.
  - destruct (Z.eqb_spec i 4) as [-> | H4]; cbn [andb Z.eqb Pos.eqb].
    + destruct (Z.ltb_spec v 250); [rewrite (u8_small (v + 5)) by lia |];
        repeat split; lia.
    + destruct (Z.eqb_spec i 2) as [-> | H2]; cbn [andb Z.eqb Pos.eqb].
      * destruct (Z.eqb_spec v 0) as [-> | Hm]; cbn [negb];
          [| rewrite (u8_small (v - 1)) by lia]; repeat split; lia.
      * destruct (Z.eqb_spec i 5) as [-> | H5]; cbn [andb].
        -- destruct (Z.gtb_spec v 5); [rewrite (u8_small (v - 5)) by lia |];
             repeat split; lia.
        -- repeat split; lia.
Qed.

Lemma loop_cfg (nFrames i : Z) (u : Menu.ui) :
  Menu.cfg (fst (Menu.loop nFrames i u))
  = if Menu.menuState u =? 5
    then {| SetBrightness := Menu.adjust i (SetBrightness (Menu.cfg u));
            Speed := Speed (Menu.cfg u); Delay := Delay (Menu.cfg u) |}
    else if Menu.menuState u =? 6
    then {| SetBrightness := SetBrightness (Menu.cfg u);
            Speed := Menu.adjust i (Speed (Menu.cfg u)); Delay := Delay (Menu.cfg u) |}
    else if Menu.menuState u =? 7
    then {| SetBrightness := SetBrightness (Menu.cfg u);
            Speed := Speed (Menu.cfg u); Delay := Menu.adjust i (Delay (Menu.cfg u)) |}
    else Menu.cfg u.
Proof.
  unfold Menu.loop.
  destruct (Z.eqb_spec (Menu.menuState u) 0) as [E | _]; [rewrite E; cbn [Z.eqb] |].
  { repeat match goal with |- context [if ?b then _ else _] => destruct b end; reflexivity. }
  destruct (Z.eqb_spec (Menu.menuState u) 1) as [E | _]; [rewrite E; cbn [Z.eqb Pos.eqb] |].
  { repeat match goal with |- context [if ?b then _ else _] => destruct b end; reflexivity. }
  destruct (Z.eqb_spec (Menu.menuState u) 2) as [E | _]; [rewrite E; cbn [Z.eqb Pos.eqb] |].
  { repeat match goal with |- context [if ?b then _ else _] => destruct b end; reflexivity. }
  destruct (Z.eqb_spec (Menu.menuState u) 3) as [E | _]; [rewrite E; cbn [Z.eqb Pos.eqb] |].
  { repeat match goal with |- context [if ?b then _ else _] => destruct b end; reflexivity. }
  destruct (Z.eqb_spec (Menu.menuState u) 4) as [E | _]; [rewrite E; cbn [Z.eqb Pos.eqb] |].
  { repeat match goal with |- context [if ?b then _ else _] => destruct b end; reflexivity. }
  destruct (Z.eqb_spec (Menu.menuState u) 5) as [E | _].
  { destruct (i =? 3); reflexivity. }
  destruct (Z.eqb_spec (Menu.menuState u) 6) as [E | _].
  { destruct (i =? 3); reflexivity. }
  destruct (Z.eqb_spec (Menu.menuState u) 7) as [E | _].
  { destruct (i =? 3); reflexivity. }
  destruct (Z.eqb_spec (Menu.menuState u) 8) as [E | _]; [| reflexivity].
  repeat match goal with |- context [if ?b then _ else _] => destruct b end; reflexivity.
Qed.

(** X13.  Whatever the input and the screen, one pass of [loop] leaves
    the three settings bytes (no increment or decrement wraps around),
    moves a setting by at most 5 in the direction of the key, and only
    the setting of the screen shown. *)
Theorem settings_never_wrap (nFrames i : Z) (u : Menu.ui) :
  u8_settings (Menu.cfg u) ->
  let c := Menu.cfg u in
  let c' := Menu.cfg (fst (Menu.loop nFrames i u)) in
  u8_settings c'
  /\ (i = 1 \/ i = 4 ->
      SetBrightness c <= SetBrightness c' <= SetBrightness c + 5
      /\ Speed c <= Speed c' <= Speed c + 5
      /\ Delay c <= Delay c' <= Delay c + 5)
  /\ (i = 2 \/ i = 5 ->
      SetBrightness c - 5 <= SetBrightness c' <= SetBrightness c
      /\ Speed c - 5 <= Speed c' <= Speed c
      /\ Delay c - 5 <= Delay c' <= Delay c)
  /\ (Menu.menuState u <> 5 -> SetBrightness c' = SetBrightness c)
  /\ (Menu.menuState u <> 6 -> Speed c' = Speed c)
  /\ (Menu.menuState u <> 7 -> Delay c' = Delay c).
Proof.
  intros (Hb & Hs & Hd). cbv zeta. rewrite loop_cfg.
  pose proof (adjust_spec i _ Hb) as (Ab & Ub & Db & _).
  pose proof (adjust_spec i _ Hs) as (As & Us & Ds & _).
  pose proof (adjust_spec i _ Hd) as (Ad & Ud & Dd & _).
  unfold u8_settings, is_u8 in *.
  destruct (Z.eqb_spec (Menu.menuState u) 5) as [E5 | N5];
    [| destruct (Z.eqb_spec (Menu.menuState u) 6) as [E6 | N6];
       [| destruct (Z.eqb_spec (Menu.menuState u) 7) as [E7 | N7]]];
    cbn [SetBrightness Speed Delay];
    (split; [lia |]); (split; [intros Hi; specialize (Ub Hi); specialize (Us Hi);
                                specialize (Ud Hi); lia |]);
    (split; [intros Hi; specialize (Db Hi); specialize (Ds Hi);
             specialize (Dd Hi); lia |]);
    repeat split; intros; try reflexivity; lia.
Qed.

Lemma settings_never_wrap_witness :
  u8_settings {| SetBrightness := 253; Speed := 0; Delay := 255 |}
  /\ u8_settings
       (Menu.cfg (fst (Menu.loop 3 4
          {| Menu.menuState := 5; Menu.selected := 3; Menu.frame := 0;
             Menu.cfg := {| SetBrightness := 253; Speed := 0; Delay := 255 |} |}))).
Proof.
  assert (H : u8_settings {| SetBrightness := 253; Speed := 0; Delay := 255 |}).
  { unfold u8_settings, is_u8. cbn. lia. }
  split; [exact H |].
  exact (proj1 (settings_never_wrap 3 4
                  {| Menu.menuState := 5; Menu.selected := 3; Menu.frame := 0;
                     Menu.cfg := {| SetBrightness := 253; Speed := 0; Delay := 255 |} |} H)).
Defined.

(** The file chooser *)

Lemma frame_up_range (n f : Z) :
  1 <= n <= 255 -> 0 <= f < n ->
  Menu.frame_up n f = (f - 1) mod n.
Proof.
  intros Hn Hf. unfold Menu.frame_up.
  destruct (Z.eqb_spec f 0) as [-> | Hne].
  - rewrite u8_small by lia.
    replace (0 - 1) with (n - 1 + (-1) * n) by lia.
    rewrite Z.mod_add by lia. symmetry. apply Z.mod_small. lia.
  - rewrite u8_small by lia. symmetry. apply Z.mod_small. lia.
Qed.

Lemma frame_down_range (n f : Z) :
  1 <= n <= 255 -> 0 <= f < n ->
  Menu.frame_down n f = (f + 1) mod n.
Proof.
  intros Hn Hf. unfold Menu.frame_down.
  destruct (Z.eqb_spec f (n - 1)) as [-> | Hne].
  - replace (n - 1 + 1) with (0 + 1 * n) by lia.
    rewrite Z.mod_add by lia. reflexivity.
  - rewrite u8_small by lia. symmetry. apply Z.mod_small. lia.
Qed.

Lemma loop_frame (nFrames i : Z) (u : Menu.ui) :
  Menu.frame (fst (Menu.loop nFrames i u))
  = if (Menu.menuState u =? 8) && ((Menu.selected u =? 0) || (Menu.selected u =? 1))
    then if i =? 1 then Menu.frame_up nFrames (Menu.frame u)
         else if i =? 2 then Menu.frame_down nFrames (Menu.frame u)
         else Menu.frame u
    else Menu.frame u.
Proof.
  unfold Menu.loop.
  destruct (Z.eqb_spec (Menu.menuState u) 0) as [E | _]; [rewrite E; cbn [Z.eqb andb] |].
  { repeat match goal with |- context [if ?b then _ else _] => destruct b end; reflexivity. }
  destruct (Z.eqb_spec (Menu.menuState u) 1) as [E | _]; [rewrite E; cbn [Z.eqb Pos.eqb andb] |].
  { repeat match goal with |- context [if ?b then _ else _] => destruct b end; reflexivity. }
  destruct (Z.eqb_spec (Menu.menuState u) 2) as [E | _]; [rewrite E; cbn [Z.eqb Pos.eqb andb] |].
  { repeat match goal with |- context [if ?b then _ else _] => destruct b end; reflexivity. }
  destruct (Z.eqb_spec (Menu.menuState u) 3) as [E | _]; [rewrite E; cbn [Z.eqb Pos.eqb andb] |].
  { repeat match goal with |- context [if ?b then _ else _] => destruct b end; reflexivity. }
  destruct (Z.eqb_spec (Menu.menuState u) 4) as [E | _]; [rewrite E; cbn [Z.eqb Pos.eqb andb] |].
  { repeat match goal with |- context [if ?b then _ else _] => destruct b end; reflexivity. }
  destruct (Z.eqb_spec (Menu.menuState u) 5) as [E | _]; [rewrite E; cbn [Z.eqb Pos.eqb andb] |].
  { destruct (i =? 3); reflexivity. }
  destruct (Z.eqb_spec (Menu.menuState u) 6) as [E | _]; [rewrite E; cbn [Z.eqb Pos.eqb andb] |].
  { destruct (i =? 3); reflexivity. }
  destruct (Z.eqb_spec (Menu.menuState u) 7) as [E | _]; [rewrite E; cbn [Z.eqb Pos.eqb andb] |].
  { destruct (i =? 3); reflexivity. }
  destruct (Z.eqb_spec (Menu.menuState u) 8) as [E | _]; [cbn [Z.eqb Pos.eqb andb] |].
  2: { cbn [andb]. reflexivity. }
  destruct (Z.eqb_spec i 1) as [-> | N1]; cbn [Z.eqb Pos.eqb andb].
  { destruct (Menu.selected u =? 0), (Menu.selected u =? 1); reflexivity. }
  destruct (Z.eqb_spec i 2) as [-> | N2]; cbn [Z.eqb Pos.eqb andb].
  { destruct (Menu.selected u =? 0), (Menu.selected u =? 1); reflexivity. }
  destruct (i =? 3), (Menu.selected u =? 0), (Menu.selected u =? 1); reflexivity.
Qed.

(** X14.  With 1..255 indexed files and [frame] inside the index, no
    input on any screen takes [frame] out of the index; in the file
    chooser the up key steps to the previous entry and the down key to
    the next one, both modulo the number of files. *)
Theorem chooser_frame_in_index (nFrames i : Z) (u : Menu.ui) :
  1 <= nFrames <= 255 ->
  0 <= Menu.frame u < nFrames ->
  let f' := Menu.frame (fst (Menu.loop nFrames i u)) in
  0 <= f' < nFrames
  /\ (Menu.menuState u = 8 -> Menu.selected u = 0 \/ Menu.selected u = 1 ->
      (i = 1 -> f' = (Menu.frame u - 1) mod nFrames)
      /\ (i = 2 -> f' = (Menu.frame u + 1) mod nFrames)).
Proof.
  intros Hn Hf. cbv zeta. rewrite loop_frame.
  pose proof (frame_up_range nFrames _ Hn Hf) as Hup.
  pose proof (frame_down_range nFrames _ Hn Hf) as Hdn.
  pose proof (Z.mod_pos_bound (Menu.frame u - 1) nFrames ltac:(lia)) as Bup.
  pose proof (Z.mod_pos_bound (Menu.frame u + 1) nFrames ltac:(lia)) as Bdn.
  split.
  - destruct (_ && _); [| lia].
    destruct (i =? 1); [lia |]. destruct (i =? 2); lia.
  - intros E8 Hsel. rewrite E8. cbn [Z.eqb Pos.eqb andb].
    assert (Hor : (Menu.selected u =? 0) || (Menu.selected u =? 1) = true).
    { destruct Hsel as [-> | ->]; reflexivity. }
    rewrite Hor. split; intros ->; cbn [Z.eqb Pos.eqb]; assumption.
Qed.

Lemma chooser_frame_in_index_witness :
  (1 <= 3 <= 255) /\ (0 <= 0 < 3)
  /\ Menu.frame (fst (Menu.loop 3 1
        {| Menu.menuState := 8; Menu.selected := 0; Menu.frame := 0;
           Menu.cfg := default_settings |})) = 2.
Proof.
  assert (Hn : 1 <= 3 <= 255) by lia.
  assert (Hf : 0 <= Menu.frame {| Menu.menuState := 8; Menu.selected := 0; Menu.frame := 0;
                                  Menu.cfg := default_settings |} < 3) by (cbn; lia).
  split; [exact Hn |]. split; [exact Hf |].
  exact (proj1 (proj2 (chooser_frame_in_index 3 1 _ Hn Hf) eq_refl (or_introl eq_refl))
               eq_refl).
Defined.

Lemma loop_chooser_down (nFrames : Z) (u : Menu.ui) :
  Menu.menuState u = 8 -> Menu.selected u = 0 \/ Menu.selected u = 1 ->
  fst (Menu.loop nFrames 2 u)
  = {| Menu.menuState := 8; Menu.selected := 1;
       Menu.frame := Menu.frame_down nFrames (Menu.frame u); Menu.cfg := Menu.cfg u |}.
Proof.
  intros E8 Hsel. unfold Menu.loop. rewrite E8. cbn [Z.eqb Pos.eqb andb].
  destruct u as [m s f c]. cbn in E8, Hsel |- *. subst m.
  destruct Hsel as [-> | ->]; reflexivity.
Qed.

Lemma loop_chooser_up (nFrames : Z) (u : Menu.ui) :
  Menu.menuState u = 8 -> Menu.selected u = 0 \/ Menu.selected u = 1 ->
  fst (Menu.loop nFrames 1 u)
  = {| Menu.menuState := 8; Menu.selected := 0;
       Menu.frame := Menu.frame_up nFrames (Menu.frame u); Menu.cfg := Menu.cfg u |}.
Proof.
  intros E8 Hsel. unfold Menu.loop. rewrite E8. cbn [Z.eqb Pos.eqb andb].
  destruct u as [m s f c]. cbn in E8, Hsel |- *. subst m.
  destruct Hsel as [-> | ->]; reflexivity.
Qed.

Lemma run_down (nFrames : Z) (k : nat) :
  1 <= nFrames <= 255 ->
  forall u : Menu.ui,
    Menu.menuState u = 8 -> Menu.selected u = 0 \/ Menu.selected u = 1 ->
    0 <= Menu.frame u < nFrames ->
    Menu.frame (Menu.run nFrames (replicate k 2) u)
    = (Menu.frame u + Z.of_nat k) mod nFrames.
Proof.
  intros Hn. induction k as [| k IH]; intros u E8 Hsel Hf.
  - cbn [replicate Menu.run]. rewrite Z.add_0_r. symmetry. apply Z.mod_small. exact Hf.
  - cbn [replicate Menu.run]. rewrite loop_chooser_down by assumption.
    rewrite IH; cbn [Menu.menuState Menu.selected Menu.frame]; try reflexivity.
    + rewrite frame_down_range by assumption.
      rewrite Zplus_mod_idemp_l. f_equal. lia.
    + right. reflexivity.
    + rewrite frame_down_range by assumption. apply Z.mod_pos_bound. lia.
Qed.

Lemma run_up (nFrames : Z) (k : nat) :
  1 <= nFrames <= 255 ->
  forall u : Menu.ui,
    Menu.menuState u = 8 -> Menu.selected u = 0 \/ Menu.selected u = 1 ->
    0 <= Menu.frame u < nFrames ->
    Menu.frame (Menu.run nFrames (replicate k 1) u)
    = (Menu.frame u - Z.of_nat k) mod nFrames.
Proof.
  intros Hn. induction k as [| k IH]; intros u E8 Hsel Hf.
  - cbn [replicate Menu.run]. rewrite Z.sub_0_r. symmetry. apply Z.mod_small. exact Hf.
  - cbn [replicate Menu.run]. rewrite loop_chooser_up by assumption.
    rewrite IH; cbn [Menu.menuState Menu.selected Menu.frame]; try reflexivity.
    + rewrite frame_up_range by assumption.
      rewrite Zminus_mod_idemp_l. f_equal. lia.
    + left. reflexivity.
    + rewrite frame_up_range by assumption. apply Z.mod_pos_bound. lia.
Qed.

(** X15.  The file chooser is a ring: [k] presses of the down key move
    [frame] forward by [k] modulo the number of files, [k] presses of
    the up key move it back by [k], so that as many presses as there are
    files, in either direction, come back to the file they started from. *)
Theorem chooser_is_a_ring (nFrames : Z) (k : nat) (u : Menu.ui) :
  1 <= nFrames <= 255 ->
  Menu.menuState u = 8 ->
  Menu.selected u = 0 \/ Menu.selected u = 1 ->
  0 <= Menu.frame u < nFrames ->
  Menu.frame (Menu.run nFrames (replicate k 2) u) = (Menu.frame u + Z.of_nat k) mod nFrames
  /\ Menu.frame (Menu.run nFrames (replicate k 1) u) = (Menu.frame u - Z.of_nat k) mod nFrames
  /\ Menu.frame (Menu.run nFrames (replicate (Z.to_nat nFrames) 2) u) = Menu.frame u
  /\ Menu.frame (Menu.run nFrames (replicate (Z.to_nat nFrames) 1) u) = Menu.frame u.
Proof.
  intros Hn E8 Hsel Hf.
  split; [apply run_down; assumption |].
  split; [apply run_up; assumption |].
  split.
  - rewrite run_down by assumption. rewrite Z2Nat.id by lia.
    replace (Menu.frame u + nFrames) with (Menu.frame u + 1 * nFrames) by lia.
    rewrite Z.mod_add by lia. apply Z.mod_small. exact Hf.
  - rewrite run_up by assumption. rewrite Z2Nat.id by lia.
    replace (Menu.frame u - nFrames) with (Menu.frame u + (-1) * nFrames) by lia.
    rewrite Z.mod_add by lia. apply Z.mod_small. exact Hf.
Qed.

Lemma chooser_is_a_ring_witness :
  Menu.frame (Menu.run 3 (replicate 2 2)
                {| Menu.menuState := 8; Menu.selected := 0; Menu.frame := 2;
                   Menu.cfg := default_settings |}) = (2 + 2) mod 3.
Proof.
  refine (proj1 (chooser_is_a_ring 3 2
                   {| Menu.menuState := 8; Menu.selected := 0; Menu.frame := 2;
                      Menu.cfg := default_settings |} _ _ _ _)).
  - lia.
  - reflexivity.
  - left. reflexivity.
  - cbn. lia.
Defined.

Ltac chooser_crush :=
  repeat first
    [ progress cbn [fst snd]
    | match goal with
      | |- context [Mach.u8 ?x] => rewrite (u8_small x) by lia
      end
    | match goal with
      | |- context [?a =? ?b] => destruct (Z.eqb_spec a b); try lia
      end ];
  repeat split; try reflexivity; try lia; try (f_equal; lia).

(** X16.  The two names the chooser prints and the key handling agree:
    both printed entries lie in the index; moving the mark from the top
    line down, or from the bottom line up, keeps the two names and moves
    only the mark; pressing down on the bottom line (up on the top line)
    scrolls by one entry, the name that was marked going to the other
    line. *)
Theorem chooser_display_follows_keys (nFrames : Z) (u : Menu.ui) :
  1 <= nFrames <= 255 ->
  Menu.menuState u = 8 ->
  Menu.selected u = 0 \/ Menu.selected u = 1 ->
  0 <= Menu.frame u < nFrames ->
  let down := fst (Menu.loop nFrames 2 u) in
  let up := fst (Menu.loop nFrames 1 u) in
  (0 <= fst (Menu.chooser_lines nFrames u) < nFrames
   /\ 0 <= snd (Menu.chooser_lines nFrames u) < nFrames)
  /\ (Menu.selected u = 0 ->
      Menu.chooser_lines nFrames down = Menu.chooser_lines nFrames u
      /\ Menu.chooser_mark down = 1
      /\ snd (Menu.chooser_lines nFrames up) = fst (Menu.chooser_lines nFrames u)
      /\ Menu.chooser_mark up = 0)
  /\ (Menu.selected u = 1 ->
      Menu.chooser_lines nFrames up = Menu.chooser_lines nFrames u
      /\ Menu.chooser_mark up = 0
      /\ fst (Menu.chooser_lines nFrames down) = snd (Menu.chooser_lines nFrames u)
      /\ Menu.chooser_mark down = 1).
Proof.
  intros Hn E8 Hsel Hf. cbv zeta.
  rewrite loop_chooser_down, loop_chooser_up by assumption.
  destruct u as [m s f c]. cbn [Menu.menuState Menu.selected Menu.frame Menu.cfg] in *.
  unfold Menu.chooser_lines, Menu.chooser_mark, Menu.frame_down, Menu.frame_up.
  cbn [Menu.menuState Menu.selected Menu.frame Menu.cfg Z.eqb fst snd].
  split; [| split].
  - destruct Hsel as [-> | ->]; chooser_crush.
  - intros ->. destruct (Z.eqb_spec f 0), (Z.eqb_spec f (nFrames - 1)); chooser_crush.
  - intros ->. destruct (Z.eqb_spec f 0), (Z.eqb_spec f (nFrames - 1)); chooser_crush.
Qed.

Lemma chooser_display_follows_keys_witness :
  Menu.chooser_lines 3 (fst (Menu.loop 3 2
     {| Menu.menuState := 8; Menu.selected := 0; Menu.frame := 2;
        Menu.cfg := default_settings |}))
  = Menu.chooser_lines 3
     {| Menu.menuState := 8; Menu.selected := 0; Menu.frame := 2;
        Menu.cfg := default_settings |}.
Proof.
  refine (proj1 (proj1 (proj2 (chooser_display_follows_keys 3
     {| Menu.menuState := 8; Menu.selected := 0; Menu.frame := 2;
        Menu.cfg := default_settings |} _ _ _ _)) eq_refl)).
  - lia.
  - reflexivity.
  - left. reflexivity.
  - cbn. lia.
Defined.

Lemma on_screen_cases (u : Menu.ui) :
  Menu.on_screen u = true ->
  In (Menu.menuState u, Menu.selected u) Menu.screens.
Proof.
  unfold Menu.on_screen. intros H.
  apply existsb_exists in H. destruct H as ([m s] & Hin & Heq).
  apply andb_true_iff in Heq. destruct Heq as [Hm Hs].
  apply Z.eqb_eq in Hm. apply Z.eqb_eq in Hs. cbn [fst snd] in Hm, Hs.
  rewrite Hm, Hs. exact Hin.
Qed.

Ltac on_screens u H :=
  let m := fresh "m" in let s := fresh "s" in let f := fresh "f" in let c := fresh "c" in
  apply on_screen_cases in H; destruct u as [m s f c];
  cbn [Menu.menuState Menu.selected Menu.screens In] in H;
  repeat (destruct H as [H | H]; [injection H as <- <- | ]); [.. | destruct H].

Ltac keys i :=
  destruct (Z.eqb_spec i 1) as [-> | ?];
  [| destruct (Z.eqb_spec i 2) as [-> | ?];
     [| destruct (Z.eqb_spec i 3) as [-> | ?]]].

Lemma loop_on_screen (nFrames i : Z) (u : Menu.ui) :
  Menu.on_screen u = true -> Menu.on_screen (fst (Menu.loop nFrames i u)) = true.
Proof.
  intros H. on_screens u H; unfold Menu.loop;
    cbn [Menu.menuState Menu.selected Z.eqb Pos.eqb andb]; keys i;
    cbn [Z.eqb Pos.eqb andb fst Menu.select Menu.goto Menu.set_frame Menu.set_cfg
         Menu.menuState Menu.selected Menu.frame Menu.cfg]; reflexivity.
Qed.

Lemma run_on_screen (nFrames : Z) (inputs : list Z) :
  forall u, Menu.on_screen u = true -> Menu.on_screen (Menu.run nFrames inputs u) = true.
Proof.
  induction inputs as [| i rest IH]; intros u H; cbn [Menu.run]; [exact H |].
  apply IH, loop_on_screen, H.
Qed.

Lemma loop_actions (nFrames i : Z) (u : Menu.ui) :
  Menu.on_screen u = true ->
  let a := snd (Menu.loop nFrames i u) in
  (a = Menu.Trigger <-> Menu.menuState u = 0 /\ Menu.selected u = 0 /\ i = 3)
  /\ (a = Menu.SaveConfig <-> Menu.menuState u = 4 /\ Menu.selected u = 6 /\ i = 3)
  /\ (a = Menu.Rescan <-> Menu.menuState u = 5 /\ i = 3)
  /\ (a = Menu.Preload <-> Menu.menuState u = 8 /\ i = 3).
Proof.
  intros H. cbv zeta. on_screens u H; unfold Menu.loop;
    cbn [Menu.menuState Menu.selected Z.eqb Pos.eqb andb]; keys i;
    cbn [Z.eqb Pos.eqb andb snd Menu.select Menu.goto Menu.set_frame Menu.set_cfg
         Menu.menuState Menu.selected Menu.frame Menu.cfg];
    repeat split; intros; try discriminate; try lia; try reflexivity;
    try (match goal with H : _ /\ _ |- _ => destruct H as (? & ?) end; try lia;
         match goal with H : _ /\ _ |- _ => destruct H as (? & ?) end; lia).
Qed.

Lemma calls_cases (a : Menu.action) :
  (In Menu.CallTrigger (Menu.calls a) <-> a = Menu.Trigger)
  /\ (In Menu.CallSaveConfig (Menu.calls a) <-> a = Menu.SaveConfig)
  /\ (In Menu.CallCompleteScan (Menu.calls a) <-> a = Menu.Rescan)
  /\ (In Menu.CallCheckSpeed (Menu.calls a) <-> a = Menu.Rescan)
  /\ (In Menu.CallSaveBrightness (Menu.calls a) <-> a = Menu.Rescan)
  /\ (In Menu.CallPreload (Menu.calls a) <-> a = Menu.Rescan \/ a = Menu.Preload).
Proof.
  destruct a; cbn [Menu.calls In]; repeat split; intros H;
    repeat match goal with
           | H : _ \/ _ |- _ => destruct H as [H | H]
           end;
    try discriminate H; try contradiction; auto.
Qed.

(** X17.  Whatever keys are pressed after power-on, the menu is on one
    of its fifteen screen/mark pairs.  From there one pass of [loop]
    calls [trigger] exactly for select on the start screen with the top
    line marked; [saveConfig] exactly for select on the save line;
    [completeScan], [checkSpeed] and [saveBrightness] exactly for select
    on the brightness screen; and [preload] exactly for select on the
    brightness screen (after the rescan) or in the file chooser. *)
Theorem menu_stays_on_screens (nFrames : Z) (inputs : list Z) (c : settings) (i : Z) :
  let u := Menu.run nFrames inputs (Menu.power_on c) in
  let called := Menu.calls (snd (Menu.loop nFrames i u)) in
  Menu.on_screen u = true
  /\ (In Menu.CallTrigger called
      <-> Menu.menuState u = 0 /\ Menu.selected u = 0 /\ i = 3)
  /\ (In Menu.CallSaveConfig called
      <-> Menu.menuState u = 4 /\ Menu.selected u = 6 /\ i = 3)
  /\ (In Menu.CallCompleteScan called <-> Menu.menuState u = 5 /\ i = 3)
  /\ (In Menu.CallCheckSpeed called <-> Menu.menuState u = 5 /\ i = 3)
  /\ (In Menu.CallSaveBrightness called <-> Menu.menuState u = 5 /\ i = 3)
  /\ (In Menu.CallPreload called
      <-> (Menu.menuState u = 5 \/ Menu.menuState u = 8) /\ i = 3).
Proof.
  cbv zeta.
  assert (H : Menu.on_screen (Menu.run nFrames inputs (Menu.power_on c)) = true)
    by (apply run_on_screen; reflexivity).
  split; [exact H |].
  destruct (loop_actions nFrames i _ H) as (Ht & Hs & Hr & Hp).
  destruct (calls_cases (snd (Menu.loop nFrames i
                                (Menu.run nFrames inputs (Menu.power_on c)))))
    as (Ct & Cs & Cc & Ck & Cb & Cp).
  rewrite Ct, Cs, Cc, Ck, Cb, Cp, Ht, Hs, Hr, Hp.
  repeat split; try tauto.
Qed.

(** X18.  From every screen the select key, pressed at most twice, leads
    back to the start screen. *)
Theorem select_returns_to_start (nFrames : Z) (u : Menu.ui) :
  Menu.on_screen u = true ->
  Menu.menuState u = 0
  \/ Menu.menuState (Menu.run nFrames [3] u) = 0
  \/ Menu.menuState (Menu.run nFrames [3; 3] u) = 0.
Proof.
  intros H. on_screens u H; cbn; auto.
Qed.

Lemma select_returns_to_start_witness :
  Menu.menuState (Menu.run 3 [3; 3]
     {| Menu.menuState := 2; Menu.selected := 4; Menu.frame := 0;
        Menu.cfg := default_settings |}) = 0.
Proof.
  destruct (select_returns_to_start 3
     {| Menu.menuState := 2; Menu.selected := 4; Menu.frame := 0;
        Menu.cfg := default_settings |} eq_refl) as [H | [H | H]].
  - discriminate H.
  - discriminate H.
  - exact H.
Defined.


(** ** Playback *)

Lemma swrap32_small (v : Z) : -2147483648 <= v < 2147483648 -> Mach.swrap 32 v = v.
Proof.
  intros Hv. unfold Mach.swrap.
  change (2 ^ 32) with 4294967296. change (2 ^ (32 - 1)) with 2147483648.
  destruct (Z.ltb_spec (v mod 4294967296) 2147483648) as [Hlt | Hge].
  - assert (0 <= v) by (pose proof (Z.mod_pos_bound v 4294967296 ltac:(lia));
                        destruct (Z_lt_le_dec v 0) as [Hneg |]; [| lia];
                        replace v with ((v + 4294967296) + (-1) * 4294967296) in Hlt by lia;
                        rewrite Z.mod_add in Hlt by lia;
                        rewrite Z.mod_small in Hlt by lia; lia).
    apply Z.mod_small. lia.
  - assert (v < 0) by (destruct (Z_lt_le_dec v 0) as [Hneg |]; [lia |];
                       rewrite Z.mod_small in Hge by lia; lia).
    replace v with ((v + 4294967296) + (-1) * 4294967296) at 1 by lia.
    rewrite Z.mod_add by lia. rewrite Z.mod_small by lia. lia.
Qed.

Lemma linesPerSec_value (speed maxLPS : Z) :
  is_u8 speed -> 0 <= maxLPS <= 65535 ->
  Play.linesPerSec speed maxLPS = Z.quot (speed * (maxLPS - 10)) 255 + 10
  /\ Z.min 10 maxLPS <= Z.quot (speed * (maxLPS - 10)) 255 + 10 <= Z.max 10 maxLPS.
Proof.
  unfold is_u8. intros Hs Hm.
  assert (Hprod : -2550 <= speed * (maxLPS - 10) <= 255 * 65525) by nia.
  assert (Hq : Z.min 10 maxLPS <= Z.quot (speed * (maxLPS - 10)) 255 + 10 <= Z.max 10 maxLPS).
  { destruct (Z_lt_le_dec maxLPS 10) as [Hlow | Hhigh].
    - assert (Hneg : (speed * (maxLPS - 10)) ÷ 255 = - ((speed * (10 - maxLPS)) ÷ 255)).
      { rewrite <- Z.quot_opp_l by lia. f_equal. lia. }
      rewrite Hneg. rewrite Z.quot_div_nonneg by nia.
      assert (0 <= speed * (10 - maxLPS) / 255 <= 10 - maxLPS).
      { split; [apply Z.div_pos; nia |].
        apply Z.div_le_upper_bound; nia. }
      lia.
    - rewrite Z.quot_div_nonneg by nia.
      assert (0 <= speed * (maxLPS - 10) / 255 <= maxLPS - 10).
      { split; [apply Z.div_pos; nia |].
        apply Z.div_le_upper_bound; nia. }
      lia. }
  split; [| exact Hq].
  unfold Play.linesPerSec, Mach.map.
  replace (speed - 0) with speed by lia. replace (255 - 0) with 255 by lia.
  rewrite (swrap32_small (speed * (maxLPS - 10))) by lia.
  rewrite swrap32_small by lia.
  apply u32_small. lia.
Qed.

(** X19.  For a speed byte and a rate limit of 4..65535 lines per
    second the playback rate lies between 10 and the limit, is 10 at
    speed 0 and the limit at speed 255, grows with the speed when the
    limit is at least 10, and the timer interval [250000 / rate] is
    stored in the 16-bit register without loss. *)
Theorem playback_rate_and_interval (speed maxLPS : Z) :
  is_u8 speed ->
  4 <= maxLPS <= 65535 ->
  let rate := Play.linesPerSec speed maxLPS in
  Z.min 10 maxLPS <= rate <= Z.max 10 maxLPS
  /\ Play.linesPerSec 0 maxLPS = 10
  /\ Play.linesPerSec 255 maxLPS = maxLPS
  /\ (10 <= maxLPS ->
      rate = 10 + speed * (maxLPS - 10) / 255
      /\ forall faster, speed <= faster < 256 -> rate <= Play.linesPerSec faster maxLPS)
  /\ Play.timerInterval rate = Some (250000 / rate)
  /\ 3 <= 250000 / rate <= 62500.
Proof.
  intros Hs Hm. cbv zeta.
  destruct (linesPerSec_value speed maxLPS Hs ltac:(lia)) as [Hv Hb].
  assert (Hrate : 4 <= Play.linesPerSec speed maxLPS <= 65535) by lia.
  split; [lia |].
  split.
  { destruct (linesPerSec_value 0 maxLPS ltac:(unfold is_u8; lia) ltac:(lia)) as [H0 _].
    rewrite H0. reflexivity. }
  split.
  { destruct (linesPerSec_value 255 maxLPS ltac:(unfold is_u8; lia) ltac:(lia)) as [H0 _].
    rewrite H0. replace (255 * (maxLPS - 10)) with ((maxLPS - 10) * 255) by lia.
    rewrite Z.quot_mul by lia. lia. }
  split.
  { intros H10. split.
    - rewrite Hv. rewrite Z.quot_div_nonneg by (unfold is_u8 in Hs; nia). lia.
    - intros faster Hf.
      destruct (linesPerSec_value faster maxLPS ltac:(unfold is_u8 in *; lia) ltac:(lia))
        as [Hv' _].
      rewrite Hv, Hv'. unfold is_u8 in Hs.
      rewrite !Z.quot_div_nonneg by nia.
      assert (speed * (maxLPS - 10) / 255 <= faster * (maxLPS - 10) / 255)
        by (apply Z.div_le_mono; nia).
      lia. }
  assert (Hdiv : 3 <= 250000 / Play.linesPerSec speed maxLPS <= 62500).
  { split.
    - apply Z.div_le_lower_bound; lia.
    - apply Z.div_le_upper_bound; lia. }
  split; [| exact Hdiv].
  unfold Play.timerInterval.
  destruct (Z.eqb_spec (Play.linesPerSec speed maxLPS) 0) as [E | _]; [lia |].
  f_equal. unfold Play.F_CPU. change (16000000 / 64) with 250000.
  rewrite (u32_small 250000) by lia. apply u16_small. lia.
Qed.

Lemma playback_rate_and_interval_witness :
  Play.timerInterval (Play.linesPerSec 125 223) = Some (250000 / Play.linesPerSec 125 223).
Proof.
  refine (proj1 (proj2 (proj2 (proj2 (proj2
            (playback_rate_and_interval 125 223 _ _)))))).
  - unfold is_u8. lia.
  - lia.
Defined.

Section Playing.

Variable blocks : Z -> list Z.
Variable released : nat -> bool.
Variable first n : Z.
Hypothesis Hfirst : 0 <= first.
Hypothesis Hn : 1 <= n.
Hypothesis Hend : first + n <= 4294967296.

Local Abbreviation row k := (take (Z.to_nat (N_LEDS * 3)) (blocks (first + k))).

Lemma trigger_rows (m : nat) :
  forall (j : Z) (reads : nat) (shown : list (list Z)) (fuel : nat),
    0 <= j -> j + Z.of_nat m < n ->
    Play.trigger_loop blocks released first n (m + fuel) j false reads
                      (blocks (first + j)) shown
    = Play.trigger_loop blocks released first n fuel (j + Z.of_nat m) false reads
                        (blocks (first + (j + Z.of_nat m)))
                        (shown ++ ((fun k => row k) <$> seqZ j (Z.of_nat m))).
Proof.
  induction m as [| m IH]; intros j reads shown fuel Hj Hlt.
  - cbn [Nat.add Z.of_nat seqZ]. rewrite Z.add_0_r.
    change (seqZ j 0) with (@nil Z). cbn [fmap list_fmap]. rewrite app_nil_r. reflexivity.
  - cbn [Nat.add Play.trigger_loop].
    rewrite (u32_small (j + 1)) by lia.
    destruct (Z.geb_spec (j + 1) n) as [Hge | _]; [lia |].
    rewrite (u32_small (j + 1 + first)) by lia.
    replace (j + 1 + first) with (first + (j + 1)) by lia.
    rewrite IH by lia.
    replace (j + 1 + Z.of_nat m) with (j + Z.of_nat (S m)) by lia.
    rewrite <- app_assoc. do 2 f_equal.
    rewrite (seqZ_cons j (Z.of_nat (S m))) by lia.
    cbn [fmap list_fmap]. unfold Z.succ.
    replace (Z.pred (Z.of_nat (S m))) with (Z.of_nat m) by lia. reflexivity.
Qed.

Lemma trigger_lap (reads : nat) (shown : list (list Z)) (fuel : nat) :
  n < 4294967296 ->
  Play.trigger_loop blocks released first n (Z.to_nat n + fuel) 0 false reads
                    (blocks first) shown
  = if released reads
    then Play.trigger_loop blocks released first n fuel n true (S reads)
                           (Play.lights_off (blocks (first + (n - 1))))
                           (shown ++ frame_strip blocks first n)
    else Play.trigger_loop blocks released first n fuel 0 false (S reads)
                           (blocks first) (shown ++ frame_strip blocks first n).
Proof.
  intros Hbig.
  replace (Z.to_nat n + fuel)%nat with (Z.to_nat (n - 1) + S fuel)%nat by lia.
  replace (blocks first) with (blocks (first + 0)) at 1 by (f_equal; lia).
  rewrite trigger_rows by lia.
  rewrite Z2Nat.id by lia. rewrite Z.add_0_l.
  cbn [Play.trigger_loop].
  replace (n - 1 + 1) with n by lia. rewrite (u32_small n) by lia.
  destruct (Z.geb_spec n n) as [_ | Hlt]; [| lia].
  assert (Hstrip : (shown ++ ((fun k => row k) <$> seqZ 0 (n - 1))) ++ [row (n - 1)]
                   = shown ++ frame_strip blocks first n).
  { rewrite <- app_assoc. f_equal. unfold frame_strip.
    replace n with ((n - 1) + 1) at 3 by lia.
    rewrite seqZ_app by lia. rewrite fmap_app. f_equal. }
  rewrite Hstrip.
  rewrite (u32_small (0 + first)) by lia. rewrite Z.add_0_l. reflexivity.
Qed.

Lemma trigger_laps (h : nat) :
  n < 4294967296 ->
  forall (reads : nat) (shown : list (list Z)) (extra : nat),
    (forall k, (k < h)%nat -> released (reads + k) = false) ->
    released (reads + h) = true ->
    Play.trigger_loop blocks released first n (S h * Z.to_nat n + 1 + extra) 0 false reads
                      (blocks first) shown
    = Some (Play.lights_off (blocks (first + (n - 1))),
            shown ++ concat (replicate (S h) (frame_strip blocks first n)) ++ [dark_row]).
Proof.
  intros Hbig. induction h as [| h IH]; intros reads shown extra Hheld Hrel.
  - replace (1 * Z.to_nat n + 1 + extra)%nat with (Z.to_nat n + S extra)%nat by lia.
    rewrite trigger_lap by exact Hbig.
    rewrite Nat.add_0_r in Hrel. rewrite Hrel.
    cbn [Play.trigger_loop replicate concat]. rewrite app_nil_r.
    rewrite <- app_assoc.
    assert (Hdark : take (Z.to_nat (N_LEDS * 3)) (Play.lights_off (blocks (first + (n - 1))))
                    = dark_row).
    { unfold Play.lights_off, dark_row. apply take_app_length'. symmetry. apply length_replicate. }
    rewrite Hdark. reflexivity.
  - replace (S (S h) * Z.to_nat n + 1 + extra)%nat
      with (Z.to_nat n + (S h * Z.to_nat n + 1 + extra))%nat by lia.
    rewrite trigger_lap by exact Hbig.
    rewrite <- (Nat.add_0_r reads) at 1. rewrite Hheld by lia.
    rewrite IH.
    + cbn [replicate concat]. rewrite <- !app_assoc. reflexivity.
    + intros k Hk. replace (S reads + k)%nat with (reads + S k)%nat by lia.
      apply Hheld. lia.
    + replace (S reads + h)%nat with (reads + S h)%nat by lia. exact Hrel.
Qed.

Lemma trigger_held (fuel : nat) :
  (forall k, released k = false) ->
  forall block reads buf shown,
    Play.trigger_loop blocks released first n fuel block false reads buf shown = None.
Proof.
  intros Hheld. induction fuel as [| fuel IH]; intros block reads buf shown; [reflexivity |].
  cbn [Play.trigger_loop]. rewrite Hheld.
  destruct (_ >=? _); apply IH.
Qed.

End Playing.

(** X20.  Playback of a staged frame of [n] blocks starting at block
    [first]: when the trigger is found held at the end of the first [h]
    passes over the frame and released at the end of the next one, the
    strip is sent the rows of blocks [first], ..., [first + n - 1], in
    this order, [h + 1] times over, and then one row with every LED off;
    the loop ends after [(h + 1) * n + 1] timer periods, and more fuel
    changes nothing. *)
Theorem playback_repeats_frame (blocks : Z -> list Z) (released : nat -> bool)
    (first n : Z) (h extra : nat) :
  0 <= first -> 1 <= n < 4294967296 -> first + n <= 4294967296 ->
  (forall k, (k < h)%nat -> released k = false) ->
  released h = true ->
  Play.trigger blocks released (S h * Z.to_nat n + 1 + extra)
               {| Play.sdBuf := blocks first; Play.firstBlock := first; Play.nBlocks := n |}
  = Some ({| Play.sdBuf := Play.lights_off (blocks (first + (n - 1)));
             Play.firstBlock := first; Play.nBlocks := n |},
          concat (replicate (S h) (frame_strip blocks first n)) ++ [dark_row]).
Proof.
  intros Hfirst Hn Hend Hheld Hrel. unfold Play.trigger.
  cbn [Play.sdBuf Play.firstBlock Play.nBlocks].
  rewrite (trigger_laps blocks released first n Hfirst ltac:(lia) Hend h ltac:(lia) 0%nat [] extra);
    [reflexivity | exact Hheld | exact Hrel].
Qed.

Lemma playback_repeats_frame_witness :
  Play.trigger (fun b => replicate 512 (b - 1000)) (fun k => Nat.eqb k 1) (2 * 2 + 1 + 0)
               {| Play.sdBuf := replicate 512 0; Play.firstBlock := 1000; Play.nBlocks := 2 |}
  = Some ({| Play.sdBuf := Play.lights_off (replicate 512 1);
             Play.firstBlock := 1000; Play.nBlocks := 2 |},
          [replicate 432 0; replicate 432 1; replicate 432 0; replicate 432 1;
           replicate 432 0]).
Proof.
  apply (playback_repeats_frame (fun b => replicate 512 (b - 1000)) (fun k => Nat.eqb k 1)
                                1000 2 1 0).
  - lia.
  - lia.
  - lia.
  - intros k Hk. destruct k as [| k]; [reflexivity | lia].
  - reflexivity.
Defined.

(** X21.  While the trigger stays held the playback loop does not end:
    no number of timer periods brings [trigger] to its return. *)
Theorem playback_runs_while_held (blocks : Z -> list Z) (released : nat -> bool)
    (fuel : nat) (st : Play.state) :
  (forall k, released k = false) ->
  Play.trigger blocks released fuel st = None.
Proof.
  intros Hheld. unfold Play.trigger.
  rewrite trigger_held by exact Hheld. reflexivity.
Qed.

Lemma playback_runs_while_held_witness :
  Play.trigger (fun _ => replicate 512 0) (fun _ => false) 1000
               {| Play.sdBuf := replicate 512 0; Play.firstBlock := 0; Play.nBlocks := 1 |}
  = None.
Proof.
  apply playback_runs_while_held. intros k. reflexivity.
Defined.


(** ** From conversion to playback *)

Lemma stored_app (a b : list Bmp.event) :
  forall blocks, stored (a ++ b) blocks = stored b (stored a blocks).
Proof.
  induction a as [| e a IH]; intros blocks; [reflexivity |].
  destruct e; cbn [app stored]; apply IH.
Qed.

Lemma stored_rows (f : Z -> list Z) (first : Z) (m : nat) :
  0 <= first -> first + Z.of_nat m <= 4294967296 ->
  forall (blocks : Z -> list Z) (k : Z), 0 <= k < Z.of_nat m ->
    stored ((fun k => Bmp.EvWrite (Mach.u32 (first + k)) (f k)) <$> seqZ 0 (Z.of_nat m))
           blocks (first + k) = f k.
Proof.
  intros Hfirst. induction m as [| m IH]; intros Hend blocks k Hk; [lia |].
  replace (Z.of_nat (S m)) with (Z.of_nat m + 1) by lia.
  rewrite seqZ_app by lia. rewrite fmap_app, stored_app.
  change (seqZ (0 + Z.of_nat m) 1) with [0 + Z.of_nat m].
  cbn [fmap list_fmap stored]. rewrite Z.add_0_l.
  rewrite (u32_small (first + Z.of_nat m)) by lia.
  destruct (Z.eqb_spec (first + k) (first + Z.of_nat m)) as [E | N].
  - f_equal. lia.
  - apply IH; lia.
Qed.

Lemma raw_files_app (c : Bmp.card) (lastBlock : Z -> Z -> Z) (a b : list Bmp.event) :
  forall files,
    raw_files c lastBlock (a ++ b) files = raw_files c lastBlock b (raw_files c lastBlock a files).
Proof.
  induction a as [| e a IH]; intros files; [reflexivity |].
  destruct e; cbn [app raw_files]; apply IH.
Qed.

Lemma raw_files_writes (c : Bmp.card) (lastBlock : Z -> Z -> Z) (f : Z -> Bmp.event)
    (l : list Z) :
  (forall k, exists b d, f k = Bmp.EvWrite b d) ->
  forall files, raw_files c lastBlock (f <$> l) files = files.
Proof.
  intros Hf. induction l as [| k l IH]; intros files; [reflexivity |].
  cbn [fmap list_fmap]. destruct (Hf k) as (b & d & ->). cbn [raw_files]. apply IH.
Qed.

Section ConvertAndPlay.

Variable gamma : Z -> Z.
Variable bump : Z -> Z.
Variable dither : Z -> Z -> Z.

(** X22.  Conversion and playback compose, for a bottom-up file of an
    image 1 to 10921 pixels wide with 1 to 32767 rows (header of any
    length, rows padded to four bytes, the file shorter than 4 GiB) on a
    card that grants the [512 * rows] bytes requested at block [first]
    and accepts the writes.  After [bmpProcess] has converted the file
    to the raw file [out], the raw file found under that name has the
    size and the first block of the conversion, so that [preload] stages
    it, and [trigger] sends the strip the converted rows of the picture
    from its bottom row to its top row, once for each pass the trigger is
    held through plus one, and then one dark row. *)
Theorem convert_then_play (prec : Z) (c : Bmp.card) (gap : list Z) (w : Z)
    (img : list (list Z)) (out : string) (v : Z) (st : Bmp.state) (first : Z)
    (blocks : Z -> list Z) (files : string -> option Speed.rawFile)
    (lastBlock : Z -> Z -> Z) (released : nat -> bool) (h extra : nat)
    (ps : Play.state) :
  well_formed_image w img ->
  fits_size_field gap w img ->
  length (Bmp.sdBuf st) = 512%nat ->
  Bmp.createContiguous c out (512 * Z.of_nat (length img)) = Some first ->
  (forall blk, Bmp.writeBlock c blk = true) ->
  0 <= first -> first + Z.of_nat (length img) <= 4294967296 ->
  (forall k, (k < h)%nat -> released k = false) ->
  released h = true ->
  exists r st' staged off,
    Bmp.bmpProcess gamma bump dither prec c (Some (bmp_file_at gap false w img))
                   (Some out) (Some v) st = Bmp.Done r st'
    /\ Play.preload (raw_files c lastBlock (Bmp.trace st') files out)
                    (stored (Bmp.trace st') blocks) ps = inl staged
    /\ Play.nBlocks staged = Z.of_nat (length img)
    /\ Play.firstBlock staged = first
    /\ Play.trigger (stored (Bmp.trace st') blocks) released
                    (S h * length img + 1 + extra) staged
       = Some (off,
               concat (replicate (S h)
                 ((fun k => take 432 (frame_row gamma bump dither (Mach.u8 (1 + v)) w k
                                        (img !!! Z.to_nat k) (drop 432 (Bmp.sdBuf st))))
                    <$> seqZ 0 (Z.of_nat (length img))))
               ++ [dark_row]).
Proof.
  intros Hwf Hfits Hbuf Hcreate Hwrite Hfirst Hend Hheld Hrel.
  pose proof (wf_height w img Hwf) as Hh.
  assert (Hsz : Mach.u32 (512 * Z.of_nat (length img)) = 512 * Z.of_nat (length img))
    by (apply u32_small; lia).
  destruct (bmpProcess_run gamma bump dither gap false w img Hwf Hfits prec c (Some out)
              (Some v) st first Hbuf) as (st' & Hrun & Htrace);
    [| exact Hwrite | |].
  { intros o' Eo. injection Eo as <-. rewrite Hsz. exact Hcreate. }
  { intros [Hb _]. discriminate Hb. }
  rewrite Hsz in Htrace.
  eexists. exists st'.
  set (card := stored (Bmp.trace st') blocks).
  assert (Hcard : forall k, 0 <= k < Z.of_nat (length img) ->
            card (first + k)
            = frame_row gamma bump dither (Mach.u8 (1 + v)) w k (img !!! Z.to_nat k)
                        (drop 432 (Bmp.sdBuf st))).
  { intros k Hk. unfold card. rewrite Htrace, stored_app.
    cbn [app stored]. unfold frame_events, multiplier.
    apply (stored_rows
             (fun k => frame_row gamma bump dither (Mach.u8 (1 + v)) w k (img !!! Z.to_nat k)
                                 (drop 432 (Bmp.sdBuf st)))); lia. }
  assert (Hfile : raw_files c lastBlock (Bmp.trace st') files out
                  = Some {| Speed.contiguousRange :=
                              Some (first, lastBlock first (512 * Z.of_nat (length img)));
                            Speed.fileSize := 512 * Z.of_nat (length img) |}).
  { rewrite Htrace, raw_files_app. cbn [app raw_files]. rewrite Hcreate.
    unfold frame_events. rewrite raw_files_writes by (intros k; do 2 eexists; reflexivity).
    rewrite String.eqb_refl. reflexivity. }
  assert (Hstaged : Play.preload (raw_files c lastBlock (Bmp.trace st') files out) card ps
                    = inl {| Play.sdBuf := card first; Play.firstBlock := first;
                             Play.nBlocks := Z.of_nat (length img) |}).
  { rewrite Hfile. unfold Play.preload. cbn [Speed.contiguousRange Speed.fileSize].
    do 2 f_equal.
    replace (512 * Z.of_nat (length img)) with (Z.of_nat (length img) * 512) by lia.
    rewrite Z.div_mul by lia. apply u32_small. lia. }
  eexists. eexists. split; [exact Hrun |]. split; [exact Hstaged |].
  split; [reflexivity |]. split; [reflexivity |].
  unfold Play.trigger. cbn [Play.sdBuf Play.firstBlock Play.nBlocks].
  replace (S h * length img + 1 + extra)%nat
    with (S h * Z.to_nat (Z.of_nat (length img)) + 1 + extra)%nat by lia.
  rewrite (trigger_laps card released first (Z.of_nat (length img)) Hfirst ltac:(lia) Hend h
             ltac:(lia) 0%nat [] extra); [| exact Hheld | exact Hrel].
  cbn [app].
  assert (Hstrip : frame_strip card first (Z.of_nat (length img))
                   = (fun k => take 432 (frame_row gamma bump dither (Mach.u8 (1 + v)) w k
                                           (img !!! Z.to_nat k) (drop 432 (Bmp.sdBuf st))))
                       <$> seqZ 0 (Z.of_nat (length img))).
  { unfold frame_strip. apply list_fmap_ext. intros i k Hlook.
    apply lookup_seqZ in Hlook. destruct Hlook as [-> Hi].
    change (Z.to_nat (N_LEDS * 3)) with 432%nat. f_equal. apply Hcard. lia. }
  rewrite Hstrip. reflexivity.
Qed.

End ConvertAndPlay.

Lemma convert_then_play_witness :
  exists r st' staged off,
    Bmp.bmpProcess id_gamma no_bump flat_dither 24 (good_card 1000)
                   (Some (bmp_file false 2 small_image)) (Some "IMG.raw"%string) (Some 255)
                   blank_state = Bmp.Done r st'
    /\ Play.preload (raw_files (good_card 1000) (fun first sz => first + 63)
                               (Bmp.trace st') (fun _ => None) "IMG.raw"%string)
                    (stored (Bmp.trace st') (fun _ => replicate 512 0))
                    {| Play.sdBuf := replicate 512 0; Play.firstBlock := 0;
                       Play.nBlocks := 0 |} = inl staged
    /\ Play.nBlocks staged = Z.of_nat (length small_image)
    /\ Play.firstBlock staged = 1000
    /\ Play.trigger (stored (Bmp.trace st') (fun _ => replicate 512 0)) (fun _ => true)
                    (1 * length small_image + 1 + 0) staged
       = Some (off,
               concat (replicate 1
                 ((fun k => take 432 (frame_row id_gamma no_bump flat_dither (Mach.u8 (1 + 255))
                                        2 k (small_image !!! Z.to_nat k)
                                        (drop 432 (Bmp.sdBuf blank_state))))
                    <$> seqZ 0 (Z.of_nat (length small_image))))
               ++ [dark_row]).
Proof.
  apply (convert_then_play id_gamma no_bump flat_dither 24 (good_card 1000) (replicate 20 0)
           2 small_image "IMG.raw"%string 255 blank_state 1000 (fun _ => replicate 512 0)
           (fun _ => None) (fun first sz => first + 63) (fun _ => true) 0 0).
  - unfold well_formed_image, small_image. repeat split; try (simpl; lia).
    repeat constructor; unfold is_u8; lia.
  - reflexivity.
  - reflexivity.
  - reflexivity.
  - intros blk. reflexivity.
  - lia.
  - cbn. lia.
  - intros k Hk. lia.
  - reflexivity.
Defined.


(** ** The strip driver *)

Lemma testbit_rol (R : Z) (c : bool) (i : Z) :
  1 <= i <= 7 ->
  Z.testbit (Mach.u8 (2 * R + (if c then 1 else 0))) i = Z.testbit R (i - 1).
Proof.
  intros Hi. unfold Mach.u8, Mach.wrap.
  rewrite Z.mod_pow2_bits_low by lia.
  change (if c then 1 else 0) with (Z.b2z c).
  replace i with (Z.succ (i - 1)) at 1 by lia.
  apply Z.testbit_succ_r. lia.
Qed.

Lemma bits_shift (R R' : Z) :
  (forall i, 1 <= i <= 7 -> Z.testbit R' i = Z.testbit R (i - 1)) ->
  forall (n : nat) (j : Z), 0 <= j -> j + Z.of_nat n <= 7 ->
    (fun i => Z.testbit R (7 - i)) <$> seqZ (j + 1) (Z.of_nat n)
    = (fun i => Z.testbit R' (7 - i)) <$> seqZ j (Z.of_nat n).
Proof.
  intros Hrol. induction n as [| n IH]; intros j Hj Hle; [reflexivity |].
  rewrite (seqZ_cons (j + 1)), (seqZ_cons j) by lia.
  cbn [fmap list_fmap].
  replace (Z.pred (Z.of_nat (S n))) with (Z.of_nat n) by lia.
  f_equal.
  - rewrite Hrol by lia. f_equal. lia.
  - unfold Z.succ. apply IH; lia.
Qed.

Lemma waveform_app (hi lo : Z) (a b : list bool) :
  forall t, waveform hi lo t (a ++ b)
            = waveform hi lo t a ++ waveform hi lo (t + 20 * Z.of_nat (length a)) b.
Proof.
  induction a as [| x a IH]; intros t.
  - cbn [app waveform length Z.of_nat]. f_equal. lia.
  - cbn [app waveform length]. do 3 f_equal. rewrite IH. do 2 f_equal. lia.
Qed.

Ltac regs_eq :=
  repeat match goal with
         | |- @eq Z _ _ => lia
         | |- (_, _) = (_, _) => apply (f_equal2 pair)
         | |- Strip.MkRegs _ _ _ _ _ _ _ _ = _ => f_equal
         | |- _ ++ _ = _ ++ _ => apply (f_equal2 app)
         | |- _ :: _ = _ :: _ => apply (f_equal2 cons)
         | |- _ => reflexivity
         end.

Section Driver.

Variable sdBuf : list Z.
Variables hi lo : Z.

Lemma head20_bit (m : Strip.regs) :
  2 <= Strip.bit m <= 8 -> Strip.next m = lo ->
  Strip.head20 sdBuf hi lo m
  = ({| Strip.byte := Mach.u8 (2 * Strip.byte m + (if Strip.carry m then 1 else 0));
        Strip.bit := Strip.bit m - 1; Strip.next := lo; Strip.count := Strip.count m;
        Strip.ptr := Strip.ptr m; Strip.carry := Z.testbit (Strip.byte m) 7;
        Strip.clock := Strip.clock m + 20;
        Strip.wire := Strip.wire m
                      ++ waveform hi lo (Strip.clock m) [Z.testbit (Strip.byte m) 7] |},
     true).
Proof.
  destruct m as [b r nx cnt p c t w].
  cbn [Strip.byte Strip.bit Strip.next Strip.count Strip.ptr Strip.carry Strip.clock
       Strip.wire]. intros Hr ->.
  cbv [Strip.head20 Strip.st_port Strip.mov_next Strip.dec_bit Strip.tick Strip.rol_byte
       Strip.byte Strip.bit Strip.next Strip.count Strip.ptr Strip.carry Strip.clock
       Strip.wire waveform].
  destruct (Z.testbit b 7) eqn:Hb;
    cbv [Strip.head20 Strip.st_port Strip.mov_next Strip.dec_bit Strip.tick Strip.rol_byte
         Strip.byte Strip.bit Strip.next Strip.count Strip.ptr Strip.carry Strip.clock
         Strip.wire waveform];
    rewrite (u8_small (r - 1)) by lia;
    (destruct (Z.eqb_spec (r - 1) 0) as [E | _]; [lia |]);
    rewrite ?Hb; rewrite <- !app_assoc; cbn [app];
    regs_eq.
Qed.

Lemma head20_last (m : Strip.regs) :
  Strip.bit m = 1 -> Strip.next m = lo -> 1 <= Strip.count m <= 65535 ->
  Strip.head20 sdBuf hi lo m
  = ({| Strip.byte := sdBuf !!! Z.to_nat (Strip.ptr m);
        Strip.bit := 8; Strip.next := lo; Strip.count := Strip.count m - 1;
        Strip.ptr := Strip.ptr m + 1; Strip.carry := false;
        Strip.clock := Strip.clock m + (if Strip.count m =? 1 then 19 else 20);
        Strip.wire := Strip.wire m
                      ++ waveform hi lo (Strip.clock m) [Z.testbit (Strip.byte m) 7] |},
     negb (Strip.count m =? 1)).
Proof.
  destruct m as [b r nx cnt p c t w].
  cbn [Strip.byte Strip.bit Strip.next Strip.count Strip.ptr Strip.carry Strip.clock
       Strip.wire]. intros -> -> Hc.
  assert (Hlt : (cnt <? 1) = false) by (apply Z.ltb_ge; lia).
  cbv [Strip.head20 Strip.st_port Strip.mov_next Strip.dec_bit Strip.tick Strip.ldi_bit
       Strip.ld_byte Strip.sbiw_count
       Strip.byte Strip.bit Strip.next Strip.count Strip.ptr Strip.carry Strip.clock
       Strip.wire waveform].
  destruct (Z.testbit b 7) eqn:Hb;
    cbv [Strip.head20 Strip.st_port Strip.mov_next Strip.dec_bit Strip.tick Strip.ldi_bit
         Strip.ld_byte Strip.sbiw_count
         Strip.byte Strip.bit Strip.next Strip.count Strip.ptr Strip.carry Strip.clock
         Strip.wire waveform];
    change (Mach.u8 (1 - 1) =? 0) with true; cbv iota;
    cbv [Strip.head20 Strip.st_port Strip.mov_next Strip.dec_bit Strip.tick Strip.ldi_bit
         Strip.ld_byte Strip.sbiw_count
         Strip.byte Strip.bit Strip.next Strip.count Strip.ptr Strip.carry Strip.clock
         Strip.wire waveform];
    rewrite !(u16_small (cnt - 1)) by lia; rewrite ?Hlt;
    (destruct (Z.eqb_spec (cnt - 1) 0) as [E | N];
     destruct (Z.eqb_spec cnt 1) as [E1 | N1]; try lia);
    cbn [negb]; rewrite ?Hb; rewrite <- !app_assoc; cbn [app];
    regs_eq.
Qed.

Lemma run_byte (r : nat) :
  forall (m : Strip.regs) (fuel : nat),
    (1 <= r <= 8)%nat -> Strip.bit m = Z.of_nat r -> Strip.next m = lo ->
    1 <= Strip.count m <= 65535 ->
    Strip.run sdBuf hi lo (r + fuel) m
    = let m' :=
        {| Strip.byte := sdBuf !!! Z.to_nat (Strip.ptr m);
           Strip.bit := 8; Strip.next := lo; Strip.count := Strip.count m - 1;
           Strip.ptr := Strip.ptr m + 1; Strip.carry := false;
           Strip.clock := Strip.clock m + 20 * Z.of_nat r
                          - (if Strip.count m =? 1 then 1 else 0);
           Strip.wire := Strip.wire m
                         ++ waveform hi lo (Strip.clock m)
                              ((fun i => Z.testbit (Strip.byte m) (7 - i))
                                 <$> seqZ 0 (Z.of_nat r)) |} in
      if Strip.count m =? 1 then Some m' else Strip.run sdBuf hi lo fuel m'.
Proof.
  induction r as [| r IH]; intros m fuel Hr Hbit Hnext Hcount; [lia |].
  cbn [Nat.add Strip.run]. cbv zeta.
  destruct (Nat.eq_dec r 0%nat) as [-> | Hpos].
  - rewrite head20_last by (try assumption; lia).
    cbn [Nat.add]. change (seqZ 0 (Z.of_nat 1)) with [0]. cbn [fmap list_fmap].
    change (7 - 0) with 7.
    destruct (Z.eqb_spec (Strip.count m) 1) as [E | N]; cbn [negb].
    + do 2 f_equal. lia.
    + replace (Strip.clock m + 20 * Z.of_nat 1 - 0) with (Strip.clock m + 20) by lia.
      reflexivity.
  - rewrite head20_bit by (try assumption; lia).
    rewrite IH;
      cbn [Strip.byte Strip.bit Strip.next Strip.count Strip.ptr Strip.carry Strip.clock
           Strip.wire]; try lia; try reflexivity.
    assert (Hwire :
      (Strip.wire m ++ waveform hi lo (Strip.clock m) [Z.testbit (Strip.byte m) 7])
      ++ waveform hi lo (Strip.clock m + 20)
           ((fun i => Z.testbit
                        (Mach.u8 (2 * Strip.byte m + (if Strip.carry m then 1 else 0)))
                        (7 - i)) <$> seqZ 0 (Z.of_nat r))
      = Strip.wire m
        ++ waveform hi lo (Strip.clock m)
             ((fun i => Z.testbit (Strip.byte m) (7 - i)) <$> seqZ 0 (Z.of_nat (S r)))).
    { rewrite <- app_assoc. f_equal.
      rewrite (seqZ_cons 0 (Z.of_nat (S r))) by lia. cbn [fmap list_fmap].
      replace (Z.pred (Z.of_nat (S r))) with (Z.of_nat r) by lia.
      change (7 - 0) with 7. cbn [waveform app]. do 3 f_equal.
      f_equal. symmetry. change (Z.succ 0) with (0 + 1).
      apply bits_shift; [| lia | lia].
      intros i Hi. apply testbit_rol. exact Hi. }
    rewrite Hwire.
    replace (Strip.clock m + 20 + 20 * Z.of_nat r) with (Strip.clock m + 20 * Z.of_nat (S r))
      by lia.
    reflexivity.
Qed.

Lemma msb_first_seqZ (b : Z) :
  (fun i => Z.testbit b (7 - i)) <$> seqZ 0 (Z.of_nat 8) = msb_first b.
Proof. reflexivity. Qed.

Lemma run_bytes (c : nat) :
  forall (m : Strip.regs) (extra : nat),
    (1 <= c)%nat -> Strip.bit m = 8 -> Strip.next m = lo ->
    Strip.count m = Z.of_nat c -> Z.of_nat c <= 65535 ->
    1 <= Strip.ptr m ->
    Strip.byte m = sdBuf !!! Z.to_nat (Strip.ptr m - 1) ->
    exists m',
      Strip.run sdBuf hi lo (8 * c + extra) m = Some m'
      /\ Strip.wire m'
         = Strip.wire m
           ++ waveform hi lo (Strip.clock m)
                (flat_map msb_first
                   ((fun k => sdBuf !!! k) <$> seq (Z.to_nat (Strip.ptr m - 1)) c))
      /\ Strip.clock m' = Strip.clock m + 160 * Z.of_nat c - 1
      /\ Strip.ptr m' = Strip.ptr m + Z.of_nat c
      /\ Strip.count m' = 0.
Proof.
  induction c as [| c IH]; intros m extra Hc Hbit Hnext Hcount Hmax Hptr Hbyte; [lia |].
  replace (8 * S c + extra)%nat with (8 + (8 * c + extra))%nat by lia.
  rewrite (run_byte 8) by (try assumption; lia). cbv zeta.
  rewrite msb_first_seqZ.
  destruct (Nat.eq_dec c 0%nat) as [-> | Hpos].
  - rewrite Hcount. cbn [Z.of_nat Pos.of_succ_nat Z.eqb Pos.eqb].
    eexists. split; [reflexivity |].
    cbn [Strip.byte Strip.bit Strip.next Strip.count Strip.ptr Strip.carry Strip.clock
         Strip.wire seq fmap list_fmap flat_map].
    rewrite app_nil_r, Hbyte. repeat split; lia.
  - destruct (Z.eqb_spec (Strip.count m) 1) as [E | _]; [lia |].
    edestruct (IH
      {| Strip.byte := sdBuf !!! Z.to_nat (Strip.ptr m);
         Strip.bit := 8; Strip.next := lo; Strip.count := Strip.count m - 1;
         Strip.ptr := Strip.ptr m + 1; Strip.carry := false;
         Strip.clock := Strip.clock m + 20 * Z.of_nat 8 - 0;
         Strip.wire := Strip.wire m ++ waveform hi lo (Strip.clock m)
                                         (msb_first (Strip.byte m)) |} extra)
      as (m' & Hrun & Hwire & Hclock & Hp & Hcnt);
      cbn [Strip.byte Strip.bit Strip.next Strip.count Strip.ptr Strip.carry Strip.clock
           Strip.wire]; try lia; try reflexivity.
    { f_equal. lia. }
    exists m'. split; [exact Hrun |].
    cbn [Strip.byte Strip.bit Strip.next Strip.count Strip.ptr Strip.carry Strip.clock
         Strip.wire] in Hwire, Hclock, Hp.
    split; [| repeat split; lia].
    rewrite Hwire. rewrite <- app_assoc. f_equal.
    cbn [seq fmap list_fmap flat_map].
    rewrite waveform_app. rewrite Hbyte. f_equal.
    replace (Z.to_nat (Strip.ptr m + 1 - 1)) with (S (Z.to_nat (Strip.ptr m - 1))) by lia.
    f_equal. change (length (msb_first (sdBuf !!! Z.to_nat (Strip.ptr m - 1)))) with 8%nat.
    lia.
Qed.

End Driver.

Lemma take_lookups (l : list Z) (n : nat) :
  (n <= length l)%nat -> (fun k => l !!! k) <$> seq 0 n = take n l.
Proof.
  intros Hn. apply list_eq. intros i.
  rewrite list_lookup_fmap. destruct (Nat.lt_ge_cases i n) as [Hlt | Hge].
  - rewrite lookup_seq_lt by exact Hlt. cbn [fmap option_fmap option_map].
    rewrite lookup_take_lt by exact Hlt. cbn [Nat.add].
    symmetry. apply list_lookup_lookup_total_lt. lia.
  - rewrite lookup_seq_ge by exact Hge. rewrite lookup_take_ge by exact Hge. reflexivity.
Qed.

(** X23.  [show] clocks out the first [N_LEDS * 3] bytes of [sdBuf],
    each byte most significant bit first: bit number [k] of the stream
    drives the line high at cycle [20 k], keeps it high at cycle
    [20 k + 5] exactly when the bit is 1, and drives it low at cycle
    [20 k + 13].  The loop ends after 69119 cycles whatever the data and
    the carry flag on entry, has then read [sdBuf[0..432]] and nothing
    behind it, and more fuel changes nothing. *)
Theorem show_sends_bits_msb_first (sdBuf : list Z) (port pinMask : Z) (c : bool)
    (extra : nat) :
  length sdBuf = 512%nat ->
  exists m,
    Strip.show sdBuf port pinMask c (3456 + extra) = Some m
    /\ Strip.wire m
       = waveform (Mach.u8 (Z.lor port pinMask)) (Mach.u8 (Z.land port (Z.lnot pinMask))) 0
                  (flat_map msb_first (take 432 sdBuf))
    /\ Strip.clock m = 69119
    /\ Strip.ptr m = 433.
Proof.
  intros Hlen. unfold Strip.show. cbv zeta.
  change (Mach.u16 (N_LEDS * 3)) with (Z.of_nat 432).
  change (3456 + extra)%nat with (8 * 432 + extra)%nat.
  destruct (run_bytes sdBuf (Mach.u8 (Z.lor port pinMask))
              (Mach.u8 (Z.land port (Z.lnot pinMask))) 432
              {| Strip.byte := sdBuf !!! 0%nat; Strip.bit := 8;
                 Strip.next := Mach.u8 (Z.land port (Z.lnot pinMask));
                 Strip.count := Z.of_nat 432; Strip.ptr := 1; Strip.carry := c;
                 Strip.clock := 0; Strip.wire := [] |} extra)
    as (m & Hrun & Hwire & Hclock & Hptr & _).
  - apply le_n_S, Nat.le_0_l.
  - reflexivity.
  - reflexivity.
  - reflexivity.
  - apply Z.leb_le. reflexivity.
  - apply Z.leb_le. reflexivity.
  - reflexivity.
  - exists m. split; [exact Hrun |].
    split; [| split].
    + rewrite Hwire. rewrite <- (take_lookups sdBuf 432).
      * exact (app_nil_l _).
      * rewrite Hlen. apply Nat.leb_le. reflexivity.
    + rewrite Hclock. reflexivity.
    + rewrite Hptr. reflexivity.
Qed.

Lemma show_sends_bits_msb_first_witness :
  exists m,
    Strip.show (replicate 512 160) 0 64 false (3456 + 0) = Some m
    /\ Strip.wire m
       = waveform (Mach.u8 (Z.lor 0 64)) (Mach.u8 (Z.land 0 (Z.lnot 64))) 0
                  (flat_map msb_first (take 432 (replicate 512 160)))
    /\ Strip.clock m = 69119
    /\ Strip.ptr m = 433.
Proof.
  apply (show_sends_bits_msb_first (replicate 512 160) 0 64 false 0). reflexivity.
Defined.


(** ** Buttons *)






Lemma show_wire (sdBuf : list Z) (port pinMask : Z) (c : bool) (extra : nat) :
  length sdBuf = 512%nat ->
  exists m,
    Strip.show sdBuf port pinMask c (3456 + extra) = Some m
    /\ Strip.wire m
       = waveform (Mach.u8 (Z.lor port pinMask)) (Mach.u8 (Z.land port (Z.lnot pinMask))) 0
                  (flat_map msb_first (take 432 sdBuf)).
Proof.
  intros Hlen. unfold Strip.show. cbv zeta.
  change (Mach.u16 (N_LEDS * 3)) with (Z.of_nat 432).
  change (3456 + extra)%nat with (8 * 432 + extra)%nat.
  destruct (run_bytes sdBuf (Mach.u8 (Z.lor port pinMask))
              (Mach.u8 (Z.land port (Z.lnot pinMask))) 432
              {| Strip.byte := sdBuf !!! 0%nat; Strip.bit := 8;
                 Strip.next := Mach.u8 (Z.land port (Z.lnot pinMask));
                 Strip.count := Z.of_nat 432; Strip.ptr := 1; Strip.carry := c;
                 Strip.clock := 0; Strip.wire := [] |} extra)
    as (m & Hrun & Hwire & _).
  - apply le_n_S, Nat.le_0_l.
  - reflexivity.
  - reflexivity.
  - reflexivity.
  - apply Z.leb_le. reflexivity.
  - apply Z.leb_le. reflexivity.
  - reflexivity.
  - exists m. split; [exact Hrun |].
    rewrite Hwire. rewrite <- (take_lookups sdBuf 432).
    + exact (app_nil_l _).
    + rewrite Hlen. apply Nat.leb_le. reflexivity.
Qed.

Lemma msb_first_zeros (n : nat) :
  flat_map msb_first (replicate n 0) = replicate (8 * n) false.
Proof.
  induction n as [| n IH]; [reflexivity |].
  replace (8 * S n)%nat with (8 + 8 * n)%nat by lia.
  cbn [replicate flat_map]. rewrite IH. reflexivity.
Qed.

(** X25.  After [memset(sdBuf, 0, N_LEDS * 3)], as in [setup] and on the
    last pass of the playback loop, [show] sends 3456 zero bits: in every
    bit period the line is high for the first 5 cycles only.  The bytes
    of [sdBuf] behind the strip data do not matter. *)
Theorem dark_buffer_sends_zero_bits (buf : list Z) (port pinMask : Z) (c : bool)
    (extra : nat) :
  length buf = 512%nat ->
  exists m,
    Strip.show (Play.lights_off buf) port pinMask c (3456 + extra) = Some m
    /\ Strip.wire m
       = waveform (Mach.u8 (Z.lor port pinMask)) (Mach.u8 (Z.land port (Z.lnot pinMask))) 0
                  (replicate 3456 false).
Proof.
  intros Hlen.
  assert (Hoff : length (Play.lights_off buf) = 512%nat).
  { unfold Play.lights_off. rewrite length_app, length_replicate, length_drop, Hlen.
    reflexivity. }
  destruct (show_wire (Play.lights_off buf) port pinMask c extra Hoff) as (m & Hrun & Hwire).
  exists m. split; [exact Hrun |]. rewrite Hwire.
  assert (Htake : take 432 (Play.lights_off buf) = replicate 432 0).
  { unfold Play.lights_off. apply take_app_length'. symmetry. apply length_replicate. }
  rewrite Htake, (msb_first_zeros 432). reflexivity.
Qed.

Lemma dark_buffer_sends_zero_bits_witness :
  exists m,
    Strip.show (Play.lights_off (replicate 512 255)) 0 64 true (3456 + 0) = Some m
    /\ Strip.wire m
       = waveform (Mach.u8 (Z.lor 0 64)) (Mach.u8 (Z.land 0 (Z.lnot 64))) 0
                  (replicate 3456 false).
Proof.
  apply (dark_buffer_sends_zero_bits (replicate 512 255) 0 64 true 0). reflexivity.
Defined.

Lemma waveform_levels (hi lo : Z) (bits : list bool) :
  forall t, Forall (fun e => snd e = hi \/ snd e = lo) (waveform hi lo t bits).
Proof.
  induction bits as [| b bits IH]; intros t; cbn [waveform app].
  - constructor.
  - constructor; [left; reflexivity |].
    constructor; [destruct b; [left | right]; reflexivity |].
    constructor; [right; reflexivity |]. apply IH.
Qed.

Lemma u8_land_ones (x : Z) : Mach.u8 x = Z.land x (Z.ones 8).
Proof. unfold Mach.u8, Mach.wrap. symmetry. apply Z.land_ones. lia. Qed.

Lemma u8_high_bits (x i : Z) : is_u8 x -> 8 <= i -> Z.testbit x i = false.
Proof.
  unfold is_u8. intros Hx Hi.
  rewrite <- (Z.mod_small x (2 ^ 8)) by (change (2 ^ 8) with 256; lia).
  apply Z.mod_pow2_bits_high. lia.
Qed.

Lemma pin_levels (port pinMask : Z) :
  is_u8 port -> is_u8 pinMask ->
  let hi := Mach.u8 (Z.lor port pinMask) in
  let lo := Mach.u8 (Z.land port (Z.lnot pinMask)) in
  Z.land hi (Z.lnot pinMask) = Z.land port (Z.lnot pinMask)
  /\ Z.land lo (Z.lnot pinMask) = Z.land port (Z.lnot pinMask)
  /\ Z.land hi pinMask = pinMask
  /\ Z.land lo pinMask = 0.
Proof.
  intros Hp Hm. cbv zeta. rewrite !u8_land_ones.
  repeat split; apply Z.bits_inj'; intros i Hi;
    rewrite ?Z.land_spec, ?Z.lor_spec, ?Z.lnot_spec, ?Z.bits_0 by lia;
    (destruct (Z_lt_le_dec i 8) as [Hlt | Hge];
     [ rewrite Z.ones_spec_low by lia
     | rewrite Z.ones_spec_high by lia;
       rewrite ?(u8_high_bits port i Hp Hge), ?(u8_high_bits pinMask i Hm Hge) ]);
    destruct (Z.testbit port i), (Z.testbit pinMask i); reflexivity.
Qed.

(** X26.  [show] drives the strip pin and nothing else: every value it
    stores to the port has the bits of [pinMask] all set or all clear,
    and agrees with the port as it was on entry in every other bit. *)
Theorem show_leaves_other_pins (sdBuf : list Z) (port pinMask : Z) (c : bool)
    (extra : nat) :
  length sdBuf = 512%nat -> is_u8 port -> is_u8 pinMask ->
  exists m,
    Strip.show sdBuf port pinMask c (3456 + extra) = Some m
    /\ Forall (fun e => Z.land (snd e) (Z.lnot pinMask) = Z.land port (Z.lnot pinMask)
                        /\ (Z.land (snd e) pinMask = pinMask
                            \/ Z.land (snd e) pinMask = 0))
              (Strip.wire m).
Proof.
  intros Hlen Hp Hm.
  destruct (show_wire sdBuf port pinMask c extra Hlen) as (m & Hrun & Hwire).
  exists m. split; [exact Hrun |]. rewrite Hwire.
  destruct (pin_levels port pinMask Hp Hm) as (H1 & H2 & H3 & H4).
  eapply Forall_impl; [apply waveform_levels |].
  intros e [-> | ->]; auto.
Qed.

Lemma show_leaves_other_pins_witness :
  exists m,
    Strip.show (replicate 512 160) 129 64 false (3456 + 0) = Some m
    /\ Forall (fun e => Z.land (snd e) (Z.lnot 64) = Z.land 129 (Z.lnot 64)
                        /\ (Z.land (snd e) 64 = 64 \/ Z.land (snd e) 64 = 0))
              (Strip.wire m).
Proof.
  apply (show_leaves_other_pins (replicate 512 160) 129 64 false 0).
  - reflexivity.
  - unfold is_u8. lia.
  - unfold is_u8. lia.
Defined.
